(** * A shallow embedding of the layered variable store, the shell-style
      expander and the recursive renderer of [python_components]

    Sources embedded here:
    - [src/varmgr/lib/core.py]                     ([flatten])
    - [src/varmgr/lib/store_base.py]               ([StoreManager])
    - [src/expandvars/expandvars.py]               ([ExpandParser])
    - [src/varmgr/lib/store_engine_expandvars.py]  ([ExpandVarsEngine], [ExpandVarsInstance])
    - [src/varmgr/lib/store_template.py]           ([QueryCtl], [LazyQueryDict], [Renderer])

    Conventions.
    - Python strings are Rocq [string]s.  [isalnum] and [isspace] are those
      of ASCII: a character above 127 is neither here, where Python takes a
      letter or a digit of any script for alphanumeric.  The names of
      variables in the properties below are ASCII names for that reason.
    - A Python [dict] is an insertion-ordered association list ([PyDict]).
    - A method that mutates [self] is a function from the object before the
      call to the outcome and the object after it; an exception leaves
      whatever was mutated before it was raised.  The state of a render is
      the [_cache] of the renderer.
    - Recursion that Python bounds by its stack takes a [fuel]; a call that
      runs out of it ends in [OutOfFuel].
    - Payload values are [None], booleans, integers and strings.  The
      callables of the settings are total functions.  Printing and logging
      are left out.  A key that is not a string can reach [render_var] only
      through an indirect reference ([${!X}]) whose first value is not a
      string.  The code goes on with that key (no payload holds it, so the
      render ends as that of an undefined variable does); the embedding,
      whose keys are strings, stops there with [NotEmbedded], and no
      property below relies on the outcome of such a lookup. *)

From Stdlib Require Import String Ascii List ZArith Lia Bool Arith DecimalString.
From Stdlib Require Import Permutation Sorted.
Import ListNotations.
Open Scope list_scope.
Open Scope string_scope.

Set Implicit Arguments.
Set Warnings "-register-all".

(** ** Python values found in payloads *)

Inductive value : Type :=
| VNone
| VBool (b : bool)
| VInt (z : Z)
| VStr (s : string).

(** ** Insertion-ordered dictionaries with string keys *)

Module PyDict.
Section Dict.
Variable V : Type.

Definition t := list (string * V).

Definition empty : t := [].

(** [d.get(k)] *)
Fixpoint get (d : t) (k : string) : option V :=
match d with
| [] => None
| (k', v) :: r => if String.eqb k' k then Some v else get r k
end.

(** [k in d] *)
Definition mem (d : t) (k : string) : bool :=
match get d k with Some _ => true | None => false end.

(** [d[k] = v]: an existing key keeps its position, a new one goes last *)
Fixpoint set (d : t) (k : string) (v : V) : t :=
match d with
| [] => [(k, v)]
| (k', v') :: r =>
    if String.eqb k' k then (k', v) :: r else (k', v') :: set r k v
end.

(** [d.update(d')] *)
Definition update (d d' : t) : t :=
fold_left (fun acc kv => set acc (fst kv) (snd kv)) d' d.

Definition keys (d : t) : list string := map fst d.
Definition values (d : t) : list V := map snd d.
Definition items (d : t) : list (string * V) := d.
End Dict.
End PyDict.

Arguments PyDict.empty {V}.

(** ** [store_base.py]: sources, layers *)

Definition DEFAULT_LEVEL : Z := 500.

Record Source : Type := mkSource {
  name : string;
  level : option Z;
  help : option string
}.

Record Layer : Type := mkLayer {
  source : Source;
  payload : PyDict.t value;
  meta : PyDict.t value
}.

(** One entry of a scope definition while [set_scopes] merges: the caller's
    dict holds names, the scopes resolved by an earlier call hold [Source]
    objects. *)
Inductive item : Type :=
| Ref (item_ref : string)
| Obj (s : Source).

(** What [scope_solver] returns before [flatten]: sources, and one nested
    list per scope reference. *)
Inductive nested : Type :=
| NSource (s : Source)
| NList (l : list nested).

(** ** Exceptions *)

Inductive exn : Type :=
(* store_base.py *)
| AlreadyExistingSourceError (name : string)
| VarMgrAppError_recursive (scope_name : string) (stack : list string)
| VarMgrAppError_not_found (item_ref : item) (scope_name : string)
| VarMgrAppError_source_not_found (source_name : string)
| UndefinedVarError (variable : string)
(* core_engine.py *)
| TemplateRenderingCircularValueError (key : string) (stack : list string)
| InvalidTemplateVarNameError
(* expandvars.py, the subclasses of ExpandvarsException *)
| MissingClosingBrace (param : string)
| MissingExcapedChar (param : string)
| OperandExpected (param : string) (operand : string)
| NegativeSubStringExpression (param : string) (expr : string)
| BadSubstitution (param : string)
| ParameterNullOrNotSet (param : string) (msg : option string)
| UnboundVariable (param : string)
(* builtins *)
| KeyError (key : string)
| ValueError
| TypeError
| AttributeError
| AssertionError
| UnboundLocalError (local : string)
(* a call that leaves the embedding: [render_var], annotated
   [var_name: str], reached with a key that is not a string *)
| NotEmbedded.

(** [isinstance(e, ExpandvarsException)] *)
Definition is_ExpandvarsException (e : exn) : bool :=
  match e with
  | MissingClosingBrace _ | MissingExcapedChar _ | OperandExpected _ _
  | NegativeSubStringExpression _ _ | BadSubstitution _
  | ParameterNullOrNotSet _ _ | UnboundVariable _ => true
  | _ => false
  end.

(** Outcome of a call.  [OutOfFuel] stands for a recursion deeper than the
    fuel given to the model (Python: [RecursionError]). *)
Inductive result (A : Type) : Type :=
| Ok (a : A)
| Raise (e : exn)
| OutOfFuel.

Arguments Ok {A} a.
Arguments Raise {A} e.
Arguments OutOfFuel {A}.

(** ** [core.py] *)

(** [flatten]: a [Source] is not iterable, so it is yielded as it is. *)
Fixpoint flatten (n : nested) : list Source :=
  match n with
  | NSource s => [s]
  | NList l => flat_map flatten l
  end.

(** ** [store_base.py]: [StoreManager] *)

Record StoreManager : Type := mkStore {
  layered_store : PyDict.t Layer;
  _sources : PyDict.t Source;
  _scopes : PyDict.t (list Source)
}.

(** [StoreManager()] *)
Definition StoreManager_init : StoreManager :=
  mkStore PyDict.empty PyDict.empty PyDict.empty.

Definition with_sources (self : StoreManager) (s : PyDict.t Source) :=
  mkStore (layered_store self) s (_scopes self).
Definition with_scopes (self : StoreManager) (s : PyDict.t (list Source)) :=
  mkStore (layered_store self) (_sources self) s.
Definition with_layers (self : StoreManager) (l : PyDict.t Layer) :=
  mkStore l (_sources self) (_scopes self).

(** The two shapes of the first argument of [add_sources]. *)
Inductive sources_arg : Type :=
| ArgList (l : list Source)
| ArgSource (s : Source).

(** [StoreManager.add_sources(args, force)] *)
Definition add_sources (self : StoreManager) (args : sources_arg)
    (force : bool) : result unit * StoreManager :=
  match args with
  | ArgList l =>
      (Ok tt,
       with_sources self
         (fold_left (fun d s => PyDict.set d (name s) s) l (_sources self)))
  | ArgSource s =>
      if PyDict.mem (_sources self) (name s) && negb force
      then (Raise (AlreadyExistingSourceError (name s)), self)
      else (Ok tt, with_sources self (PyDict.set (_sources self) (name s) s))
  end.

(** The positional arguments of [set_scopes]: one dict, a name and a list, or any other
    number of arguments. *)
Inductive scopes_args : Type :=
| Args1 (scopes : PyDict.t (list string))
| Args2 (name : string) (scope : list string)
| ArgsN (n : nat).

(** [item_ref in _seen] *)
Definition in_seen (x : string) (seen : list string) : bool :=
  existsb (String.eqb x) seen.

(** The [for] loop of [scope_solver] and the [return] after it.
    [solve] is the recursive call; [_seen] is one list object shared by the
    whole recursion below a top-level call (it is appended to and never
    popped), so it is threaded through and returned.  A [Source] object
    ([Obj]) is a key of neither dict. *)
Fixpoint scope_solver_loop
    (solve : string -> list item -> list string
             -> result (list nested) * list string)
    (scope_name : string) (scopes : PyDict.t (list string))
    (sources : PyDict.t Source) (scope_items : list item)
    (out : list nested) (_seen : list string) {struct scope_items}
    : result (list nested) * list string :=
  match scope_items with
  | [] => (Ok out, _seen)
  | Obj s :: _ => (Raise (VarMgrAppError_not_found (Obj s) scope_name), _seen)
  | Ref item_ref :: rest =>
      match PyDict.get sources item_ref with
      | Some source =>
          scope_solver_loop solve scope_name scopes sources rest
            (out ++ [NSource source])%list _seen
      | None =>
          match PyDict.get scopes item_ref with
          | Some sub_items =>
              if in_seen item_ref _seen
              then (Raise (VarMgrAppError_recursive scope_name
                             (scope_name :: _seen)), _seen)
              else
                match solve item_ref (map Ref sub_items)
                        (_seen ++ [item_ref])%list with
                | (Ok sub, _seen') =>
                    scope_solver_loop solve scope_name scopes sources rest
                      (out ++ [NList sub])%list _seen'
                | (Raise e, _seen') => (Raise e, _seen')
                | (OutOfFuel, _seen') => (OutOfFuel, _seen')
                end
          | None =>
              (Raise (VarMgrAppError_not_found (Ref item_ref) scope_name),
               _seen)
          end
      end
  end.

(** The nested function [scope_solver] of [set_scopes]; one unit of [fuel]
    per call.  [scopes] is the dict the caller passed, with names as
    entries. *)
Fixpoint scope_solver (fuel : nat) (scope_name : string)
    (scope_items : list item) (scopes : PyDict.t (list string))
    (sources : PyDict.t Source) (_seen : list string) {struct fuel}
    : result (list nested) * list string :=
  match fuel with
  | O => (OutOfFuel, _seen)
  | S fuel' =>
      scope_solver_loop
        (fun item_ref sub_items _seen =>
           scope_solver fuel' item_ref sub_items scopes sources _seen)
        scope_name scopes sources scope_items [] _seen
  end.

(** The registration loop of [set_scopes] over [obj_scopes.items()].
    [scopes] is [None] when the local of that name was never bound (the
    two-argument call). *)
Fixpoint register_scopes (obj_items : list (string * list item))
    (scopes : option (PyDict.t (list string))) (sources : PyDict.t Source)
    (_out : PyDict.t (list Source)) : result (PyDict.t (list Source)) :=
  match obj_items with
  | [] => Ok _out
  | (scope_name, items_list) :: rest =>
      match scopes with
      | None => Raise (UnboundLocalError "scopes")
      | Some scopes_ =>
          match scope_solver (S (length scopes_)) scope_name items_list
                  scopes_ sources [] with
          | (Ok solved, _) =>
              register_scopes rest scopes sources
                (PyDict.set _out scope_name (flatten (NList solved)))
          | (Raise e, _) => Raise e
          | (OutOfFuel, _) => OutOfFuel
          end
      end
  end.

(** [dict(self._scopes)] seen as the dict [set_scopes] merges into. *)
Definition obj_scopes_of (s : PyDict.t (list Source)) : PyDict.t (list item) :=
  map (fun kv => (fst kv, map Obj (snd kv))) s.

Definition names_as_items (d : PyDict.t (list string)) : PyDict.t (list item) :=
  map (fun kv => (fst kv, map Ref (snd kv))) d.

(** [StoreManager.set_scopes], with its positional arguments *)
Definition set_scopes (self : StoreManager) (args : scopes_args)
    : result unit * StoreManager :=
  let obj_scopes := obj_scopes_of (_scopes self) in
  match args with
  | Args1 scopes =>
      let obj_scopes := PyDict.update obj_scopes (names_as_items scopes) in
      match register_scopes (PyDict.items obj_scopes) (Some scopes)
              (_sources self) PyDict.empty with
      | Ok _out => (Ok tt, with_scopes self _out)
      | Raise e => (Raise e, self)
      | OutOfFuel => (OutOfFuel, self)
      end
  | Args2 name scope =>
      let obj_scopes := PyDict.set obj_scopes name (map Ref scope) in
      match register_scopes (PyDict.items obj_scopes) None
              (_sources self) PyDict.empty with
      | Ok _out => (Ok tt, with_scopes self _out)
      | Raise e => (Raise e, self)
      | OutOfFuel => (OutOfFuel, self)
      end
  | ArgsN _ => (Raise ValueError, self)
  end.

(** [lvl_sorter] of [get_ordered_sources] *)
Definition lvl_sorter (item : Source) : Z :=
  match level item with
  | None => DEFAULT_LEVEL
  | Some lvl => lvl
  end.

(** [sorted(..., key=lvl_sorter)]: a stable sort, here by insertion. *)
Fixpoint insert_sorted (x : Source) (l : list Source) : list Source :=
  match l with
  | [] => [x]
  | y :: r =>
      if (lvl_sorter x <? lvl_sorter y)%Z then x :: y :: r
      else y :: insert_sorted x r
  end.

Definition sorted (l : list Source) : list Source :=
  fold_left (fun acc x => insert_sorted x acc) l [].

(** [StoreManager.get_ordered_sources(scope)] *)
Definition get_ordered_sources (self : StoreManager) (scope : option string)
    : result (list Source) :=
  match scope with
  | None => Ok (sorted (PyDict.values (_sources self)))
  | Some sc =>
      match PyDict.get (_scopes self) sc with
      | Some l => Ok l
      | None => Raise (KeyError sc)
      end
  end.

(** [StoreManager.get_source_names(scope)] *)
Definition get_source_names (self : StoreManager) (scope : option string)
    : result (list string) :=
  match get_ordered_sources self scope with
  | Ok l => Ok (map name l)
  | Raise e => Raise e
  | OutOfFuel => OutOfFuel
  end.

(** [StoreManager.set_layer(source_name, dataset, kwargs)] *)
Definition set_layer (self : StoreManager) (source_name : string)
    (dataset : PyDict.t value) (kwargs : PyDict.t value)
    : result unit * StoreManager :=
  match PyDict.get (_sources self) source_name with
  | None => (Raise (VarMgrAppError_source_not_found source_name), self)
  | Some src =>
      (Ok tt,
       with_layers self
         (PyDict.set (layered_store self) source_name
            (mkLayer src dataset kwargs)))
  end.

(** The loop of [get_ordered_layers]. *)
Fixpoint layers_of (store : PyDict.t Layer) (accepted_sources : list Source)
    : list Layer :=
  match accepted_sources with
  | [] => []
  | src :: rest =>
      match PyDict.get store (name src) with
      | Some l => l :: layers_of store rest
      | None => layers_of store rest
      end
  end.

(** [StoreManager.get_ordered_layers(scope)] *)
Definition get_ordered_layers (self : StoreManager) (scope : option string)
    : result (list Layer) :=
  match get_ordered_sources self scope with
  | Ok accepted_sources => Ok (layers_of (layered_store self) accepted_sources)
  | Raise e => Raise e
  | OutOfFuel => OutOfFuel
  end.

(** The loop of [get_var]: [_out] collects the layers that hold [name];
    without [debug] the first one is returned at once. *)
Fixpoint get_var_loop (layers : list Layer) (name : string) (debug : bool)
    (_out : list Layer) : Layer + list Layer :=
  match layers with
  | [] => inr _out
  | layer :: rest =>
      if PyDict.mem (payload layer) name
      then if debug then get_var_loop rest name debug (_out ++ [layer])%list
           else inl layer
      else get_var_loop rest name debug _out
  end.

(** [StoreManager.get_var(name, scope, debug)] *)
Definition get_var (self : StoreManager) (name : string)
    (scope : option string) (debug : bool) : result (Layer + list Layer) :=
  match get_ordered_layers self scope with
  | Ok layers =>
      match get_var_loop layers name debug [] with
      | inl layer => Ok (inl layer)
      | inr [] => Raise (UndefinedVarError name)
      | inr _out => Ok (inr _out)
      end
  | Raise e => Raise e
  | OutOfFuel => OutOfFuel
  end.

(** [StoreManager.inspect_var(name, scope)] *)
Definition inspect_var (self : StoreManager) (name : string)
    (scope : option string) : result (Layer + list Layer) :=
  get_var self name scope true.

(** [StoreManager.get_value(name, scope)]:
    [self.get_var(name, scope=scope).payload[name]] *)
Definition get_value (self : StoreManager) (name : string)
    (scope : option string) : result value :=
  match get_var self name scope false with
  | Ok (inl layer) =>
      match PyDict.get (payload layer) name with
      | Some v => Ok v
      | None => Raise (KeyError name)
      end
  | Ok (inr _) => Raise AttributeError
  | Raise e => Raise e
  | OutOfFuel => OutOfFuel
  end.

(** [StoreManager.get_var_names(scope)]: [list(set(...))], each name once
    (a Python [set] promises no order; here each name stands where it
    occurs last). *)
Definition get_var_names (self : StoreManager) (scope : option string)
    : result (list string) :=
  match get_ordered_layers self scope with
  | Ok layers =>
      Ok (nodup string_dec
            (flat_map (fun l => PyDict.keys (payload l)) layers))
  | Raise e => Raise e
  | OutOfFuel => OutOfFuel
  end.

(** The inner loop of [get_values]: the items of one payload, kept when the
    key is not in [out] yet. *)
Fixpoint get_values_payload (items : list (string * value))
    (out : PyDict.t value) : PyDict.t value :=
  match items with
  | [] => out
  | (key, val) :: rest =>
      get_values_payload rest
        (if PyDict.mem out key then out else PyDict.set out key val)
  end.

(** The outer loop of [get_values]. *)
Fixpoint get_values_loop (order : list Layer) (out : PyDict.t value)
    : PyDict.t value :=
  match order with
  | [] => out
  | layer :: rest =>
      get_values_loop rest
        (get_values_payload (PyDict.items (payload layer)) out)
  end.

(** [StoreManager.get_values(scope)] *)
Definition get_values (self : StoreManager) (scope : option string)
    : result (PyDict.t value) :=
  match get_ordered_layers self scope with
  | Ok order => Ok (get_values_loop order PyDict.empty)
  | Raise e => Raise e
  | OutOfFuel => OutOfFuel
  end.

(** ** Python built-ins used by the expander *)

Definition ESCAPE_CHAR : ascii := "\"%char.

(** [bool(v)] *)
Definition truthy (v : value) : bool :=
  match v with
  | VNone => false
  | VBool b => b
  | VInt z => negb (z =? 0)%Z
  | VStr s => negb (String.eqb s "")
  end.

(** [str(v)] *)
Definition py_str (v : value) : string :=
  match v with
  | VNone => "None"
  | VBool true => "True"
  | VBool false => "False"
  | VInt z => DecimalString.NilZero.string_of_int (Z.to_int z)
  | VStr s => s
  end.

(** [c == sym] for a character [c] of a string and a string [sym] *)
Definition char_is (c : ascii) (sym : string) : bool :=
  String.eqb (String c "") sym.

(** [s * n] *)
Fixpoint str_repeat (s : string) (n : nat) : string :=
  match n with
  | O => ""
  | S n' => s ++ str_repeat s n'
  end.

(** [s[n:]] for [0 <= n] *)
Fixpoint str_drop (n : nat) (s : string) : string :=
  match n, s with
  | O, _ => s
  | S n', String _ r => str_drop n' r
  | S _, EmptyString => ""
  end.

(** [s[:n]] for [0 <= n] *)
Fixpoint str_take (n : nat) (s : string) : string :=
  match n, s with
  | O, _ => ""
  | S n', String c r => String c (str_take n' r)
  | S _, EmptyString => ""
  end.

(** A slice bound brought into [0 .. len], negative bounds counting from
    the end. *)
Definition slice_bound (len : nat) (i : Z) : nat :=
  let n := Z.of_nat len in
  let i' := if (i <? 0)%Z then (i + n)%Z else i in
  Z.to_nat (Z.max 0 (Z.min n i')).

(** [s[start:stop]]; [stop = None] is [s[start:]] *)
Definition py_slice (s : string) (start : Z) (stop : option Z) : string :=
  let len := String.length s in
  let a := slice_bound len start in
  let b := match stop with
           | None => len
           | Some e => slice_bound len e
           end in
  str_take (b - a) (str_drop a s).

Definition is_digit (c : ascii) : bool :=
  let n := nat_of_ascii c in Nat.leb 48 n && Nat.leb n 57.

(** [c.isalnum()] on ASCII *)
Definition isalnum (c : ascii) : bool :=
  let n := nat_of_ascii c in
  is_digit c || (Nat.leb 65 n && Nat.leb n 90) || (Nat.leb 97 n && Nat.leb n 122).

(** [c.isspace()] on ASCII *)
Definition isspace (c : ascii) : bool :=
  let n := nat_of_ascii c in
  (Nat.leb 9 n && Nat.leb n 13) || (Nat.leb 28 n && Nat.leb n 32).

Fixpoint lstrip (s : string) : string :=
  match s with
  | String c r => if isspace c then lstrip r else s
  | EmptyString => ""
  end.

Fixpoint str_rev_onto (s acc : string) : string :=
  match s with
  | EmptyString => acc
  | String c r => str_rev_onto r (String c acc)
  end.

Definition str_rev (s : string) : string := str_rev_onto s "".

(** [s.strip()] *)
Definition strip (s : string) : string :=
  str_rev (lstrip (str_rev (lstrip s))).

(** The digits of [int(s)]: decimal digits, single underscores allowed
    between two digits.  [prev] tells whether the previous character was a
    digit. *)
Fixpoint int_digits (s : string) (acc : Z) (prev : bool) : option Z :=
  match s with
  | EmptyString => if prev then Some acc else None
  | String c r =>
      if is_digit c
      then int_digits r (10 * acc + Z.of_nat (nat_of_ascii c - 48))%Z true
      else if Ascii.eqb c "_" && prev
           then match r with
                | String c' _ =>
                    if is_digit c' then int_digits r acc false else None
                | EmptyString => None
                end
           else None
  end.

(** [int(s)], [None] for [ValueError] *)
Definition py_int (s : string) : option Z :=
  match strip s with
  | String "+" r => int_digits r 0 false
  | String "-" r => option_map Z.opp (int_digits r 0 false)
  | s' => int_digits s' 0 false
  end.

(** ** [expandvars.py] *)

(** [_valid_char] *)
Definition _valid_char (c : ascii) : bool :=
  isalnum c || Ascii.eqb c "_".

(** [_isint] *)
Definition _isint (val : string) : bool :=
  match py_int val with Some _ => true | None => false end.

(** [all(_valid_char(c) for c in s)] *)
Fixpoint all_valid (s : string) : bool :=
  match s with
  | EmptyString => true
  | String c r => _valid_char c && all_valid r
  end.

(** The [feat_pid] argument of [ExpandParser]: [True], a string, or
    anything else. *)
Inductive feat_pid_t : Type :=
| PidTrue
| PidStr (s : string)
| PidOther.

(** *** Computations that can raise and that thread a state [St] *)

Definition M (St A : Type) : Type := St -> result A * St.

Definition ret {St A : Type} (a : A) : M St A := fun st => (Ok a, st).

Definition raise {St A : Type} (e : exn) : M St A := fun st => (Raise e, st).

Definition out_of_fuel {St A : Type} : M St A := fun st => (OutOfFuel, st).

Definition bind {St A B : Type} (m : M St A) (k : A -> M St B) : M St B :=
  fun st =>
    match m st with
    | (Ok a, st') => k a st'
    | (Raise e, st') => (Raise e, st')
    | (OutOfFuel, st') => (OutOfFuel, st')
    end.

(** [try: m  except <handled>: h] *)
Definition try_except {St A : Type} (m : M St A) (h : exn -> option (M St A))
    : M St A :=
  fun st =>
    match m st with
    | (Raise e, st') =>
        match h e with
        | Some k => k st'
        | None => (Raise e, st')
        end
    | r => r
    end.

Declare Scope monad_scope.
Delimit Scope monad_scope with monad.
Notation "x <- m ;; k" := (bind m (fun x => k))
  (at level 61, m at next level, right associativity) : monad_scope.
Open Scope monad_scope.

(** [left + right] where [right] is known to be a string *)
Definition add_value_str {St : Type} (left : value) (right : string)
    : M St string :=
  match left with
  | VStr s => ret (s ++ right)
  | _ => raise TypeError
  end.

(** [left + right] where [left] is known to be a string *)
Definition add_str_value {St : Type} (left : string) (right : value)
    : M St string :=
  match right with
  | VStr s => ret (left ++ s)
  | _ => raise TypeError
  end.

Module ExpandParser.
Section Parser.
(** What the lookups of the environment can read and change. *)
Variable St : Type.

(** The [environ] object of a parser, as the calls the parser makes on
  it: [environ.get(key)], [environ.get(var, default)] and
  [environ.update({var: modifier})]. *)
Record Environ : Type := mkEnviron {
get : value -> M St value;
get_default : string -> value -> M St value;
update : string -> string -> M St unit
}.

(** The attributes of an [ExpandParser]. *)
Record t : Type := mk {
nounset : bool;
environ : Environ;
var_symbol : string;
feat_pid : feat_pid_t
}.

(** The module constant [RECOVER_NULL] and the value of [os.getpid()]. *)
Variable RECOVER_NULL : option string.
Variable os_getpid : Z.

Variable self : t.

(** [getenv(var, indirect, default)] *)
Definition getenv (var : string) (indirect : bool) (default : option string)
  : M St value :=
val <- get (environ self) (VStr var) ;;
val <- match val with
       | VNone => ret val
       | _ => if indirect then get (environ self) val else ret val
       end ;;
if truthy val then ret val
else
  match default with
  | Some d => ret (VStr d)
  | None =>
      if nounset self
      then match RECOVER_NULL with
           | Some r => ret (VStr r)
           | None => raise (UnboundVariable var)
           end
      else ret (VStr "")
  end.

(** [_expand_strict(var, modifier)] *)
Definition _expand_strict (var modifier : string) : M St value :=
val <- get_default (environ self) var (VStr "") ;;
if truthy val then ret val
else
  match RECOVER_NULL with
  | Some r => ret (VStr r)
  | None =>
      raise (ParameterNullOrNotSet var
               (if String.eqb modifier "" then None else Some modifier))
  end.

(** [_expand_length(var, modifier, offset)] *)
Definition _expand_length (var modifier : string) (offset : Z)
  : M St string :=
let length_str := strip modifier in
length <-
  (if String.eqb length_str "" then ret None
   else
     match py_int length_str with
     | None =>
         if negb (all_valid length_str)
         then raise (OperandExpected var length_str)
         else ret None
     | Some length =>
         if (length <? 0)%Z
         then raise (NegativeSubStringExpression var length_str)
         else ret (Some length)
     end) ;;
let width := match length with
             | None => 0%Z
             | Some l => (offset + l)%Z
             end in
v <- getenv var false None ;;
ret (py_slice (py_str v) offset (Some width)).

(** The offset read by [_expand_offset] from [offset_str]. *)
Definition offset_of (offset_str : string) : Z :=
if String.eqb offset_str "" || negb (_isint offset_str) then 0%Z
else match py_int offset_str with Some z => z | None => 0%Z end.

(** The [for] loop of [_expand_offset] and what follows it. *)
Fixpoint _expand_offset_loop (var rest buff : string) {struct rest}
  : M St string :=
match rest with
| EmptyString =>
    let offset := offset_of (strip buff) in
    v <- getenv var false None ;;
    ret (py_slice (py_str v) offset None)
| String c rest' =>
    if Ascii.eqb c ":"
    then _expand_length var rest' (offset_of buff)
    else _expand_offset_loop var rest' (buff ++ String c "")
end.

(** [_expand_offset(var, modifier)] *)
Definition _expand_offset (var modifier : string) : M St string :=
_expand_offset_loop var modifier "".

(** [_expand_substitute(var, modifier)] *)
Definition _expand_substitute (var modifier : string) : M St string :=
v <- get (environ self) (VStr var) ;;
ret (if truthy v then modifier else "").

(** [_expand_default(var, modifier, set_, indirect)] *)
Definition _expand_default (var modifier : string) (set_ indirect : bool)
  : M St value :=
_ <- (if set_
      then v <- get (environ self) (VStr var) ;;
           if negb (truthy v) then update (environ self) var modifier
           else ret tt
      else ret tt) ;;
getenv var indirect (Some modifier).

(** The scan of [_expand_advanced] for the closing brace: the modifier
  read so far and the depth left ([0] when the loop broke out). *)
Fixpoint scan_modifier (rest modifier : string) (depth : nat)
  : string * nat :=
match rest with
| EmptyString => (modifier, depth)
| String c rest' =>
    if Ascii.eqb c "{"
    then scan_modifier rest' (modifier ++ String c "") (depth + 1)
    else if Ascii.eqb c "}"
    then if Nat.eqb (depth - 1) 0 then (modifier, 0)
         else scan_modifier rest' (modifier ++ String c "") (depth - 1)
    else scan_modifier rest' (modifier ++ String c "") depth
end.

(** The run of [var_symbol] at the head of [s], counted by the loop of
  [expand_var]. *)
Fixpoint count_symbols (s : string) : nat :=
match s with
| String c r => if char_is c (var_symbol self) then S (count_symbols r) else 0
| EmptyString => 0
end.

Section Methods.
(** [self.expand] and [self.escape] as the methods below call them. *)
Variable self_expand : string -> M St string.
Variable self_escape : string -> M St string.

(** [escape(vars_)] *)
Definition escape_ (vars_ : string) : M St string :=
match vars_ with
| EmptyString => raise (MissingExcapedChar vars_)
| String c0 EmptyString => ret (String c0 "")
| String c0 (String c1 r2 as r1) =>
    if char_is c0 (var_symbol self)
    then r <- self_expand r1 ;; ret (String c0 r)
    else
      let other :=
        r <- self_expand r1 ;; ret (String ESCAPE_CHAR (String c0 r)) in
      if Ascii.eqb c0 ESCAPE_CHAR
      then if char_is c1 (var_symbol self)
           then r <- self_expand r1 ;; ret (String ESCAPE_CHAR r)
           else if Ascii.eqb c1 ESCAPE_CHAR
           then r <- self_escape r2 ;; ret (String ESCAPE_CHAR r)
           else other
      else other
end.

(** [_expand_advanced(var, vars_, indirect)] *)
Definition _expand_advanced (var vars_ : string) (indirect : bool)
  : M St string :=
if String.eqb vars_ "" then raise (MissingClosingBrace var)
else
  let (modifier, depth) := scan_modifier vars_ "" 1 in
  if negb (Nat.eqb depth 0) then raise (MissingClosingBrace var)
  else
    let vars_ := str_drop (String.length modifier + 1) vars_ in
    modifier <- self_expand modifier ;;
    match modifier with
    | EmptyString => raise (BadSubstitution var)
    | String m0 m1 =>
        if Ascii.eqb m0 "-"
        then l <- _expand_default var m1 false indirect ;;
             r <- self_expand vars_ ;; add_value_str l r
        else if Ascii.eqb m0 "="
        then l <- _expand_default var m1 true indirect ;;
             r <- self_expand vars_ ;; add_value_str l r
        else if Ascii.eqb m0 "+"
        then l <- _expand_substitute var m1 ;;
             r <- self_expand vars_ ;; ret (l ++ r)
        else if Ascii.eqb m0 "?"
        then l <- _expand_strict var m1 ;;
             r <- self_expand vars_ ;; add_value_str l r
        else l <- _expand_offset var modifier ;;
             r <- self_expand vars_ ;; ret (l ++ r)
    end.

(** The [for] loop of [_expand_modifier_var] and the [raise] after it;
  [rest] is [vars_[len(buff):]]. *)
Fixpoint _expand_modifier_var_loop (indirect : bool) (rest buff : string)
  {struct rest} : M St string :=
match rest with
| EmptyString => raise (MissingClosingBrace buff)
| String c rest' =>
    if _valid_char c
    then _expand_modifier_var_loop indirect rest' (buff ++ String c "")
    else if Ascii.eqb c "}"
    then v <- getenv buff indirect None ;;
         r <- self_expand rest' ;;
         ret (py_str v ++ r)
    else _expand_advanced buff
           (if Ascii.eqb c ":" then rest' else rest) indirect
end.

(** [_expand_modifier_var(vars_)] *)
Definition _expand_modifier_var (vars_ : string) : M St string :=
if Nat.leb (String.length vars_) 1 then raise (BadSubstitution vars_)
else
  match vars_ with
  | String "!" r => _expand_modifier_var_loop true r ""
  | _ => _expand_modifier_var_loop false vars_ ""
  end.

(** The last [for] loop of [expand_var] and the [return] after it;
  [rest] is [vars_[len(buff):]]. *)
Fixpoint expand_var_loop (vars_ rest buff : string) {struct rest}
  : M St value :=
match rest with
| EmptyString => getenv buff false None
| String c rest' =>
    if _valid_char c
    then expand_var_loop vars_ rest' (buff ++ String c "")
    else if negb (String.eqb buff "")
    then v <- getenv buff false None ;;
         r <- self_expand rest ;;
         ret (VStr (py_str v ++ r))
    else r <- self_expand vars_ ;;
         ret (VStr (var_symbol self ++ r))
end.

(** [expand_var(vars_)].  The last [return] hands back what [getenv]
  gave, which need not be a string. *)
Definition expand_var (vars_ : string) : M St value :=
match vars_ with
| EmptyString => ret (VStr (var_symbol self))
| String c0 r1 =>
    if Ascii.eqb c0 ESCAPE_CHAR
    then r <- self_escape r1 ;; ret (VStr (var_symbol self ++ r))
    else if char_is c0 (var_symbol self)
    then
      let times := 2 + count_symbols r1 in
      let verbatim :=
        r <- self_expand (str_drop (times - 1) vars_) ;;
        ret (VStr (str_repeat (var_symbol self) times ++ r)) in
      if Nat.eqb times 2
      then match feat_pid self with
           | PidTrue =>
               r <- self_expand r1 ;;
               ret (VStr (py_str (VInt os_getpid) ++ r))
           | PidStr pid =>
               r <- self_expand r1 ;; ret (VStr (pid ++ r))
           | PidOther => verbatim
           end
      else verbatim
    else if Ascii.eqb c0 "{"
    then r <- _expand_modifier_var r1 ;; ret (VStr r)
    else expand_var_loop vars_ vars_ ""
end.

(** The [except] clauses of [expand]: the three errors are raised again
  with the string this call was given. *)
Definition reraise_with (vars_ : string) (e : exn) : option (M St string) :=
match e with
| MissingExcapedChar _ => Some (raise (MissingExcapedChar vars_))
| MissingClosingBrace _ => Some (raise (MissingClosingBrace vars_))
| BadSubstitution _ => Some (raise (BadSubstitution vars_))
| _ => None
end.

(** The [for] loop of [expand] and the [return] after it; [rest] is
  [vars_[len(buff):]]. *)
Fixpoint expand_loop (rest buff : string) {struct rest} : M St string :=
match rest with
| EmptyString => ret buff
| String c rest' =>
    if char_is c (var_symbol self)
    then v <- expand_var rest' ;; add_str_value buff v
    else if Ascii.eqb c ESCAPE_CHAR
    then r <- self_escape rest' ;; ret (buff ++ r)
    else expand_loop rest' (buff ++ String c "")
end.

(** [expand(vars_)] for a string *)
Definition expand_ (vars_ : string) : M St string :=
if String.eqb vars_ "" then ret ""
else try_except (expand_loop vars_ "") (reraise_with vars_).
End Methods.

(** The two recursive methods; one unit of [fuel] per call of
  [self.expand] or [self.escape]. *)
Fixpoint expand (fuel : nat) (vars_ : string) {struct fuel} : M St string :=
match fuel with
| O => out_of_fuel
| S fuel' => expand_ (expand fuel') (escape fuel') vars_
end
with escape (fuel : nat) (vars_ : string) {struct fuel} : M St string :=
match fuel with
| O => out_of_fuel
| S fuel' => escape_ (expand fuel') (escape fuel') vars_
end.
End Parser.
End ExpandParser.

(** A plain [dict] as [environ]: lookups never fail, [update] writes. *)
Definition dict_environ : ExpandParser.Environ (PyDict.t value) :=
  ExpandParser.mkEnviron
    (fun key st =>
       match key with
       | VStr k =>
           (Ok (match PyDict.get st k with Some v => v | None => VNone end), st)
       | _ => (Ok VNone, st)
       end)
    (fun var default st =>
       (Ok (match PyDict.get st var with Some v => v | None => default end), st))
    (fun var modifier st => (Ok tt, PyDict.set st var (VStr modifier))).

(** The module-level [expand(vars_, nounset, environ, var_symbol, feat_pid)]
    over a [dict]: the expanded string and the dict afterwards. *)
Definition expand (RECOVER_NULL : option string) (os_getpid : Z) (fuel : nat)
    (vars_ : string) (nounset : bool) (environ : PyDict.t value)
    (var_symbol : string) (feat_pid : feat_pid_t)
    : result string * PyDict.t value :=
  ExpandParser.expand RECOVER_NULL os_getpid
    (ExpandParser.mk nounset dict_environ var_symbol feat_pid)
    fuel vars_ environ.

(** ** [store_template.py]: settings, reports, query control *)

(** The [templatable] entry of a report: ["disabled"] or a boolean. *)
Inductive templatable_t : Type :=
| TplDisabled
| TplBool (b : bool).

(** The [_report] dict of [render_var]; an entry that is not set yet is
    [None]. *)
Record report : Type := mkReport {
  r_key : string;
  r_parsed : bool;
  r_cache : bool;
  r_cached : bool;
  r_level : option nat;
  r_value : option value;
  r_templated : option bool;
  r_templatable : option templatable_t
}.

(** One of the three error settings: the class [Exception] itself, a
    callable (called with the name or value, the error and the report), or
    any other object. *)
Inductive policy : Type :=
| PolicyException
| PolicyCallable (f : string -> exn -> report -> value)
| PolicyValue (v : value).

(** The dataclass [RenderingSettings]. *)
Record RenderingSettings : Type := mkSettings {
  on_templating_error : policy;
  on_undefined_error : policy;
  on_undefined_template_error : policy;
  template : bool;
  debug : bool;
  cache : bool
}.

(** A settings dict as a caller passes it: any of the six keys. *)
Record settings_dict : Type := mkSettingsDict {
  d_on_templating_error : option policy;
  d_on_undefined_error : option policy;
  d_on_undefined_template_error : option policy;
  d_template : option bool;
  d_debug : option bool;
  d_cache : option bool
}.

Definition empty_settings_dict : settings_dict :=
  mkSettingsDict None None None None None None.

(** [bool(d)] for a settings dict *)
Definition settings_dict_nonempty (d : settings_dict) : bool :=
  match d with
  | mkSettingsDict None None None None None None => false
  | _ => true
  end.

Definition or_else {A : Type} (new old : option A) : option A :=
  match new with Some _ => new | None => old end.

(** [d.update(kw)] *)
Definition settings_dict_update (d kw : settings_dict) : settings_dict :=
  mkSettingsDict
    (or_else (d_on_templating_error kw) (d_on_templating_error d))
    (or_else (d_on_undefined_error kw) (d_on_undefined_error d))
    (or_else (d_on_undefined_template_error kw) (d_on_undefined_template_error d))
    (or_else (d_template kw) (d_template d))
    (or_else (d_debug kw) (d_debug d))
    (or_else (d_cache kw) (d_cache d)).

Definition default_to {A : Type} (o : option A) (a : A) : A :=
  match o with Some x => x | None => a end.

(** [RenderingSettings] built from the keys of [d]: a missing key takes the dataclass default. *)
Definition RenderingSettings_of_dict (d : settings_dict) : RenderingSettings :=
  mkSettings
    (default_to (d_on_templating_error d) PolicyException)
    (default_to (d_on_undefined_error d) PolicyException)
    (default_to (d_on_undefined_template_error d) PolicyException)
    (default_to (d_template d) true)
    (default_to (d_debug d) false)
    (default_to (d_cache d) true).

(** The dict [render_var] builds when no [settings] is passed. *)
Definition default_settings_dict (debug cache template : bool) : settings_dict :=
  mkSettingsDict
    (Some (PolicyCallable (fun value _ _ => VStr value)))
    (Some PolicyException)
    (Some (PolicyCallable (fun value _ _ => VStr value)))
    (Some template) (Some debug) (Some cache).

(** [QueryCtl]: the frame of one [render_var] call.  The attributes
    [children], [seen] and [report] are written and never read back by the
    renderer; they are left out. *)
Inductive QueryCtl : Type :=
| mkQueryCtl (key_ctl : string) (parent : option QueryCtl)
    (settings : RenderingSettings) (lvl : nat).

Definition key_ctl (q : QueryCtl) : string :=
  match q with mkQueryCtl k _ _ _ => k end.
Definition parent (q : QueryCtl) : option QueryCtl :=
  match q with mkQueryCtl _ p _ _ => p end.
Definition settings (q : QueryCtl) : RenderingSettings :=
  match q with mkQueryCtl _ _ s _ => s end.
Definition lvl (q : QueryCtl) : nat :=
  match q with mkQueryCtl _ _ _ l => l end.

(** [q.settings.debug] and [q.settings.cache] *)
Definition settings_debug (q : QueryCtl) : bool := debug (settings q).
Definition settings_cache (q : QueryCtl) : bool := cache (settings q).

(** [parent.settings] *)
Definition parent_settings (p : QueryCtl) : RenderingSettings := settings p.

(** [QueryCtl(key_ctl, parent, settings)] *)
Definition QueryCtl_init (key_ctl : string) (parent : option QueryCtl)
    (settings : option settings_dict) : result QueryCtl :=
  match parent with
  | None =>
      match settings with
      | Some d => Ok (mkQueryCtl key_ctl None (RenderingSettings_of_dict d) 0)
      | None => Raise AssertionError
      end
  | Some p =>
      match settings with
      | Some _ => Raise AssertionError
      | None => Ok (mkQueryCtl key_ctl parent (parent_settings p) (lvl p + 1))
      end
  end.

(** The [while] loop of [is_not_circular] up the parent chain. *)
Fixpoint walk_parents (curr_parent : QueryCtl) (key : string)
    (key_stack : list string) : result bool :=
  match curr_parent with
  | mkQueryCtl curr_key next _ _ =>
      let key_stack := (key_stack ++ [curr_key])%list in
      if String.eqb curr_key key
      then Raise (TemplateRenderingCircularValueError key key_stack)
      else match next with
           | None => Ok true
           | Some p => walk_parents p key key_stack
           end
  end.

(** [QueryCtl.is_not_circular()] with [raise_error=True] *)
Definition is_not_circular (self : QueryCtl) : result bool :=
  match parent self with
  | None => Ok true
  | Some p => walk_parents p (key_ctl self) [key_ctl self]
  end.

(** ** [store_engine_expandvars.py] *)

(** [sub in s] *)
Fixpoint str_contains (sub s : string) : bool :=
  String.prefix sub s
  || match s with
     | String _ r => str_contains sub r
     | EmptyString => false
     end.

(** The attributes of an [ExpandVarsEngine] that are read. *)
Record ExpandVarsEngine : Type := mkEngine {
  engine_var_symbol : string;
  engine_strict : bool
}.

(** [ExpandVarsEngine()] *)
Definition ExpandVarsEngine_init : ExpandVarsEngine := mkEngine "$" false.

(** [ExpandVarsEngine.is_template(data)] *)
Definition is_template (self : ExpandVarsEngine) (data : value) : bool :=
  match data with
  | VStr s => str_contains (engine_var_symbol self) s
  | _ => false
  end.

Record ExpandVarsInstance : Type := mkInstance {
  _value : string;
  strict : bool;
  symbol : string
}.

(** [ExpandVarsInstance(value, engine, strict, symbol)] *)
Definition ExpandVarsInstance_init (value : value) (engine : ExpandVarsEngine)
    (strict : bool) (symbol : string) : result ExpandVarsInstance :=
  match value with
  | VStr s => Ok (mkInstance s strict symbol)
  | _ => Raise AssertionError
  end.

(** [ExpandVarsEngine.get_template(value)]: the call
    [ExpandVarsInstance(value, engine=self)] leaves [strict] and [symbol]
    to their defaults. *)
Definition get_template (self : ExpandVarsEngine) (value : value)
    : result ExpandVarsInstance :=
  ExpandVarsInstance_init value self false "$".

(** [ExpandVarsInstance.render_template(dict_vars)]: the parser is built
    with [feat_pid="$$"]; every [ExpandvarsException] and
    [InvalidTemplateVarNameError] gives back the original value. *)
Definition render_template (St : Type) (RECOVER_NULL : option string)
    (os_getpid : Z) (fuel : nat) (self : ExpandVarsInstance)
    (dict_vars : ExpandParser.Environ St) : M St value :=
  try_except
    (ret_ <- ExpandParser.expand RECOVER_NULL os_getpid
               (ExpandParser.mk (strict self) dict_vars (symbol self)
                  (PidStr "$$"))
               fuel (_value self) ;;
     ret (VStr ret_))
    (fun err =>
       if is_ExpandvarsException err then Some (ret (VStr (_value self)))
       else match err with
            | InvalidTemplateVarNameError => Some (ret (VStr (_value self)))
            | _ => None
            end).

(** ** [store_template.py]: [LazyQueryDict] and [Renderer] *)

(** The keyword arguments of [render_var] that are not named parameters. *)
Record settings_kwargs : Type := mkKwargs {
  kw_on_templating_error : option policy;
  kw_on_undefined_error : option policy;
  kw_on_undefined_template_error : option policy
}.

Definition no_kwargs : settings_kwargs := mkKwargs None None None.

Definition dict_of_kwargs (kw : settings_kwargs) : settings_dict :=
  mkSettingsDict (kw_on_templating_error kw) (kw_on_undefined_error kw)
    (kw_on_undefined_template_error kw) None None None.

(** The attributes of a [Renderer] other than its [_cache], which is the
    state threaded through a render. *)
Record Renderer : Type := mkRenderer {
  store : StoreManager;
  scope : option string;
  engine : ExpandVarsEngine
}.

Definition Cache : Type := PyDict.t value.

(** What [render_var] returns: the value, and the report when [debug] is
    set. *)
Definition rendered : Type := (value * option report)%type.

(** [Renderer(store, scope)], with the default engine *)
Definition Renderer_init (store : StoreManager) (scope : option string)
    : result Renderer :=
  match get_ordered_sources store scope with
  | Ok _ => Ok (mkRenderer store scope ExpandVarsEngine_init)
  | Raise e => Raise e
  | OutOfFuel => OutOfFuel
  end.

Definition lift_result {St A : Type} (r : result A) : M St A :=
  fun st => (r, st).

(** The frame as a child sees it: [_get_item] has added one to [lvl]
    before it calls [render_var]. *)
Definition bump (q : QueryCtl) : QueryCtl :=
  match q with mkQueryCtl k p s l => mkQueryCtl k p s (l + 1) end.

(** The error settings: [is Exception], [callable(...)], or the object
    itself. *)
Definition apply_policy {St : Type} (p : policy) (arg : string) (err : exn)
    (rep : report) : M St value :=
  match p with
  | PolicyException => raise err
  | PolicyCallable f => ret (f arg err rep)
  | PolicyValue v => ret v
  end.

(** Step 1 of [render_var_process]: the value of the store, or what
    [on_undefined_error] makes of an [UndefinedVarError]. *)
Definition fetch_value (self : Renderer) (var_name : string)
    (settings : RenderingSettings) (_report : report) : M Cache value :=
  match get_value (store self) var_name (scope self) with
  | Ok v => ret v
  | Raise (UndefinedVarError v) =>
      apply_policy (on_undefined_error settings) var_name
        (UndefinedVarError v) _report
  | Raise e => raise e
  | OutOfFuel => out_of_fuel
  end.

Section Renderer.
Variable RECOVER_NULL : option string.
Variable os_getpid : Z.

Section Frame.
(** [self.renderer.render_var(key, _parent_queryctl=q)] *)
Variable render_var_rec : string -> QueryCtl -> M Cache rendered.

(** [LazyQueryDict._get_item(key)] *)
Definition _get_item (_queryctl : QueryCtl) (key : value) : M Cache value :=
  if negb (truthy key) then raise InvalidTemplateVarNameError
  else
    _ <- lift_result (is_not_circular _queryctl) ;;
    match key with
    | VStr k =>
        ret_ <- render_var_rec k (bump _queryctl) ;;
        ret (fst ret_)
    | _ => raise NotEmbedded
    end.

(** A [LazyQueryDict] as the [environ] of a parser: [get] is
    [_get_item]; [get] takes no default, and there is no [update]. *)
Definition LazyQueryDict (_queryctl : QueryCtl)
    : ExpandParser.Environ Cache :=
  ExpandParser.mkEnviron
    (_get_item _queryctl)
    (fun _ _ => raise TypeError)
    (fun _ _ => raise AttributeError).

(** [Renderer.render_var_process(var_name, report, _queryctl)]: the
    value and the report as it leaves it. *)
Definition render_var_process (fuel : nat) (self : Renderer)
    (var_name : string) (_report : report) (_queryctl : QueryCtl)
    : M Cache (value * report) :=
  let settings := settings _queryctl in
  value <- fetch_value self var_name settings _report ;;
  let _report :=
    mkReport (r_key _report) false (r_cache _report) (r_cached _report)
      (r_level _report) (Some value) (Some false) (r_templatable _report) in
  let with_templatable (r : report) (t : templatable_t) :=
    mkReport (r_key r) (r_parsed r) (r_cache r) (r_cached r) (r_level r)
      (r_value r) (r_templated r) (Some t) in
  let tpl_engine := engine self in
  if negb (template settings)
  then ret (value, with_templatable _report TplDisabled)
  else if negb (is_template tpl_engine value)
  then ret (value, with_templatable _report (TplBool false))
  else
    let _report := with_templatable _report (TplBool true) in
    template <- lift_result (get_template tpl_engine value) ;;
    let dict_vars := LazyQueryDict _queryctl in
    let _report :=
      mkReport (r_key _report) (r_parsed _report) (r_cache _report)
        (r_cached _report) (r_level _report) (r_value _report)
        (Some true) (r_templatable _report) in
    value <- render_template RECOVER_NULL os_getpid fuel template dict_vars ;;
    ret (value, _report).
End Frame.

(** The [local_settings] of [render_var]: prepared for a top-level call
    only, from [settings] or else the defaults, updated with the keyword
    arguments. *)
Definition prepare_settings (debug cache : bool)
    (settings : option settings_dict) (template : bool)
    (_parent_queryctl : option QueryCtl) (kwargs_settings : settings_kwargs)
    : option settings_dict :=
  match _parent_queryctl with
  | None =>
      let d :=
        match settings with
        | Some d =>
            if settings_dict_nonempty d then d
            else default_settings_dict debug cache template
        | None => default_settings_dict debug cache template
        end in
      Some (settings_dict_update d (dict_of_kwargs kwargs_settings))
  | Some _ => None
  end.

(** [Renderer.render_var(var_name, debug, cache, settings, template,
    _parent_queryctl, kwargs_settings)].  One unit of [fuel] per call. *)
Fixpoint render_var (fuel : nat) (self : Renderer) (var_name : string)
    (debug cache : bool) (settings : option settings_dict) (template : bool)
    (_parent_queryctl : option QueryCtl) (kwargs_settings : settings_kwargs)
    {struct fuel} : M Cache rendered :=
  match fuel with
  | O => out_of_fuel
  | S fuel' =>
      if String.eqb var_name "" then raise AssertionError
      else
        let _report :=
          mkReport var_name false false false None None None None in
        let local_settings :=
          prepare_settings debug cache settings template _parent_queryctl
            kwargs_settings in
        _queryctl <- lift_result
                       (QueryCtl_init var_name _parent_queryctl local_settings) ;;
        let _report :=
          mkReport (r_key _report) (r_parsed _report) (r_cache _report)
            (r_cached _report) (Some (lvl _queryctl)) (r_value _report)
            (r_templated _report) (r_templatable _report) in
        let debug := settings_debug _queryctl in
        let cache := settings_cache _queryctl in
        let answer (v : value) (r : report) : rendered :=
          (v, if debug then Some r else None) in
        fun _cache =>
          match (if cache then PyDict.get _cache var_name else None) with
          | Some out =>
              (Ok (answer out
                     (mkReport (r_key _report) (r_parsed _report) true
                        (r_cached _report) (r_level _report) (r_value _report)
                        (r_templated _report) (r_templatable _report))),
               _cache)
          | None =>
              (vr <- render_var_process
                       (fun key q =>
                          render_var fuel' self key false true None true
                            (Some q) no_kwargs)
                       fuel' self var_name _report _queryctl ;;
               let (value, _report) := vr : value * report in
               fun _cache =>
                 if cache
                 then (Ok (answer value
                             (mkReport (r_key _report) (r_parsed _report)
                                (r_cache _report) true (r_level _report)
                                (r_value _report) (r_templated _report)
                                (r_templatable _report))),
                       PyDict.set _cache var_name value)
                 else (Ok (answer value _report), _cache)) _cache
          end
  end.

(** The call [_get_item] makes:
    [self.renderer.render_var(key, _parent_queryctl=q)]. *)
Definition child_render (fuel : nat) (self : Renderer)
    : string -> QueryCtl -> M Cache rendered :=
  fun key q => render_var fuel self key false true None true (Some q) no_kwargs.

(** The report [render_var] starts from, once [level] is set. *)
Definition initial_report (var_name : string) (_queryctl : QueryCtl) : report :=
  mkReport var_name false false false (Some (lvl _queryctl)) None None None.

(** [Renderer.render_values(kwargs)] *)
Definition render_values (fuel : nat) (self : Renderer) (debug cache : bool)
    (settings : option settings_dict) (template : bool)
    (kwargs_settings : settings_kwargs)
    : M Cache (PyDict.t rendered) :=
  var_names <- lift_result (get_var_names (store self) (scope self)) ;;
  (fix loop (names : list string) (_out : PyDict.t rendered)
     : M Cache (PyDict.t rendered) :=
     match names with
     | [] => ret _out
     | var_name :: rest =>
         r <- render_var fuel self var_name debug cache settings template
                None kwargs_settings ;;
         loop rest (PyDict.set _out var_name r)
     end) var_names PyDict.empty.
End Renderer.

(** ** Stores and renderers of the end-to-end scenarios *)

(** The object after a call, whatever its outcome. *)
Definition after {A S : Type} (r : result A * S) : S := snd r.

Definition outcome {A S : Type} (r : result A * S) : result A := fst r.

(** The value part of what [render_var] gives. *)
Definition rendered_value {S : Type} (r : result rendered * S) : result value :=
  match fst r with
  | Ok v => Ok (fst v)
  | Raise e => Raise e
  | OutOfFuel => OutOfFuel
  end.

Module Scenario.
Definition sources : list Source :=
  [ mkSource "app_cli" (Some 300%Z) None;
    mkSource "project_env" (Some 300%Z) None;
    mkSource "stack_env" (Some 300%Z) None ].

Definition scopes : PyDict.t (list string) :=
  [ ("scope_app", ["app_cli"]);
    ("scope_project", ["project_env"; "scope_app"]);
    ("scope_stack", ["stack_env"; "scope_project"]) ].

(** [add_sources] of the three sources on a new store *)
Definition with_three_sources : StoreManager :=
  after (add_sources StoreManager_init (ArgList sources) false).

(** then [set_scopes] of the three scopes *)
Definition base : StoreManager :=
  after (set_scopes with_three_sources (Args1 scopes)).

(** [set_layer] for each of the three sources *)
Definition with_layers (app_cli project_env stack_env : PyDict.t value)
    : StoreManager :=
  let s := after (set_layer base "app_cli" app_cli []) in
  let s := after (set_layer s "project_env" project_env []) in
  after (set_layer s "stack_env" stack_env []).

(** What [scope_stack] resolves to. *)
Definition sources_of_scope_stack : list Source :=
  [ mkSource "stack_env" (Some 300%Z) None;
    mkSource "project_env" (Some 300%Z) None;
    mkSource "app_cli" (Some 300%Z) None ].

(** The template chain of the second scenario. *)
Definition template_chain : StoreManager :=
  with_layers
    [("app_name", VStr "dataset1")]
    [("project_name", VStr "project1+${stack_name}")]
    [("stack_name", VStr "dataset3");
     ("stack_fname", VStr "${project_name}_${stack_name}")].

(** The cycle of the third scenario. *)
Definition cycle : StoreManager :=
  with_layers
    []
    [("project_name", VStr "a+${stack_fname}")]
    [("stack_fname", VStr "b+${project_name}")].

(** A layer with an undefined reference and an unclosed brace. *)
Definition undefined_and_malformed : StoreManager :=
  with_layers
    [] []
    [("x", VStr "${missing}"); ("malformed", VStr "${var_without_closing")].

(** Three layers that all define [test_override], after the fixture of
    [test_store_base.py]. *)
Definition overrides : StoreManager :=
  with_layers
    [("name", VStr "dataset1"); ("test_override", VStr "dataset1")]
    [("options", VStr "value"); ("test_override", VStr "dataset2")]
    [("path", VStr "/home/user/dataset3"); ("test_override", VStr "dataset3")].

(** A renderer on [scope_stack], as [get_renderer] builds it. *)
Definition renderer (s : StoreManager) : Renderer :=
  mkRenderer s (Some "scope_stack") ExpandVarsEngine_init.

(** Scope definitions where two siblings share a referenced scope. *)
Definition diamond : PyDict.t (list string) :=
  [ ("A", ["B"; "C"]); ("B", ["D"]); ("C", ["D"]); ("D", ["app_cli"]) ].

(** Scope definitions with a cycle of length two. *)
Definition two_cycle : PyDict.t (list string) :=
  [ ("scope1", ["app_cli"; "scope2"]); ("scope2", ["stack_env"; "scope1"]) ].

(** A store with one source, as in [test_add_duplicate_source]. *)
Definition one_source : StoreManager :=
  after (add_sources StoreManager_init
           (ArgSource (mkSource "test_source" (Some 100%Z) None)) false).
End Scenario.

(** ** Notions the properties are stated with *)

(** A run of [n] dollars. *)
Definition dollars (n : nat) : string := str_repeat "$" n.

(** What is known of [_seen]: scope names, each one once. *)
Definition seen_ok (scopes : PyDict.t (list string)) (seen : list string)
    : Prop :=
  NoDup seen /\ incl seen (PyDict.keys scopes).

(** What a call of [scope_solver] with enough fuel for [seen] does. *)
Definition solves_within (scopes : PyDict.t (list string)) (fuel : nat)
    (solve : string -> list item -> list string
             -> result (list nested) * list string) : Prop :=
  forall (scope_name : string) (scope_items : list item) (seen : list string),
    seen_ok scopes seen ->
    length scopes < fuel + length seen ->
    fst (solve scope_name scope_items seen) <> OutOfFuel
    /\ seen_ok scopes (snd (solve scope_name scope_items seen))
    /\ length seen <= length (snd (solve scope_name scope_items seen)).

(** The report with [cached] set, as [render_var] leaves it after it has
    stored the value. *)
Definition report_cached (r : report) : report :=
  mkReport (r_key r) (r_parsed r) (r_cache r) true (r_level r) (r_value r)
    (r_templated r) (r_templatable r).

(** The frame of the render that [_get_item] starts for [key] below the
    frame [q]. *)
Definition child_frame (key : string) (q : QueryCtl) : QueryCtl :=
  mkQueryCtl key (Some (bump q)) (settings q) (lvl q + 1 + 1).

(** Text the expander copies: no dollar and no backslash. *)
Fixpoint plain (s : string) : bool :=
  match s with
  | EmptyString => true
  | String c r =>
      negb (Ascii.eqb c "$") && negb (Ascii.eqb c ESCAPE_CHAR) && plain r
  end.

(** A name a template can refer to: not empty, made of [_valid_char]s. *)
Definition valid_name (k : string) : bool :=
  negb (String.eqb k "") && all_valid k.

(** A template whose first marker is the reference [${nxt}]. *)
Definition reference_to (nxt pre suf : string) : string :=
  pre ++ "${" ++ nxt ++ "}" ++ suf.

(** The keys of a frame and of its ancestors, nearest first. *)
Fixpoint frame_keys (q : QueryCtl) : list string :=
  match q with
  | mkQueryCtl k p _ _ =>
      k :: match p with
           | None => []
           | Some p' => frame_keys p'
           end
  end.

Definition ancestor_keys (par : option QueryCtl) : list string :=
  match par with
  | None => []
  | Some p => frame_keys p
  end.

(** The raw value of [k] is a template whose first marker refers to
    [nxt]. *)
Definition refers (self : Renderer) (k nxt : string) : Prop :=
  exists pre suf,
    plain pre = true
    /\ get_value (store self) k (scope self)
       = Ok (VStr (reference_to nxt pre suf)).

(** [k] refers to the first key of [l], each key of [l] to the next one,
    and the last one to [last]. *)
Fixpoint links (self : Renderer) (k : string) (l : list string)
    (last : string) : Prop :=
  match l with
  | [] => refers self k last
  | nxt :: l' => refers self k nxt /\ links self nxt l' last
  end.

(** The layer values form a circular chain [k0 -> ks -> k0] of distinct,
    referable keys. *)
Definition circular_chain (self : Renderer) (k0 : string) (ks : list string)
    : Prop :=
  NoDup (k0 :: ks)
  /\ Forall (fun k => valid_name k = true) (k0 :: ks)
  /\ links self k0 ks k0.

(** The settings of a top-level call of [render_var]. *)
Definition call_settings (dbg cch : bool) (sd : option settings_dict)
    (tpl : bool) (kw : settings_kwargs) : RenderingSettings :=
  match prepare_settings dbg cch sd tpl None kw with
  | Some d => RenderingSettings_of_dict d
  | None => RenderingSettings_of_dict empty_settings_dict
  end.

(** The order [sorted] puts sources in: by [lvl_sorter], ascending. *)
Definition by_level (a b : Source) : Prop :=
  (lvl_sorter a <= lvl_sorter b)%Z.

(** The sources whose [lvl_sorter] is [v]. *)
Definition at_level (v : Z) (s : Source) : bool :=
  (lvl_sorter s =? v)%Z.

(** [name in layer.payload] *)
Definition holds (k : string) (l : Layer) : bool :=
  PyDict.mem (payload l) k.

(** What [add_sources] keeps of [_sources]: every name is a key once, and
    the source stored under a key bears that name. *)
Definition sources_wf (d : PyDict.t Source) : Prop :=
  NoDup (PyDict.keys d)
  /\ forall k s, In (k, s) d -> name s = k.

(** Text with no brace, as the modifier of a reference read up to its
    closing brace. *)
Fixpoint braceless (s : string) : bool :=
  match s with
  | EmptyString => true
  | String c r =>
      negb (Ascii.eqb c "{") && negb (Ascii.eqb c "}") && braceless r
  end.

(** The sources registered under the names [refs], in that order. *)
Definition resolved (sources : PyDict.t Source) (refs : list string)
    : list Source :=
  flat_map (fun r => match PyDict.get sources r with
                     | Some s => [s]
                     | None => []
                     end) refs.

(** The errors [set_scopes] raises by itself. *)
Definition is_set_scopes_error (e : exn) : bool :=
  match e with
  | VarMgrAppError_recursive _ _ | VarMgrAppError_not_found _ _
  | ValueError | UnboundLocalError _ => true
  | _ => false
  end.

(** A variable the expander takes as not set in a dict: absent, or with a
    value that is false in a condition. *)
Definition unset (environ : PyDict.t value) (k : string) : bool :=
  match PyDict.get environ k with
  | Some v => negb (truthy v)
  | None => true
  end.

(** A parser over a dict with the dollar as its symbol. *)
Definition dict_parser (nounset : bool) (feat_pid : feat_pid_t)
    : ExpandParser.t (PyDict.t value) :=
  ExpandParser.mk nounset dict_environ "$" feat_pid.

(** Text of a modifier that [_expand_advanced] reads up to the closing
    brace and copies: no dollar, no backslash, no brace. *)
Definition simple (s : string) : bool := plain s && braceless s.

(** The reference [${k<op><arg>}], with or without a colon before the
    operator, between [pre] and [suf]. *)
Definition modified_reference (colon : bool) (op : ascii)
    (k arg pre suf : string) : string :=
  pre ++ "${" ++ k ++ (if colon then ":" else "")
      ++ String op arg ++ "}" ++ suf.

(** The operators of [_expand_advanced]. *)
Definition is_operator (c : ascii) : bool :=
  Ascii.eqb c "-" || Ascii.eqb c "=" || Ascii.eqb c "+" || Ascii.eqb c "?".

(** The value a dict gives for [k] where [d] stands for a variable that
    is not set. *)
Definition value_or (environ : PyDict.t value) (k d : string) : value :=
  match PyDict.get environ k with
  | Some v => if truthy v then v else VStr d
  | None => VStr d
  end.

(** What [_expand_advanced] goes on with once it has read and expanded the
    modifier [op arg] of a reference to [k]: the branch of the operator,
    then the expansion [E] of what follows the closing brace. *)
Definition dispatch (St : Type) (RECOVER_NULL : option string)
    (p : ExpandParser.t St) (E : string -> M St string) (k : string)
    (op : ascii) (arg suf : string) (indirect : bool) : M St string :=
  if Ascii.eqb op "-"
  then l <- ExpandParser._expand_default RECOVER_NULL p k arg false indirect ;;
       r <- E suf ;; add_value_str l r
  else if Ascii.eqb op "="
  then l <- ExpandParser._expand_default RECOVER_NULL p k arg true indirect ;;
       r <- E suf ;; add_value_str l r
  else if Ascii.eqb op "+"
  then l <- ExpandParser._expand_substitute p k arg ;;
       r <- E suf ;; ret (l ++ r)
  else if Ascii.eqb op "?"
  then l <- ExpandParser._expand_strict RECOVER_NULL p k arg ;;
       r <- E suf ;; add_value_str l r
  else l <- ExpandParser._expand_offset RECOVER_NULL p k (String op arg) ;;
       r <- E suf ;; ret (l ++ r).

(** * Properties *)

(** ** The layered store *)

Lemma get_var_loop_first (layers : list Layer) (k : string) :
  get_var_loop layers k false [] =
  match find (fun l => PyDict.mem (payload l) k) layers with
  | Some layer => inl layer
  | None => inr []
  end.
Proof.
  induction layers as [|layer rest IH]; simpl; [reflexivity|].
  destruct (PyDict.mem (payload layer) k); [reflexivity|exact IH].
Qed.

Lemma mem_get (V : Type) (d : PyDict.t V) (k : string) :
  PyDict.mem d k = true -> exists v, PyDict.get d k = Some v.
Proof.
  unfold PyDict.mem. destruct (PyDict.get d k) as [v|]; [eauto|discriminate].
Qed.

(** C2. [get_value(k, S)] gives the value stored under [k] in the first
    layer of [get_ordered_layers(S)] whose payload holds [k], and fails with
    [UndefinedVarError] when no layer of that list holds it; [S] may be the
    no-scope default. *)
Theorem get_value_first_layer (self : StoreManager) (scope : option string)
    (k : string) (layers : list Layer) :
  get_ordered_layers self scope = Ok layers ->
  (forall layer,
      find (fun l => PyDict.mem (payload l) k) layers = Some layer ->
      exists v, PyDict.get (payload layer) k = Some v
                /\ get_value self k scope = Ok v)
  /\ (find (fun l => PyDict.mem (payload l) k) layers = None ->
      get_value self k scope = Raise (UndefinedVarError k)).
Proof.
  intros Hlayers. unfold get_value, get_var. rewrite Hlayers.
  rewrite get_var_loop_first. split.
  - intros layer Hfind. rewrite Hfind.
    apply find_some in Hfind. destruct Hfind as [_ Hmem].
    destruct (mem_get _ _ Hmem) as [v Hv].
    exists v. rewrite Hv. split; reflexivity.
  - intros Hfind. rewrite Hfind. reflexivity.
Qed.

Lemma get_value_first_layer_witness :
  (exists v,
      PyDict.get [("stack_name", VStr "dataset3");
                  ("stack_fname", VStr "${project_name}_${stack_name}")]
        "stack_name" = Some v
      /\ get_value Scenario.template_chain "stack_name" (Some "scope_stack")
         = Ok v)
  /\ get_value Scenario.template_chain "nowhere" None
     = Raise (UndefinedVarError "nowhere").
Proof.
  split.
  - destruct (@get_value_first_layer Scenario.template_chain
                (Some "scope_stack") "stack_name"
                (layers_of (layered_store Scenario.template_chain)
                   Scenario.sources_of_scope_stack) eq_refl)
      as [Hsome _].
    exact (Hsome _ eq_refl).
  - destruct (@get_value_first_layer Scenario.template_chain
                None "nowhere"
                (layers_of (layered_store Scenario.template_chain)
                   (sorted (PyDict.values (_sources Scenario.template_chain))))
                eq_refl)
      as [_ Hnone].
    exact (Hnone eq_refl).
Defined.

(** The single-[Source] shape of [add_sources] refuses a registered name
    and leaves the store as it was. *)
Lemma add_sources_single_duplicate (self : StoreManager) (s : Source) :
  PyDict.mem (_sources self) (name s) = true ->
  add_sources self (ArgSource s) false
  = (Raise (AlreadyExistingSourceError (name s)), self).
Proof.
  intros Hmem. unfold add_sources. rewrite Hmem. reflexivity.
Qed.

(** C8, at the failing input.  With [test_source] registered at level 100,
    [add_sources([Source("test_source", level=200)])] with [force=False]
    raises nothing and replaces the registered source; the single-[Source]
    shape raises [AlreadyExistingSourceError] on the same store. *)
Theorem add_sources_list_overwrites_duplicate :
  add_sources Scenario.one_source
    (ArgList [mkSource "test_source" (Some 200%Z) None]) false
  = (Ok tt,
     mkStore [] [("test_source", mkSource "test_source" (Some 200%Z) None)] [])
  /\ add_sources Scenario.one_source
       (ArgSource (mkSource "test_source" (Some 200%Z) None)) false
     = (Raise (AlreadyExistingSourceError "test_source"), Scenario.one_source).
Proof.
  split; reflexivity.
Qed.

(** The scopes of the scenarios resolve to flat lists of sources. *)
Lemma set_scopes_chain_resolves :
  outcome (set_scopes Scenario.with_three_sources (Args1 Scenario.scopes)) = Ok tt
  /\ get_source_names Scenario.base (Some "scope_stack")
     = Ok ["stack_env"; "project_env"; "app_cli"].
Proof.
  split; reflexivity.
Qed.

(** A cycle of length two and a self-loop are refused. *)
Lemma set_scopes_refuses_cycles :
  outcome (set_scopes Scenario.with_three_sources (Args1 Scenario.two_cycle))
  = Raise (VarMgrAppError_recursive "scope1" ["scope1"; "scope2"; "scope1"])
  /\ outcome (set_scopes Scenario.with_three_sources (Args1 [("A", ["A"])]))
     = Raise (VarMgrAppError_recursive "A" ["A"; "A"]).
Proof.
  split; reflexivity.
Qed.

(** C3, at the failing input.  The definitions [A=[B,C]], [B=[D]], [C=[D]],
    [D=[app_cli]] have no cycle and every reference is defined, yet
    [set_scopes] raises the error of a recursive scope: [D] is still in
    [_seen] when [C] is solved. *)
Theorem set_scopes_refuses_shared_scope :
  set_scopes Scenario.with_three_sources (Args1 Scenario.diamond)
  = (Raise (VarMgrAppError_recursive "C" ["C"; "B"; "D"; "C"]),
     Scenario.with_three_sources).
Proof.
  reflexivity.
Qed.

(** X13. The call of [set_scopes] with a name and a list always raises
    [UnboundLocalError] and leaves the store as it was: it never gets to
    solve a scope, since the local [scopes] it passes to [scope_solver] is
    bound by the one-argument call only. *)
Lemma set_scopes_two_arguments (self : StoreManager) (name : string)
    (scope : list string) :
  set_scopes self (Args2 name scope)
  = (Raise (UnboundLocalError "scopes"), self).
Proof.
  unfold set_scopes.
  destruct (PyDict.set (obj_scopes_of (_scopes self)) name (map Ref scope))
    as [|[k v] rest] eqn:Hset.
  - destruct (obj_scopes_of (_scopes self)) as [|[k' v'] r]; simpl in Hset.
    + discriminate.
    + destruct (String.eqb k' name); discriminate.
  - reflexivity.
Qed.

(** Whatever [set_scopes] does short of succeeding, the store is the one
    it was given. *)
Lemma set_scopes_unchanged_unless_ok (self : StoreManager) (args : scopes_args) :
  outcome (set_scopes self args) <> Ok tt ->
  after (set_scopes self args) = self.
Proof.
  unfold set_scopes, outcome, after.
  destruct args as [scopes|name scope|n]; simpl.
  - destruct (register_scopes _ _ _ _); simpl; intros H;
      [exfalso; apply H|..]; reflexivity.
  - destruct (register_scopes _ _ _ _); simpl; intros H;
      [exfalso; apply H|..]; reflexivity.
  - reflexivity.
Qed.

(** C4. If [set_scopes] raises, for any store and any arguments, the store
    after the call (and so its scope definitions) is the store before it. *)
Theorem set_scopes_transactional (self : StoreManager) (args : scopes_args)
    (e : exn) :
  outcome (set_scopes self args) = Raise e ->
  after (set_scopes self args) = self
  /\ _scopes (after (set_scopes self args)) = _scopes self.
Proof.
  intros Hraise.
  assert (H : after (set_scopes self args) = self).
  { apply set_scopes_unchanged_unless_ok. rewrite Hraise. discriminate. }
  split; [exact H|rewrite H; reflexivity].
Qed.

Lemma set_scopes_transactional_witness :
  after (set_scopes Scenario.base (Args1 Scenario.two_cycle)) = Scenario.base
  /\ _scopes (after (set_scopes Scenario.base (Args1 Scenario.two_cycle)))
     = _scopes Scenario.base.
Proof.
  apply (@set_scopes_transactional Scenario.base (Args1 Scenario.two_cycle)
           (VarMgrAppError_not_found
              (Obj (mkSource "app_cli" (Some 300%Z) None)) "scope_app")).
  reflexivity.
Defined.

(** *** The fuel [set_scopes] gives to [scope_solver] is enough *)

Lemma get_in_keys (V : Type) (d : PyDict.t V) (k : string) (v : V) :
  PyDict.get d k = Some v -> In k (PyDict.keys d).
Proof.
  induction d as [|[k' v'] d IH]; simpl; [discriminate|].
  destruct (String.eqb k' k) eqn:E.
  - apply String.eqb_eq in E. intros _. left. exact E.
  - intros H. right. apply IH. exact H.
Qed.

Lemma in_seen_false (x : string) (seen : list string) :
  in_seen x seen = false -> ~ In x seen.
Proof.
  unfold in_seen. intros H Hin.
  assert (Hex : existsb (String.eqb x) seen = true).
  { apply existsb_exists. exists x. split; [exact Hin|apply String.eqb_refl]. }
  rewrite H in Hex. discriminate.
Qed.

Lemma seen_ok_length (scopes : PyDict.t (list string)) (seen : list string) :
  seen_ok scopes seen -> length seen <= length scopes.
Proof.
  intros [Hnodup Hincl].
  pose proof (NoDup_incl_length Hnodup Hincl) as H.
  unfold PyDict.keys in H. rewrite length_map in H. exact H.
Qed.

Lemma seen_ok_append (scopes : PyDict.t (list string)) (seen : list string)
    (x : string) (items : list string) :
  seen_ok scopes seen ->
  PyDict.get scopes x = Some items ->
  in_seen x seen = false ->
  seen_ok scopes (seen ++ [x])%list.
Proof.
  intros [Hnodup Hincl] Hget Hnot. split.
  - apply NoDup_app; [exact Hnodup|repeat constructor; intros []|].
    intros y Hy [Hx|[]]. subst y.
    exact (in_seen_false _ _ Hnot Hy).
  - intros y Hy. apply in_app_or in Hy. destruct Hy as [Hy|[Hy|[]]].
    + apply Hincl. exact Hy.
    + subst y. exact (get_in_keys _ _ Hget).
Qed.

Lemma scope_solver_loop_fuel (scopes : PyDict.t (list string))
    (sources : PyDict.t Source) (fuel : nat)
    (solve : string -> list item -> list string
             -> result (list nested) * list string)
    (scope_name : string) :
  solves_within scopes fuel solve ->
  forall (scope_items : list item) (out : list nested) (seen : list string),
    seen_ok scopes seen ->
    length scopes < S fuel + length seen ->
    fst (scope_solver_loop solve scope_name scopes sources scope_items out seen)
    <> OutOfFuel
    /\ seen_ok scopes
         (snd (scope_solver_loop solve scope_name scopes sources scope_items
                 out seen))
    /\ length seen
       <= length
            (snd (scope_solver_loop solve scope_name scopes sources
                    scope_items out seen)).
Proof.
  intros Hsolve.
  induction scope_items as [|it rest IHitems]; intros out seen Hok Hlen.
  - simpl. split; [discriminate|]. split; [exact Hok|lia].
  - destruct it as [item_ref|s].
    + simpl. destruct (PyDict.get sources item_ref) as [src|] eqn:Hsrc.
      { apply IHitems; assumption. }
      destruct (PyDict.get scopes item_ref) as [sub_items|] eqn:Hscope.
      2: { simpl. split; [discriminate|]. split; [exact Hok|lia]. }
      destruct (in_seen item_ref seen) eqn:Hseen.
      { simpl. split; [discriminate|]. split; [exact Hok|lia]. }
      pose proof (@seen_ok_append _ _ _ _ Hok Hscope Hseen) as Hok'.
      assert (Hlen' : length scopes
                      < fuel + length (seen ++ [item_ref])%list).
      { rewrite length_app. simpl. lia. }
      destruct (Hsolve item_ref (map Ref sub_items) _ Hok' Hlen')
        as (Hfuel & Hok'' & Hgrow).
      rewrite length_app in Hgrow. simpl in Hgrow.
      destruct (solve item_ref (map Ref sub_items) (seen ++ [item_ref])%list)
        as [[sub|e|] seen'] eqn:Hrec; simpl in *.
      * assert (Hlen'' : length scopes < S fuel + length seen') by lia.
        destruct (IHitems (out ++ [NList sub])%list seen' Hok'' Hlen'')
          as (H1 & H2 & H3).
        split; [exact H1|]. split; [exact H2|lia].
      * split; [discriminate|]. split; [exact Hok''|lia].
      * exfalso. apply Hfuel. reflexivity.
    + simpl. split; [discriminate|]. split; [exact Hok|lia].
Qed.

(** With more fuel than there are scope names still unseen,
    [scope_solver] does not run out of fuel. *)
Lemma scope_solver_fuel (scopes : PyDict.t (list string))
    (sources : PyDict.t Source) (fuel : nat) :
  solves_within scopes fuel
    (fun scope_name scope_items seen =>
       scope_solver fuel scope_name scope_items scopes sources seen).
Proof.
  induction fuel as [|fuel IH]; intros scope_name scope_items seen Hok Hlen.
  - pose proof (seen_ok_length Hok). simpl in Hlen. lia.
  - simpl. apply (scope_solver_loop_fuel sources scope_name IH); assumption.
Qed.

(** [set_scopes] never runs out of the fuel it gives to [scope_solver]. *)
Lemma set_scopes_has_fuel (self : StoreManager) (args : scopes_args) :
  outcome (set_scopes self args) <> OutOfFuel.
Proof.
  assert (Hreg : forall obj_items scopes _out,
             register_scopes obj_items scopes (_sources self) _out
             <> OutOfFuel).
  { induction obj_items as [|[scope_name items_list] rest IH];
      intros scopes _out; cbn [register_scopes]; [discriminate|].
    destruct scopes as [scopes_|]; [|discriminate].
    assert (Hok : seen_ok scopes_ []).
    { split; [constructor|intros x []]. }
    assert (Hlen : length scopes_ < S (length scopes_) + length (@nil string)).
    { simpl. lia. }
    destruct (@scope_solver_fuel scopes_ (_sources self) (S (length scopes_))
                scope_name items_list [] Hok Hlen) as (Hfuel & _ & _).
    destruct (scope_solver (S (length scopes_)) scope_name items_list scopes_
                (_sources self) []) as [[solved|e|] seen'].
    - apply IH.
    - discriminate.
    - exfalso. apply Hfuel. reflexivity. }
  unfold set_scopes, outcome.
  destruct args as [scopes|name scope|n]; simpl.
  - pose proof (Hreg (PyDict.update (obj_scopes_of (_scopes self))
                        (names_as_items scopes)) (Some scopes) PyDict.empty).
    unfold PyDict.items.
    destruct (register_scopes _ (Some scopes) _ _); simpl;
      [discriminate|discriminate|contradiction].
  - pose proof (Hreg (PyDict.set (obj_scopes_of (_scopes self)) name
                        (map Ref scope)) None PyDict.empty).
    unfold PyDict.items.
    destruct (register_scopes _ None _ _); simpl;
      [discriminate|discriminate|contradiction].
  - discriminate.
Qed.

(** ** The expander *)

Section ExpanderFacts.
Variable St : Type.
Variable RECOVER_NULL : option string.
Variable os_getpid : Z.

Let parser_t : Type := ExpandParser.t St.

Lemma dollars_S (n : nat) (rest : string) :
  dollars (S n) ++ rest = String "$" (dollars n ++ rest).
Proof. reflexivity. Qed.

Lemma count_symbols_dollars (p : parser_t) (n : nat) (rest : string) :
  ExpandParser.var_symbol p = "$" ->
  String.prefix "$" rest = false ->
  ExpandParser.count_symbols p (dollars n ++ rest) = n.
Proof.
  intros Hsym Hrest. induction n as [|n IH].
  - simpl. destruct rest as [|c r]; [reflexivity|].
    simpl. unfold char_is. rewrite Hsym.
    simpl in Hrest. simpl.
    destruct (Ascii.eqb c "$") eqn:Hc.
    + apply Ascii.eqb_eq in Hc. subst c. simpl in Hrest.
      destruct r; discriminate.
    + reflexivity.
  - rewrite dollars_S. simpl. unfold char_is at 1. rewrite Hsym. simpl.
    rewrite IH. reflexivity.
Qed.

Lemma str_drop_dollars (n : nat) (rest : string) :
  str_drop n (dollars n ++ rest) = rest.
Proof.
  induction n as [|n IH]; [reflexivity|].
  rewrite dollars_S. simpl. exact IH.
Qed.

Lemma expand_S (p : parser_t) (fuel : nat) (vars_ : string) :
  ExpandParser.expand RECOVER_NULL os_getpid p (S fuel) vars_
  = ExpandParser.expand_ RECOVER_NULL os_getpid p
      (ExpandParser.expand RECOVER_NULL os_getpid p fuel)
      (ExpandParser.escape RECOVER_NULL os_getpid p fuel) vars_.
Proof. reflexivity. Qed.

Section Unfolding.
Variable p : parser_t.
Variable self_expand self_escape : string -> M St string.
Hypothesis Hsym : ExpandParser.var_symbol p = "$".

Lemma expand__nonempty (c : ascii) (r : string) :
  ExpandParser.expand_ RECOVER_NULL os_getpid p self_expand self_escape
    (String c r)
  = try_except
      (ExpandParser.expand_loop RECOVER_NULL os_getpid p self_expand
         self_escape (String c r) "")
      (ExpandParser.reraise_with St (String c r)).
Proof. reflexivity. Qed.

Lemma expand_loop_dollar (r buff : string) :
  ExpandParser.expand_loop RECOVER_NULL os_getpid p self_expand
    self_escape (String "$" r) buff
  = (v <- ExpandParser.expand_var RECOVER_NULL os_getpid p self_expand
            self_escape r ;;
     add_str_value buff v).
Proof.
  simpl. unfold char_is. rewrite Hsym. reflexivity.
Qed.

Lemma expand_var_dollar (r1 : string) :
  ExpandParser.expand_var RECOVER_NULL os_getpid p self_expand
    self_escape (String "$" r1)
  = let times := 2 + ExpandParser.count_symbols p r1 in
    let verbatim :=
      r <- self_expand (str_drop (times - 1) (String "$" r1)) ;;
      ret (VStr (str_repeat (ExpandParser.var_symbol p) times ++ r)) in
    if Nat.eqb times 2
    then match ExpandParser.feat_pid p with
         | PidTrue =>
             r <- self_expand r1 ;;
             ret (VStr (py_str (VInt os_getpid) ++ r))
         | PidStr pid => r <- self_expand r1 ;; ret (VStr (pid ++ r))
         | PidOther => verbatim
         end
    else verbatim.
Proof.
  unfold ExpandParser.expand_var.
  change (Ascii.eqb "$" ESCAPE_CHAR) with false. cbv iota.
  unfold char_is. rewrite Hsym. reflexivity.
Qed.

Lemma expand_var_brace (r1 : string) :
  ExpandParser.expand_var RECOVER_NULL os_getpid p self_expand
    self_escape (String "{" r1)
  = (r <- ExpandParser._expand_modifier_var RECOVER_NULL p self_expand r1 ;;
     ret (VStr r)).
Proof.
  unfold ExpandParser.expand_var.
  change (Ascii.eqb "{" ESCAPE_CHAR) with false. cbv iota.
  unfold char_is. rewrite Hsym. reflexivity.
Qed.
End Unfolding.

(** Three or more dollars are copied and expansion goes on after them. *)
Lemma expand_dollars (p : parser_t) (fuel n : nat) (rest : string) (st : St) :
  ExpandParser.var_symbol p = "$" ->
  String.prefix "$" rest = false ->
  3 <= n ->
  ExpandParser.expand RECOVER_NULL os_getpid p (S fuel) (dollars n ++ rest) st
  = try_except
      (r <- ExpandParser.expand RECOVER_NULL os_getpid p fuel rest ;;
       ret (dollars n ++ r))
      (ExpandParser.reraise_with St (dollars n ++ rest)) st.
Proof.
  intros Hsym Hrest Hn.
  destruct n as [|[|m]]; try lia.
  destruct m as [|m']; [lia|].
  rewrite expand_S. rewrite (dollars_S (S (S m'))).
  rewrite expand__nonempty. rewrite <- dollars_S.
  unfold try_except. rewrite (dollars_S (S (S m'))) at 1.
  rewrite (expand_loop_dollar _ _ _ Hsym).
  rewrite (dollars_S (S m')) at 1.
  rewrite (expand_var_dollar _ _ _ Hsym).
  rewrite (count_symbols_dollars p (S m') rest Hsym Hrest).
  cbv zeta. change (Nat.eqb (2 + S m') 2) with false. cbv iota.
  replace (2 + S m' - 1) with (S (S m')) by lia.
  rewrite <- (dollars_S (S m')). rewrite str_drop_dollars.
  rewrite Hsym. change (str_repeat "$" (2 + S m')) with (dollars (S (S (S m')))).
  unfold bind.
  destruct (ExpandParser.expand RECOVER_NULL os_getpid p fuel rest st)
    as [[r|e|] st']; reflexivity.
Qed.

(** Exactly two dollars give the [feat_pid] string, and expansion goes on
    after them. *)
Lemma expand_two_dollars (p : parser_t) (fuel : nat) (pid rest : string)
    (st : St) :
  ExpandParser.var_symbol p = "$" ->
  ExpandParser.feat_pid p = PidStr pid ->
  String.prefix "$" rest = false ->
  ExpandParser.expand RECOVER_NULL os_getpid p (S fuel) ("$$" ++ rest) st
  = try_except
      (r <- ExpandParser.expand RECOVER_NULL os_getpid p fuel rest ;;
       ret (pid ++ r))
      (ExpandParser.reraise_with St ("$$" ++ rest)) st.
Proof.
  intros Hsym Hpid Hrest.
  rewrite expand_S.
  change ("$$" ++ rest) with (String "$" (String "$" rest)).
  rewrite expand__nonempty.
  unfold try_except.
  rewrite (expand_loop_dollar _ _ _ Hsym).
  rewrite (expand_var_dollar _ _ _ Hsym).
  pose proof (count_symbols_dollars p 0 rest Hsym Hrest) as Hc.
  change (dollars 0 ++ rest) with rest in Hc. rewrite Hc.
  cbv zeta. change (Nat.eqb (2 + 0) 2) with true. cbv iota. rewrite Hpid.
  unfold bind.
  destruct (ExpandParser.expand RECOVER_NULL os_getpid p fuel rest st)
    as [[r|e|] st']; reflexivity.
Qed.
End ExpanderFacts.

(** C9. With [var_symbol="$"]: [expand("$$")] with the pid value ["X"] is
    ["X"]; [expand("$$$$")] is ["$$$$"] whatever the pid setting; and in
    general a run of exactly two dollars gives the pid string while a run
    of three or more is copied as it is, expansion going on with what
    follows the run. *)
Theorem pid_expansion_only_for_two_symbols :
  (forall RECOVER_NULL os_getpid fuel nounset environ,
      expand RECOVER_NULL os_getpid (S (S fuel)) "$$" nounset environ "$"
        (PidStr "X")
      = (Ok "X", environ))
  /\ (forall RECOVER_NULL os_getpid fuel nounset environ feat_pid,
         expand RECOVER_NULL os_getpid (S (S fuel)) "$$$$" nounset environ "$"
           feat_pid
         = (Ok "$$$$", environ))
  /\ (forall (St : Type) RECOVER_NULL os_getpid (p : ExpandParser.t St)
             fuel n rest st,
         ExpandParser.var_symbol p = "$" ->
         String.prefix "$" rest = false ->
         3 <= n ->
         ExpandParser.expand RECOVER_NULL os_getpid p (S fuel)
           (dollars n ++ rest) st
         = try_except
             (r <- ExpandParser.expand RECOVER_NULL os_getpid p fuel rest ;;
              ret (dollars n ++ r))
             (ExpandParser.reraise_with St (dollars n ++ rest)) st)
  /\ (forall (St : Type) RECOVER_NULL os_getpid (p : ExpandParser.t St)
             fuel pid rest st,
         ExpandParser.var_symbol p = "$" ->
         ExpandParser.feat_pid p = PidStr pid ->
         String.prefix "$" rest = false ->
         ExpandParser.expand RECOVER_NULL os_getpid p (S fuel)
           ("$$" ++ rest) st
         = try_except
             (r <- ExpandParser.expand RECOVER_NULL os_getpid p fuel rest ;;
              ret (pid ++ r))
             (ExpandParser.reraise_with St ("$$" ++ rest)) st).
Proof.
  split; [|split; [|split]].
  - intros. reflexivity.
  - intros R pid fuel nounset environ feat_pid. unfold expand.
    change "$$$$" with (dollars 4 ++ "").
    rewrite expand_dollars; [reflexivity|reflexivity|reflexivity|lia].
  - intros. apply expand_dollars; assumption.
  - intros. apply expand_two_dollars; assumption.
Qed.

Lemma pid_expansion_only_for_two_symbols_witness :
  ExpandParser.expand None 1%Z
    (ExpandParser.mk false dict_environ "$" (PidStr "X")) 3
    (dollars 5 ++ "{A}$$") [("A", VStr "v")]
  = (Ok "$$$$${A}X", [("A", VStr "v")]).
Proof.
  destruct pid_expansion_only_for_two_symbols as (_ & _ & Hrun & _).
  rewrite (Hrun _ None 1%Z
             (ExpandParser.mk false dict_environ "$" (PidStr "X"))
             2 5 "{A}$$" [("A", VStr "v")]).
  - reflexivity.
  - reflexivity.
  - reflexivity.
  - lia.
Defined.

(** ** The renderer *)

(** C1. On the store of the template-chain scenario, a renderer on
    [scope_stack] with the default settings renders [stack_fname] to
    ["project1+dataset3_dataset3"]; four units of fuel are enough. *)
Theorem render_template_chain (RECOVER_NULL : option string) (os_getpid : Z)
    (fuel : nat) :
  rendered_value
    (render_var RECOVER_NULL os_getpid (4 + fuel)
       (Scenario.renderer Scenario.template_chain) "stack_fname"
       false true None true None no_kwargs PyDict.empty)
  = Ok (VStr "project1+dataset3_dataset3").
Proof.
  reflexivity.
Qed.

Section RendererFacts.
Variable RECOVER_NULL : option string.
Variable os_getpid : Z.

(** [render_var] past its assertion, its frame and its cache test. *)
Lemma render_var_miss (fuel : nat) (self : Renderer) (var_name : string)
    (dbg cch : bool) (sd : option settings_dict) (tpl : bool)
    (par : option QueryCtl) (kw : settings_kwargs) (q : QueryCtl) (c : Cache) :
  var_name <> "" ->
  QueryCtl_init var_name par (prepare_settings dbg cch sd tpl par kw) = Ok q ->
  (settings_cache q = true -> PyDict.get c var_name = None) ->
  render_var RECOVER_NULL os_getpid (S fuel) self var_name dbg cch sd tpl par kw c
  = match render_var_process RECOVER_NULL os_getpid
            (child_render RECOVER_NULL os_getpid fuel self) fuel self var_name
            (initial_report var_name q) q c with
    | (Ok (value, rep), c') =>
        if settings_cache q
        then (Ok (value,
                  if settings_debug q then Some (report_cached rep) else None),
              PyDict.set c' var_name value)
        else (Ok (value, if settings_debug q then Some rep else None), c')
    | (Raise e, c') => (Raise e, c')
    | (OutOfFuel, c') => (OutOfFuel, c')
    end.
Proof.
  intros Hname Hq Hmiss.
  apply String.eqb_neq in Hname.
  simpl. rewrite Hname. unfold bind at 1, lift_result. rewrite Hq.
  assert (Hget : (if settings_cache q then PyDict.get c var_name else None)
                 = None).
  { destruct (settings_cache q); [apply Hmiss|]; reflexivity. }
  rewrite Hget. unfold bind at 1. fold (initial_report var_name q).
  fold (child_render RECOVER_NULL os_getpid fuel self).
  destruct (render_var_process _ _ _ _ _ _ _ _ c) as [[[value rep]|e|] c'];
    reflexivity.
Qed.





End RendererFacts.




Section RendererSteps.
Variable RECOVER_NULL : option string.
Variable os_getpid : Z.
Variable rec : string -> QueryCtl -> M Cache rendered.
Variable fuel : nat.
Variable self : Renderer.
Variable var_name : string.
Variable rep : report.
Variable q : QueryCtl.

(** An error of step 1 leaves [render_var_process] as it is. *)
Lemma render_var_process_fetch_raises (c c1 : Cache) (e : exn) :
  fetch_value self var_name (settings q) rep c = (Raise e, c1) ->
  render_var_process RECOVER_NULL os_getpid rec fuel self var_name rep q c
  = (Raise e, c1).
Proof.
  intros Hf. unfold render_var_process. unfold bind at 1. rewrite Hf.
  reflexivity.
Qed.

(** With templating off, or a value that is no template, the value of
    step 1 is returned. *)
Lemma render_var_process_plain (c c1 : Cache) (v : value) :
  fetch_value self var_name (settings q) rep c = (Ok v, c1) ->
  template (settings q) = false \/ is_template (engine self) v = false ->
  exists rep',
    render_var_process RECOVER_NULL os_getpid rec fuel self var_name rep q c
    = (Ok (v, rep'), c1).
Proof.
  intros Hf Hplain. unfold render_var_process. unfold bind at 1. rewrite Hf.
  destruct (template (settings q)) eqn:Ht.
  - destruct Hplain as [Hplain|Hplain]; [discriminate|].
    rewrite Hplain. simpl. eexists. reflexivity.
  - simpl. eexists. reflexivity.
Qed.

(** With templating on and a template for value, the outcome is that of
    [render_template] on an instance with [strict=False] and
    [symbol="$"]. *)
Lemma render_var_process_template (c c1 : Cache) (raw : string) :
  fetch_value self var_name (settings q) rep c = (Ok (VStr raw), c1) ->
  template (settings q) = true ->
  is_template (engine self) (VStr raw) = true ->
  exists rep',
    render_var_process RECOVER_NULL os_getpid rec fuel self var_name rep q c
    = (value <- render_template RECOVER_NULL os_getpid fuel
                  (mkInstance raw false "$") (LazyQueryDict rec q) ;;
       ret (value, rep')) c1.
Proof.
  intros Hf Ht Hi. unfold render_var_process. unfold bind at 1. rewrite Hf.
  rewrite Ht, Hi. simpl. eexists. reflexivity.
Qed.

(** Step 1 on a key the store holds. *)
Lemma fetch_value_defined (c : Cache) (v : value) :
  get_value (store self) var_name (scope self) = Ok v ->
  fetch_value self var_name (settings q) rep c = (Ok v, c).
Proof.
  intros Hv. unfold fetch_value. rewrite Hv. reflexivity.
Qed.

(** Step 1 on a key the store does not hold. *)
Lemma fetch_value_undefined (c : Cache) (k : string) :
  get_value (store self) var_name (scope self) = Raise (UndefinedVarError k) ->
  fetch_value self var_name (settings q) rep c
  = apply_policy (on_undefined_error (settings q)) var_name
      (UndefinedVarError k) rep c.
Proof.
  intros Hv. unfold fetch_value. rewrite Hv. reflexivity.
Qed.
End RendererSteps.

(** ** Error settings *)

(** C6, as stated, fails.  The value of [malformed] makes the expander
    raise [MissingClosingBrace]; with [on_templating_error=Exception] the
    render does not raise, and with the constant ["<E>"] it does not return
    ["<E>"]: both return the raw value. *)
Lemma on_templating_error_not_consulted :
  fst (ExpandParser.expand None 1%Z
         (ExpandParser.mk false dict_environ "$" (PidStr "$$")) 5
         "${var_without_closing" [])
  = Raise (MissingClosingBrace "${var_without_closing")
  /\ rendered_value
       (render_var None 1%Z 5
          (Scenario.renderer Scenario.undefined_and_malformed) "malformed"
          false true None true None
          (mkKwargs (Some PolicyException) None None) [])
     = Ok (VStr "${var_without_closing")
  /\ rendered_value
       (render_var None 1%Z 5
          (Scenario.renderer Scenario.undefined_and_malformed) "malformed"
          false true None true None
          (mkKwargs (Some (PolicyValue (VStr "<E>"))) None None) [])
     = Ok (VStr "${var_without_closing").
Proof.
  repeat split; reflexivity.
Qed.

(** C6, amended.  When the expansion of the raw value of a key raises an
    [ExpandvarsException], [render_var] returns that raw value unchanged,
    whatever [on_templating_error] (and every other setting that leaves
    templating on) is. *)
Theorem parse_error_returns_raw_template (RECOVER_NULL : option string)
    (os_getpid : Z) (fuel : nat) (self : Renderer) (var_name : string)
    (dbg cch : bool) (sd : option settings_dict) (tpl : bool)
    (par : option QueryCtl) (kw : settings_kwargs) (c c' : Cache)
    (q : QueryCtl) (raw : string) (e : exn) :
  var_name <> "" ->
  QueryCtl_init var_name par (prepare_settings dbg cch sd tpl par kw) = Ok q ->
  (settings_cache q = true -> PyDict.get c var_name = None) ->
  get_value (store self) var_name (scope self) = Ok (VStr raw) ->
  template (settings q) = true ->
  is_template (engine self) (VStr raw) = true ->
  ExpandParser.expand RECOVER_NULL os_getpid
    (ExpandParser.mk false
       (LazyQueryDict (child_render RECOVER_NULL os_getpid fuel self) q)
       "$" (PidStr "$$"))
    fuel raw c = (Raise e, c') ->
  is_ExpandvarsException e = true ->
  rendered_value
    (render_var RECOVER_NULL os_getpid (S fuel) self var_name dbg cch sd tpl
       par kw c)
  = Ok (VStr raw).
Proof.
  intros Hname Hq Hmiss Hval Htpl Histpl Hexp He.
  rewrite (@render_var_miss RECOVER_NULL os_getpid fuel self var_name dbg cch
             sd tpl par kw q c Hname Hq Hmiss).
  destruct (@render_var_process_template RECOVER_NULL os_getpid
              (child_render RECOVER_NULL os_getpid fuel self) fuel self
              var_name (initial_report var_name q) q c c raw
              (fetch_value_defined self var_name _ q c Hval) Htpl Histpl)
    as [rep' Hp].
  rewrite Hp. unfold render_template, try_except, bind.
  simpl _value. simpl strict. simpl symbol. rewrite Hexp. rewrite He.
  unfold ret, rendered_value. destruct (settings_cache q); reflexivity.
Qed.

Lemma parse_error_returns_raw_template_witness :
  rendered_value
    (render_var None 1%Z 5
       (Scenario.renderer Scenario.undefined_and_malformed) "malformed"
       false true None true None
       (mkKwargs (Some PolicyException) None None) [])
  = Ok (VStr "${var_without_closing").
Proof.
  eapply (@parse_error_returns_raw_template None 1%Z 4
            (Scenario.renderer Scenario.undefined_and_malformed) "malformed"
            false true None true None
            (mkKwargs (Some PolicyException) None None) [] []).
  - discriminate.
  - reflexivity.
  - reflexivity.
  - reflexivity.
  - reflexivity.
  - reflexivity.
  - reflexivity.
  - reflexivity.
Defined.

(** C7, as stated, fails.  [x] is ["${missing}"] and [missing] is in no
    layer.  With [on_undefined_template_error="<T>"] (and the default
    [on_undefined_error]) the render raises [UndefinedVarError] instead of
    using ["<T>"]; with [on_undefined_template_error=Exception] and
    [on_undefined_error="<U>"] nothing is raised and ["<U>"] is used. *)
Lemma on_undefined_template_error_not_consulted :
  rendered_value
    (render_var None 1%Z 5
       (Scenario.renderer Scenario.undefined_and_malformed) "x"
       false true None true None
       (mkKwargs None None (Some (PolicyValue (VStr "<T>")))) [])
  = Raise (UndefinedVarError "missing")
  /\ rendered_value
       (render_var None 1%Z 5
          (Scenario.renderer Scenario.undefined_and_malformed) "x"
          false true None true None
          (mkKwargs None (Some (PolicyValue (VStr "<U>")))
             (Some PolicyException)) [])
     = Ok (VStr "<U>").
Proof.
  split; reflexivity.
Qed.

Lemma QueryCtl_init_child (key : string) (q : QueryCtl) (dbg cch tpl : bool)
    (sd : option settings_dict) (kw : settings_kwargs) :
  QueryCtl_init key (Some (bump q))
    (prepare_settings dbg cch sd tpl (Some (bump q)) kw)
  = Ok (child_frame key q).
Proof.
  destruct q as [k p s l]. reflexivity.
Qed.

(** C7, amended.  A key that the expander looks up below the frame [q] and
    that no layer holds is handled by [on_undefined_error], the setting
    that also handles the top-level key: [Exception] propagates the
    [UndefinedVarError], a callable's return value or a constant is used
    (as it is when it is no template); [on_undefined_template_error] plays
    no part. *)
Theorem child_lookup_uses_on_undefined_error (RECOVER_NULL : option string)
    (os_getpid : Z) (fuel : nat) (self : Renderer) (q : QueryCtl)
    (key : string) (c : Cache) :
  key <> "" ->
  is_not_circular q = Ok true ->
  (cache (settings q) = true -> PyDict.get c key = None) ->
  get_value (store self) key (scope self) = Raise (UndefinedVarError key) ->
  let lookup :=
    ExpandParser.get
      (LazyQueryDict (child_render RECOVER_NULL os_getpid (S fuel) self) q)
      (VStr key) c in
  let err := UndefinedVarError key in
  let rep := initial_report key (child_frame key q) in
  match on_undefined_error (settings q) with
  | PolicyException => lookup = (Raise err, c)
  | PolicyCallable f =>
      template (settings q) = false
      \/ is_template (engine self) (f key err rep) = false ->
      fst lookup = Ok (f key err rep)
  | PolicyValue v =>
      template (settings q) = false \/ is_template (engine self) v = false ->
      fst lookup = Ok v
  end.
Proof.
  intros Hkey Hcirc Hmiss Hundef lookup err rep.
  assert (Htruthy : truthy (VStr key) = true).
  { simpl. apply String.eqb_neq in Hkey. rewrite Hkey. reflexivity. }
  assert (Hlookup :
    lookup
    = (ret_ <- render_var RECOVER_NULL os_getpid (S fuel) self key false true
                 None true (Some (bump q)) no_kwargs ;;
       ret (fst ret_)) c).
  { unfold lookup. simpl ExpandParser.get. unfold _get_item.
    rewrite Htruthy. simpl negb. cbv iota.
    unfold bind at 1, lift_result. rewrite Hcirc. reflexivity. }
  assert (Hmiss' : settings_cache (child_frame key q) = true ->
                   PyDict.get c key = None).
  { exact Hmiss. }
  pose proof (@render_var_miss RECOVER_NULL os_getpid fuel self key false true
                None true (Some (bump q)) no_kwargs (child_frame key q) c
                Hkey (QueryCtl_init_child key q false true true None no_kwargs)
                Hmiss') as Hrv.
  fold rep in Hrv.
  pose proof (@fetch_value_undefined self key rep (child_frame key q) c key
                Hundef) as Hfetch.
  change (settings (child_frame key q)) with (settings q) in Hfetch.
  destruct (on_undefined_error (settings q)) as [|f|v] eqn:Hpol.
  - rewrite Hlookup. unfold bind. rewrite Hrv.
    rewrite (@render_var_process_fetch_raises RECOVER_NULL os_getpid _ fuel
               self key rep (child_frame key q) c c err Hfetch).
    reflexivity.
  - intros Hplain. rewrite Hlookup. unfold bind. rewrite Hrv.
    destruct (@render_var_process_plain RECOVER_NULL os_getpid
                (child_render RECOVER_NULL os_getpid fuel self) fuel self key
                rep (child_frame key q) c c (f key err rep) Hfetch Hplain)
      as [rep' Hp].
    rewrite Hp. destruct (settings_cache (child_frame key q)); reflexivity.
  - intros Hplain. rewrite Hlookup. unfold bind. rewrite Hrv.
    destruct (@render_var_process_plain RECOVER_NULL os_getpid
                (child_render RECOVER_NULL os_getpid fuel self) fuel self key
                rep (child_frame key q) c c v Hfetch Hplain)
      as [rep' Hp].
    rewrite Hp. destruct (settings_cache (child_frame key q)); reflexivity.
Qed.

Lemma child_lookup_uses_on_undefined_error_witness :
  let q :=
    mkQueryCtl "x" None
      (mkSettings PolicyException (PolicyValue (VStr "<U>")) PolicyException
         true false true) 0 in
  fst (ExpandParser.get
         (LazyQueryDict
            (child_render None 1%Z 4
               (Scenario.renderer Scenario.undefined_and_malformed)) q)
         (VStr "missing") [])
  = Ok (VStr "<U>").
Proof.
  intros q.
  assert (Hkey : "missing" <> "") by discriminate.
  pose proof (@child_lookup_uses_on_undefined_error None 1%Z 3
                (Scenario.renderer Scenario.undefined_and_malformed) q
                "missing" [] Hkey eq_refl (fun _ => eq_refl) eq_refl) as H.
  apply H. right. reflexivity.
Defined.

(** ** Circular template references *)

Lemma str_app_assoc (a b c : string) : (a ++ b) ++ c = a ++ (b ++ c).
Proof.
  induction a as [|x a IH]; simpl; [reflexivity|]. rewrite IH. reflexivity.
Qed.

Lemma str_app_nil_r (a : string) : a ++ "" = a.
Proof.
  induction a as [|x a IH]; simpl; [reflexivity|]. rewrite IH. reflexivity.
Qed.

Lemma str_contains_app (sub pre rest : string) :
  str_contains sub rest = true -> str_contains sub (pre ++ rest) = true.
Proof.
  intros H. induction pre as [|c pre IH]; simpl; [exact H|].
  rewrite IH. apply orb_true_r.
Qed.


Section ExpanderReference.
Variable St : Type.
Variable RECOVER_NULL : option string.
Variable os_getpid : Z.
Variable p : ExpandParser.t St.
Variable self_expand self_escape : string -> M St string.
Hypothesis Hsym : ExpandParser.var_symbol p = "$".

(** The loop of [expand] copies plain text up to the first dollar. *)
Lemma expand_loop_plain (pre rest buff : string) :
  plain pre = true ->
  ExpandParser.expand_loop RECOVER_NULL os_getpid p self_expand self_escape
    (pre ++ String "$" rest) buff
  = (v <- ExpandParser.expand_var RECOVER_NULL os_getpid p self_expand
            self_escape rest ;;
     add_str_value (buff ++ pre) v).
Proof.
  revert buff. induction pre as [|c pre IH]; intros buff Hplain.
  - rewrite str_app_nil_r. apply expand_loop_dollar. exact Hsym.
  - simpl in Hplain.
    apply andb_true_iff in Hplain. destruct Hplain as [Hc Hplain].
    apply andb_true_iff in Hc. destruct Hc as [Hdollar Hesc].
    apply negb_true_iff in Hdollar. apply negb_true_iff in Hesc.
    change ((String c pre) ++ String "$" rest)
      with (String c (pre ++ String "$" rest)).
    assert (Hstep :
      ExpandParser.expand_loop RECOVER_NULL os_getpid p self_expand
        self_escape (String c (pre ++ String "$" rest)) buff
      = ExpandParser.expand_loop RECOVER_NULL os_getpid p self_expand
          self_escape (pre ++ String "$" rest) (buff ++ String c "")).
    { simpl ExpandParser.expand_loop at 1. unfold char_is. rewrite Hsym.
      change (String.eqb (String c "") "$") with (Ascii.eqb c "$" && true).
      rewrite Hdollar, Hesc. reflexivity. }
    rewrite Hstep. rewrite IH by exact Hplain.
    rewrite str_app_assoc. reflexivity.
Qed.

(** The loop of [_expand_modifier_var] reads a name up to the brace. *)
Lemma _expand_modifier_var_loop_name (k suf buff : string) (indirect : bool) :
  all_valid k = true ->
  ExpandParser._expand_modifier_var_loop RECOVER_NULL p self_expand indirect
    (k ++ String "}" suf) buff
  = (v <- ExpandParser.getenv RECOVER_NULL p (buff ++ k) indirect None ;;
     r <- self_expand suf ;;
     ret (py_str v ++ r)).
Proof.
  revert buff. induction k as [|c k IH]; intros buff Hvalid.
  - rewrite str_app_nil_r. reflexivity.
  - simpl in Hvalid. apply andb_true_iff in Hvalid.
    destruct Hvalid as [Hc Hvalid].
    change ((String c k) ++ String "}" suf) with (String c (k ++ String "}" suf)).
    simpl ExpandParser._expand_modifier_var_loop. rewrite Hc.
    rewrite IH by exact Hvalid. rewrite str_app_assoc. reflexivity.
Qed.

Lemma valid_name_inv (k : string) :
  valid_name k = true ->
  exists c r, k = String c r /\ _valid_char c = true /\ all_valid r = true.
Proof.
  unfold valid_name. destruct k as [|c r]; simpl; [discriminate|].
  intros H. apply andb_true_iff in H. exists c, r. tauto.
Qed.

(** [_expand_modifier_var] on a name closed by a brace looks the name up. *)
Lemma _expand_modifier_var_name (k suf : string) :
  valid_name k = true ->
  ExpandParser._expand_modifier_var RECOVER_NULL p self_expand
    (k ++ String "}" suf)
  = (v <- ExpandParser.getenv RECOVER_NULL p k false None ;;
     r <- self_expand suf ;;
     ret (py_str v ++ r)).
Proof.
  intros Hk. destruct (valid_name_inv k Hk) as (c & r & -> & Hc & Hr).
  unfold ExpandParser._expand_modifier_var.
  assert (Hlen : Nat.leb (String.length (String c r ++ String "}" suf)) 1
                 = false).
  { simpl. destruct r; reflexivity. }
  rewrite Hlen.
  assert (Hbang : Ascii.eqb c "!" = false).
  { destruct (Ascii.eqb c "!") eqn:E; [|reflexivity].
    apply Ascii.eqb_eq in E. subst c. discriminate. }
  change (String c r ++ String "}" suf) with (String c (r ++ String "}" suf)).
  assert (Hloop :
    ExpandParser._expand_modifier_var_loop RECOVER_NULL p self_expand false
      (String c (r ++ String "}" suf)) ""
    = (v <- ExpandParser.getenv RECOVER_NULL p (String c r) false None ;;
       r0 <- self_expand suf ;;
       ret (py_str v ++ r0))).
  { change (String c (r ++ String "}" suf))
      with (String c r ++ String "}" suf).
    rewrite _expand_modifier_var_loop_name; [reflexivity|].
    simpl. rewrite Hc, Hr. reflexivity. }
  destruct c as [b0 b1 b2 b3 b4 b5 b6 b7].
  destruct b0, b1, b2, b3, b4, b5, b6, b7;
    try exact Hloop; discriminate Hbang.
Qed.
End ExpanderReference.

(** The expansion of a template whose first marker is [${k}]: the lookup
    of [k], then the expansion of what follows the brace. *)
Lemma expand_reference (St : Type) (RECOVER_NULL : option string)
    (os_getpid : Z) (p : ExpandParser.t St) (fuel : nat) (pre k suf : string)
    (st : St) :
  ExpandParser.var_symbol p = "$" ->
  plain pre = true ->
  valid_name k = true ->
  ExpandParser.expand RECOVER_NULL os_getpid p (S fuel) (reference_to k pre suf) st
  = try_except
      (v <- ExpandParser.getenv RECOVER_NULL p k false None ;;
       r <- ExpandParser.expand RECOVER_NULL os_getpid p fuel suf ;;
       ret (pre ++ py_str v ++ r))
      (ExpandParser.reraise_with St (reference_to k pre suf)) st.
Proof.
  intros Hsym Hpre Hk. rewrite expand_S. unfold ExpandParser.expand_.
  assert (Hne : String.eqb (reference_to k pre suf) "" = false).
  { unfold reference_to. destruct pre; reflexivity. }
  rewrite Hne. unfold try_except.
  unfold reference_to at 1.
  change ("${" ++ k ++ "}" ++ suf) with (String "$" (String "{" (k ++ String "}" suf))).
  rewrite expand_loop_plain by assumption.
  rewrite expand_var_brace by assumption.
  rewrite (@_expand_modifier_var_name St RECOVER_NULL p _
             (ExpandParser.escape RECOVER_NULL os_getpid p fuel) k suf Hk).
  unfold bind.
  destruct (ExpandParser.getenv RECOVER_NULL p k false None st)
    as [[v|e|] st1]; try reflexivity.
  destruct (ExpandParser.expand RECOVER_NULL os_getpid p fuel suf st1)
    as [[r|e|] st2]; reflexivity.
Qed.





Lemma walk_parents_absent (l : list string) :
  forall (p : QueryCtl) (key : string) (stack : list string),
    frame_keys p = l -> ~ In key l ->
    walk_parents p key stack = Ok true.
Proof.
  induction l as [|x l IH]; intros p key stack Hl Hnotin.
  - destruct p; discriminate.
  - destruct p as [k par s lv]. simpl in Hl.
    injection Hl as Hk Hrest. subst x.
    simpl. assert (Hneq : String.eqb k key = false).
    { apply String.eqb_neq. intros Heq. apply Hnotin. left. exact Heq. }
    rewrite Hneq. destruct par as [p'|]; [|reflexivity].
    apply IH; [exact Hrest|].
    intros Hin. apply Hnotin. right. exact Hin.
Qed.

Lemma walk_parents_found (l1 : list string) :
  forall (p : QueryCtl) (key : string) (l2 stack : list string),
    frame_keys p = (l1 ++ key :: l2)%list -> ~ In key l1 ->
    walk_parents p key stack
    = Raise (TemplateRenderingCircularValueError key
               (stack ++ l1 ++ [key])%list).
Proof.
  induction l1 as [|x l1 IH]; intros p key l2 stack Hl Hnotin.
  - destruct p as [k par s lv]. simpl in Hl.
    injection Hl as Hk Hrest. subst k.
    simpl. rewrite String.eqb_refl. reflexivity.
  - destruct p as [k par s lv]. simpl in Hl.
    injection Hl as Hk Hrest. subst k.
    simpl. assert (Hneq : String.eqb x key = false).
    { apply String.eqb_neq. intros Heq. apply Hnotin. left. exact Heq. }
    rewrite Hneq. destruct par as [p'|].
    + rewrite (IH p' key l2 (stack ++ [x])%list Hrest).
      * rewrite <- app_assoc. reflexivity.
      * intros Hin. apply Hnotin. right. exact Hin.
    + destruct l1; discriminate.
Qed.

Lemma valid_name_nonempty (k : string) : valid_name k = true -> k <> "".
Proof.
  unfold valid_name. intros H ->. discriminate.
Qed.

Section Lookup.
Variable rec : string -> QueryCtl -> M Cache rendered.

Lemma truthy_name (nxt : string) : nxt <> "" -> truthy (VStr nxt) = true.
Proof.
  intros H. apply String.eqb_neq in H. simpl. rewrite H. reflexivity.
Qed.


(** The lookup of a name by any other frame renders the name below it. *)
Lemma lookup_child (q : QueryCtl) (nxt : string) (c : Cache) (b : bool) :
  nxt <> "" ->
  is_not_circular q = Ok b ->
  ExpandParser.get (LazyQueryDict rec q) (VStr nxt) c
  = (ret_ <- rec nxt (bump q) ;; ret (fst ret_)) c.
Proof.
  intros Hnxt Hcirc.
  change (ExpandParser.get (LazyQueryDict rec q) (VStr nxt) c)
    with (_get_item rec q (VStr nxt) c).
  unfold _get_item. rewrite (truthy_name Hnxt).
  unfold bind at 1, lift_result. rewrite Hcirc. reflexivity.
Qed.
End Lookup.

Section CircularChain.
Variable RECOVER_NULL : option string.
Variable os_getpid : Z.
Variable self : Renderer.
Hypothesis Hengine : engine self = ExpandVarsEngine_init.



Section Chain.
Variable k0 : string.
Variable ks : list string.
Hypothesis Hchain : circular_chain self k0 ks.




End Chain.
End CircularChain.


Lemma links_snoc (self : Renderer) (l : list string) :
  forall (k last x : string),
    links self k l last -> refers self last x ->
    links self k (l ++ [last])%list x.
Proof.
  induction l as [|nxt l IH]; intros k last x Hl Hr; simpl in *.
  - split; assumption.
  - destruct Hl as [Hk Hl]. split; [exact Hk|]. apply IH; assumption.
Qed.

(** A circular chain written from [k0] is one written from the key [k0]
    refers to. *)
Lemma circular_chain_rotate (self : Renderer) (k0 k1 : string)
    (ks : list string) :
  circular_chain self k0 (k1 :: ks) ->
  circular_chain self k1 (ks ++ [k0])%list.
Proof.
  intros (Hnodup & Hvalid & Hk0 & Hlinks).
  assert (Hperm : Permutation (k0 :: k1 :: ks) (k1 :: ks ++ [k0])%list).
  { change (k1 :: ks ++ [k0])%list with ((k1 :: ks) ++ [k0])%list.
    apply Permutation_cons_append. }
  split; [|split].
  - exact (Permutation_NoDup Hperm Hnodup).
  - exact (Permutation_Forall Hperm Hvalid).
  - apply links_snoc; assumption.
Qed.




(** * Further properties of the code *)

(** ** Dictionaries *)

Section PyDictFacts.
Variable V : Type.

Lemma get_set_same (d : PyDict.t V) (k : string) (v : V) :
  PyDict.get (PyDict.set d k v) k = Some v.
Proof.
  induction d as [|[k' v'] d IH]; simpl.
  - rewrite String.eqb_refl. reflexivity.
  - destruct (String.eqb k' k) eqn:E; simpl; rewrite E; [reflexivity|exact IH].
Qed.

Lemma get_set_other (d : PyDict.t V) (k k' : string) (v : V) :
  k <> k' -> PyDict.get (PyDict.set d k v) k' = PyDict.get d k'.
Proof.
  intros Hneq. induction d as [|[k0 v0] d IH]; simpl.
  - apply String.eqb_neq in Hneq. rewrite Hneq. reflexivity.
  - destruct (String.eqb k0 k) eqn:E; simpl.
    + apply String.eqb_eq in E. subst k0.
      apply String.eqb_neq in Hneq. rewrite Hneq. reflexivity.
    + destruct (String.eqb k0 k'); [reflexivity|exact IH].
Qed.

Lemma mem_set_other (d : PyDict.t V) (k k' : string) (v : V) :
  k <> k' -> PyDict.mem (PyDict.set d k v) k' = PyDict.mem d k'.
Proof.
  intros H. unfold PyDict.mem. rewrite get_set_other by exact H. reflexivity.
Qed.

Lemma mem_true_iff (d : PyDict.t V) (k : string) :
  PyDict.mem d k = true <-> In k (PyDict.keys d).
Proof.
  unfold PyDict.mem. induction d as [|[k' v'] d IH]; simpl.
  - split; [discriminate|intros []].
  - destruct (String.eqb k' k) eqn:E.
    + apply String.eqb_eq in E. split; [intros _; left; exact E|reflexivity].
    + apply String.eqb_neq in E. rewrite IH. split.
      * intros H. right. exact H.
      * intros [H|H]; [contradiction|exact H].
Qed.

Lemma mem_false_get (d : PyDict.t V) (k : string) :
  PyDict.mem d k = false -> PyDict.get d k = None.
Proof.
  unfold PyDict.mem. destruct (PyDict.get d k); [discriminate|reflexivity].
Qed.
End PyDictFacts.

(** ** The order of the sources *)

Lemma insert_sorted_perm (x : Source) (l : list Source) :
  Permutation (insert_sorted x l) (x :: l).
Proof.
  induction l as [|y r IH]; simpl; [apply Permutation_refl|].
  destruct (lvl_sorter x <? lvl_sorter y)%Z; [apply Permutation_refl|].
  apply perm_trans with (y :: x :: r); [|apply perm_swap].
  apply perm_skip. exact IH.
Qed.

Lemma insert_sorted_sorted (x : Source) (l : list Source) :
  StronglySorted by_level l -> StronglySorted by_level (insert_sorted x l).
Proof.
  induction l as [|y r IH]; simpl; intros Hs.
  - repeat constructor.
  - inversion Hs as [|y' r' Hr Hy]; subst.
    destruct (lvl_sorter x <? lvl_sorter y)%Z eqn:E.
    + apply Z.ltb_lt in E. constructor; [exact Hs|].
      constructor; [unfold by_level; lia|].
      eapply Forall_impl; [|exact Hy].
      unfold by_level. intros a Ha. lia.
    + apply Z.ltb_ge in E. constructor; [apply IH; exact Hr|].
      apply (Permutation_Forall (Permutation_sym (insert_sorted_perm x r))).
      constructor; [exact E|exact Hy].
Qed.

Lemma filter_above (v : Z) (l : list Source) (x : Source) :
  Forall (by_level x) l -> (v < lvl_sorter x)%Z -> filter (at_level v) l = [].
Proof.
  intros Hall Hv. induction Hall as [|y r Hy _ IH]; simpl; [reflexivity|].
  unfold at_level at 1. unfold by_level in Hy.
  destruct (lvl_sorter y =? v)%Z eqn:E; [apply Z.eqb_eq in E; lia|exact IH].
Qed.

Lemma insert_sorted_stable (v : Z) (x : Source) (l : list Source) :
  StronglySorted by_level l ->
  filter (at_level v) (insert_sorted x l)
  = (filter (at_level v) l ++ filter (at_level v) [x])%list.
Proof.
  induction l as [|y r IH]; simpl; intros Hs; [reflexivity|].
  inversion Hs as [|y' r' Hr Hy]; subst.
  destruct (lvl_sorter x <? lvl_sorter y)%Z eqn:E.
  - apply Z.ltb_lt in E. simpl.
    destruct (at_level v x) eqn:Ex; [|rewrite app_nil_r; reflexivity].
    unfold at_level in Ex. apply Z.eqb_eq in Ex.
    assert (Ey : at_level v y = false).
    { unfold at_level. apply Z.eqb_neq. lia. }
    rewrite Ey. rewrite (@filter_above v r y Hy) by lia. reflexivity.
  - simpl. rewrite IH by exact Hr.
    destruct (at_level v y); reflexivity.
Qed.

Lemma sorted_fold (l acc : list Source) :
  StronglySorted by_level acc ->
  StronglySorted by_level (fold_left (fun a x => insert_sorted x a) l acc)
  /\ Permutation (fold_left (fun a x => insert_sorted x a) l acc) (acc ++ l)
  /\ forall v,
       filter (at_level v) (fold_left (fun a x => insert_sorted x a) l acc)
       = (filter (at_level v) acc ++ filter (at_level v) l)%list.
Proof.
  revert acc. induction l as [|x l IH]; intros acc Hacc; simpl.
  - split; [exact Hacc|]. split; [rewrite app_nil_r; apply Permutation_refl|].
    intros v. rewrite app_nil_r. reflexivity.
  - destruct (IH (insert_sorted x acc) (insert_sorted_sorted x Hacc))
      as (Hs & Hp & Hf).
    split; [exact Hs|]. split.
    + eapply perm_trans; [exact Hp|].
      eapply perm_trans;
        [apply Permutation_app_tail; apply insert_sorted_perm|].
      simpl. apply Permutation_middle.
    + intros v. rewrite Hf. rewrite insert_sorted_stable by exact Hacc.
      rewrite <- app_assoc. f_equal. simpl.
      destruct (at_level v x); reflexivity.
Qed.

(** X1. With no scope, [get_ordered_sources] returns the registered sources
    sorted by level with a stable sort: every source once, in ascending
    order of level (a source without a level counting as level 500), the
    sources of one level in the order in which they were registered. *)
Theorem get_ordered_sources_stable_sort (self : StoreManager) :
  exists l,
    get_ordered_sources self None = Ok l
    /\ Permutation l (PyDict.values (_sources self))
    /\ StronglySorted by_level l
    /\ forall v,
         filter (at_level v) l
         = filter (at_level v) (PyDict.values (_sources self)).
Proof.
  exists (sorted (PyDict.values (_sources self))).
  destruct (@sorted_fold (PyDict.values (_sources self)) [])
    as (Hs & Hp & Hf); [constructor|].
  split; [reflexivity|]. split; [exact Hp|]. split; [exact Hs|].
  intros v. rewrite Hf. reflexivity.
Qed.

(** ** Reading variables *)

Lemma get_var_loop_all (layers : list Layer) (k : string) (out : list Layer) :
  get_var_loop layers k true out = inr (out ++ filter (holds k) layers)%list.
Proof.
  revert out. induction layers as [|layer rest IH]; intros out; simpl.
  - rewrite app_nil_r. reflexivity.
  - unfold holds at 1. destruct (PyDict.mem (payload layer) k).
    + rewrite IH. rewrite <- app_assoc. reflexivity.
    + apply IH.
Qed.

Lemma find_filter (A : Type) (f : A -> bool) (l : list A) :
  find f l = hd_error (filter f l).
Proof.
  induction l as [|x l IH]; simpl; [reflexivity|].
  destruct (f x); [reflexivity|exact IH].
Qed.

(** X2. [inspect_var] returns the layers of the scope that hold the name,
    all of them and in the order of the scope, and raises
    [UndefinedVarError] when there is none. *)
Theorem inspect_var_all_layers (self : StoreManager) (scope : option string)
    (k : string) (layers : list Layer) :
  get_ordered_layers self scope = Ok layers ->
  inspect_var self k scope
  = match filter (holds k) layers with
    | [] => Raise (UndefinedVarError k)
    | found => Ok (inr found)
    end.
Proof.
  intros Hlayers. unfold inspect_var, get_var. rewrite Hlayers.
  rewrite get_var_loop_all. simpl.
  destruct (filter (holds k) layers); reflexivity.
Qed.

Lemma inspect_var_all_layers_witness :
  inspect_var Scenario.overrides "test_override" (Some "scope_stack")
  = Ok (inr
      [ mkLayer (mkSource "stack_env" (Some 300%Z) None)
          [("path", VStr "/home/user/dataset3");
           ("test_override", VStr "dataset3")] [];
        mkLayer (mkSource "project_env" (Some 300%Z) None)
          [("options", VStr "value"); ("test_override", VStr "dataset2")] [];
        mkLayer (mkSource "app_cli" (Some 300%Z) None)
          [("name", VStr "dataset1"); ("test_override", VStr "dataset1")] [] ]).
Proof.
  exact (@inspect_var_all_layers Scenario.overrides (Some "scope_stack")
           "test_override"
           (layers_of (layered_store Scenario.overrides)
              Scenario.sources_of_scope_stack) eq_refl).
Defined.

(** [get_var] without [debug] returns the first layer of the list
    [inspect_var] returns, and raises what [inspect_var] raises;
    [inspect_var] never returns an empty list or a single layer. *)
Theorem get_var_first_of_inspect_var (self : StoreManager)
    (scope : option string) (k : string) :
  match inspect_var self k scope with
  | Ok (inr (layer :: _)) => get_var self k scope false = Ok (inl layer)
  | Ok _ => False
  | Raise e => get_var self k scope false = Raise e
  | OutOfFuel => False
  end.
Proof.
  unfold inspect_var, get_var.
  destruct (get_ordered_layers self scope) as [layers|e|] eqn:Hl.
  - rewrite get_var_loop_all, get_var_loop_first, find_filter. simpl.
    change (fun l : Layer => PyDict.mem (payload l) k) with (holds k).
    destruct (filter (holds k) layers) as [|layer found]; reflexivity.
  - reflexivity.
  - unfold get_ordered_layers, get_ordered_sources in Hl.
    destruct scope as [sc|]; [|discriminate].
    destruct (PyDict.get (_scopes self) sc); discriminate.
Qed.

Lemma find_holds_some (layers : list Layer) (k : string) :
  (exists layer, find (holds k) layers = Some layer)
  <-> In k (flat_map (fun l => PyDict.keys (payload l)) layers).
Proof.
  induction layers as [|layer rest IH]; simpl.
  - split; [intros [l H]; discriminate|intros []].
  - rewrite in_app_iff. unfold holds at 1.
    destruct (PyDict.mem (payload layer) k) eqn:E.
    + split; [|eauto]. intros _. left. apply mem_true_iff. exact E.
    + rewrite IH. split; [auto|]. intros [H|H]; [|exact H].
      apply mem_true_iff in H. rewrite H in E. discriminate.
Qed.

Lemma get_value_find (self : StoreManager) (scope : option string)
    (k : string) (layers : list Layer) :
  get_ordered_layers self scope = Ok layers ->
  get_value self k scope
  = match find (holds k) layers with
    | Some layer =>
        match PyDict.get (payload layer) k with
        | Some v => Ok v
        | None => Raise (KeyError k)
        end
    | None => Raise (UndefinedVarError k)
    end.
Proof.
  intros Hl. unfold get_value, get_var. rewrite Hl, get_var_loop_first.
  change (fun l : Layer => PyDict.mem (payload l) k) with (holds k).
  destruct (find (holds k) layers); reflexivity.
Qed.

Lemma get_value_find_value (self : StoreManager) (scope : option string)
    (k : string) (layers : list Layer) :
  get_ordered_layers self scope = Ok layers ->
  get_value self k scope
  = match find (holds k) layers with
    | Some layer =>
        match PyDict.get (payload layer) k with
        | Some v => Ok v
        | None => Raise (UndefinedVarError k)
        end
    | None => Raise (UndefinedVarError k)
    end.
Proof.
  intros Hl. rewrite (@get_value_find self scope k layers Hl).
  destruct (find (holds k) layers) as [layer|] eqn:Hf; [|reflexivity].
  apply find_some in Hf. destruct Hf as [_ Hm]. unfold holds in Hm.
  destruct (mem_get _ _ Hm) as [v Hv]. rewrite Hv. reflexivity.
Qed.

(** X3. The names [get_var_names] lists for a scope are, each once, the
    names for which [get_value] returns a value in that scope. *)
Theorem get_var_names_are_defined (self : StoreManager)
    (scope : option string) (names : list string) (k : string) :
  get_var_names self scope = Ok names ->
  NoDup names
  /\ (In k names <-> exists v, get_value self k scope = Ok v).
Proof.
  unfold get_var_names.
  destruct (get_ordered_layers self scope) as [layers|e|] eqn:Hl;
    try discriminate.
  intros H. injection H as <-. split; [apply NoDup_nodup|].
  rewrite nodup_In, <- find_holds_some.
  rewrite (@get_value_find_value self scope k layers Hl).
  split.
  - intros [layer Hf]. rewrite Hf. apply find_some in Hf.
    destruct Hf as [_ Hm]. destruct (mem_get _ _ Hm) as [v Hv].
    exists v. rewrite Hv. reflexivity.
  - intros [v Hv]. destruct (find (holds k) layers) as [layer|];
      [eauto|discriminate].
Qed.

Lemma get_var_names_are_defined_witness :
  NoDup ["path"; "options"; "name"; "test_override"]
  /\ (In "options" ["path"; "options"; "name"; "test_override"]
      <-> exists v,
            get_value Scenario.overrides "options" (Some "scope_stack") = Ok v).
Proof.
  exact (@get_var_names_are_defined Scenario.overrides (Some "scope_stack")
           ["path"; "options"; "name"; "test_override"] "options" eq_refl).
Defined.

Lemma get_values_payload_get (items : list (string * value))
    (out : PyDict.t value) (k : string) :
  PyDict.get (get_values_payload items out) k
  = match PyDict.get out k with
    | Some v => Some v
    | None => PyDict.get items k
    end.
Proof.
  revert out. induction items as [|[key val] rest IH]; intros out; simpl.
  - destruct (PyDict.get out k); reflexivity.
  - rewrite IH. destruct (String.eqb key k) eqn:E.
    + apply String.eqb_eq in E. subst key.
      unfold PyDict.mem. destruct (PyDict.get out k) as [v|] eqn:Ho.
      * rewrite Ho. reflexivity.
      * rewrite get_set_same. reflexivity.
    + apply String.eqb_neq in E.
      destruct (PyDict.mem out key); [reflexivity|].
      rewrite get_set_other by exact E.
      reflexivity.
Qed.

Lemma get_values_loop_get (layers : list Layer) (out : PyDict.t value)
    (k : string) :
  PyDict.get (get_values_loop layers out) k
  = match PyDict.get out k with
    | Some v => Some v
    | None =>
        match find (holds k) layers with
        | Some layer => PyDict.get (payload layer) k
        | None => None
        end
    end.
Proof.
  revert out. induction layers as [|layer rest IH]; intros out; simpl.
  - destruct (PyDict.get out k); reflexivity.
  - rewrite IH, get_values_payload_get. unfold PyDict.items.
    unfold holds at 2. unfold PyDict.mem.
    destruct (PyDict.get out k) as [v|]; [reflexivity|].
    destruct (PyDict.get (payload layer) k) eqn:E; [|reflexivity].
    simpl. rewrite E. reflexivity.
Qed.

(** X4. [get_values] and [get_value] agree: the dict [get_values] returns
    holds, for every name, the value [get_value] returns for it, and has
    no entry for a name on which [get_value] raises [UndefinedVarError];
    on an unknown scope both raise the same error. *)
Theorem get_values_agrees_with_get_value (self : StoreManager)
    (scope : option string) (k : string) :
  match get_values self scope with
  | Ok vals =>
      get_value self k scope
      = match PyDict.get vals k with
        | Some v => Ok v
        | None => Raise (UndefinedVarError k)
        end
  | Raise e => get_value self k scope = Raise e
  | OutOfFuel => False
  end.
Proof.
  unfold get_values.
  destruct (get_ordered_layers self scope) as [layers|e|] eqn:Hl.
  - rewrite (@get_value_find_value self scope k layers Hl), get_values_loop_get. simpl.
    destruct (find (holds k) layers) as [layer|]; reflexivity.
  - unfold get_value, get_var. rewrite Hl. reflexivity.
  - unfold get_ordered_layers, get_ordered_sources in Hl.
    destruct scope as [sc|]; [|discriminate].
    destruct (PyDict.get (_scopes self) sc); discriminate.
Qed.

(** X5. [get_value] raises [KeyError], carrying the scope name, exactly
    when the scope was never defined, and [UndefinedVarError], carrying
    the variable name, exactly when the scope is known and none of its
    layers holds the name; it raises nothing else. *)
Theorem get_value_errors (self : StoreManager) (k : string)
    (scope : option string) (e : exn) :
  get_value self k scope = Raise e
  <-> (exists sc,
          scope = Some sc /\ PyDict.get (_scopes self) sc = None
          /\ e = KeyError sc)
      \/ (exists layers,
            get_ordered_layers self scope = Ok layers
            /\ filter (holds k) layers = []
            /\ e = UndefinedVarError k).
Proof.
  destruct (get_ordered_layers self scope) as [layers|e'|] eqn:Hl.
  - rewrite (@get_value_find_value self scope k layers Hl). rewrite find_filter.
    split.
    + intros H. right. exists layers. split; [reflexivity|].
      destruct (filter (holds k) layers) as [|layer found] eqn:Hf.
      * simpl in H. injection H as <-. split; reflexivity.
      * simpl in H.
        destruct (PyDict.get (payload layer) k) eqn:Hg; [discriminate|].
        assert (Hin : In layer (filter (holds k) layers)).
        { rewrite Hf. left. reflexivity. }
        apply filter_In in Hin. destruct Hin as [_ Hm].
        unfold holds, PyDict.mem in Hm. rewrite Hg in Hm. discriminate.
    + intros [(sc & -> & Hsc & ->)|(layers' & Heq & Hf & ->)].
      * unfold get_ordered_layers, get_ordered_sources in Hl.
        rewrite Hsc in Hl. discriminate.
      * injection Heq as <-. rewrite Hf. reflexivity.
  - assert (Hv : get_value self k scope = Raise e').
    { unfold get_value, get_var. rewrite Hl. reflexivity. }
    rewrite Hv.
    unfold get_ordered_layers, get_ordered_sources in Hl.
    destruct scope as [sc|]; [|discriminate].
    destruct (PyDict.get (_scopes self) sc) eqn:Hsc; [discriminate|].
    injection Hl as <-. split.
    + intros H. injection H as <-. left. exists sc. auto.
    + intros [(sc' & Heq & _ & ->)|(layers' & Heq & _)];
        [injection Heq as <-; reflexivity|discriminate].
  - unfold get_ordered_layers, get_ordered_sources in Hl.
    destruct scope as [sc|]; [|discriminate].
    destruct (PyDict.get (_scopes self) sc); discriminate.
Qed.

(** ** Writing layers and sources *)

Lemma set_set (V : Type) (d : PyDict.t V) (k : string) (v1 v2 : V) :
  PyDict.set (PyDict.set d k v1) k v2 = PyDict.set d k v2.
Proof.
  induction d as [|[k' v'] d IH]; simpl.
  - rewrite String.eqb_refl. reflexivity.
  - destruct (String.eqb k' k) eqn:E; simpl; rewrite E; [reflexivity|].
    rewrite IH. reflexivity.
Qed.

Lemma layers_of_set_other (store : PyDict.t Layer) (n : string) (L : Layer)
    (l : list Source) :
  ~ In n (map name l) ->
  layers_of (PyDict.set store n L) l = layers_of store l.
Proof.
  induction l as [|s l IH]; simpl; intros Hn; [reflexivity|].
  rewrite get_set_other by (intros E; apply Hn; left; symmetry; exact E).
  rewrite IH by (intros H; apply Hn; right; exact H).
  reflexivity.
Qed.

(** X6. After [set_layer(n, dataset)] for a registered source [n], a scope
    whose first source is [n] reads every name of [dataset] from it:
    [get_value] returns the value [dataset] holds. *)
Theorem set_layer_first_source_wins (self : StoreManager) (n : string)
    (dataset kwargs : PyDict.t value) (sc : string) (src s0 : Source)
    (rest : list Source) (k : string) (v : value) :
  PyDict.get (_sources self) n = Some src ->
  PyDict.get (_scopes self) sc = Some (s0 :: rest) ->
  name s0 = n ->
  PyDict.get dataset k = Some v ->
  get_value (after (set_layer self n dataset kwargs)) k (Some sc) = Ok v.
Proof.
  intros Hsrc Hsc Hn Hk.
  unfold set_layer, after. rewrite Hsrc. simpl.
  unfold get_value, get_var, get_ordered_layers, get_ordered_sources. simpl.
  rewrite Hsc. simpl. rewrite Hn, get_set_same. simpl.
  unfold PyDict.mem. rewrite Hk. simpl. rewrite Hk. reflexivity.
Qed.

Lemma set_layer_first_source_wins_witness :
  get_value
    (after (set_layer Scenario.overrides "stack_env"
              [("test_override", VStr "again")] []))
    "test_override" (Some "scope_stack")
  = Ok (VStr "again").
Proof.
  apply (@set_layer_first_source_wins Scenario.overrides "stack_env"
           [("test_override", VStr "again")] [] "scope_stack"
           (mkSource "stack_env" (Some 300%Z) None)
           (mkSource "stack_env" (Some 300%Z) None)
           [mkSource "project_env" (Some 300%Z) None;
            mkSource "app_cli" (Some 300%Z) None]
           "test_override" (VStr "again")); reflexivity.
Defined.

(** X7. [set_layer] for a source that a scope does not list changes
    nothing of what [get_value] returns in that scope, whether the call
    succeeds or raises. *)
Theorem set_layer_outside_scope (self : StoreManager) (n : string)
    (dataset kwargs : PyDict.t value) (sc : string) (l : list Source)
    (k : string) :
  PyDict.get (_scopes self) sc = Some l ->
  ~ In n (map name l) ->
  get_value (after (set_layer self n dataset kwargs)) k (Some sc)
  = get_value self k (Some sc).
Proof.
  intros Hsc Hn. unfold set_layer, after.
  destruct (PyDict.get (_sources self) n) as [src|]; [|reflexivity].
  simpl.
  unfold get_value, get_var, get_ordered_layers, get_ordered_sources. simpl.
  rewrite Hsc. rewrite layers_of_set_other by exact Hn. reflexivity.
Qed.

Lemma set_layer_outside_scope_witness :
  get_value
    (after (set_layer Scenario.overrides "stack_env"
              [("name", VStr "other")] []))
    "name" (Some "scope_project")
  = get_value Scenario.overrides "name" (Some "scope_project").
Proof.
  apply (@set_layer_outside_scope Scenario.overrides "stack_env"
           [("name", VStr "other")] [] "scope_project"
           [mkSource "project_env" (Some 300%Z) None;
            mkSource "app_cli" (Some 300%Z) None] "name").
  - reflexivity.
  - simpl. intros [H|[H|[]]]; discriminate H.
Defined.

(** A second [set_layer] for the same source replaces the first
    one: the store is the one the second call alone would have left. *)
Theorem set_layer_replaces (self : StoreManager) (n : string)
    (d1 m1 d2 m2 : PyDict.t value) :
  after (set_layer (after (set_layer self n d1 m1)) n d2 m2)
  = after (set_layer self n d2 m2).
Proof.
  unfold set_layer, after.
  destruct (PyDict.get (_sources self) n) as [src|] eqn:Hsrc; simpl.
  - rewrite Hsrc. simpl. unfold with_layers. simpl.
    rewrite set_set. reflexivity.
  - rewrite Hsrc. reflexivity.
Qed.

Lemma keys_set (V : Type) (d : PyDict.t V) (k : string) (v : V) :
  PyDict.keys (PyDict.set d k v)
  = if PyDict.mem d k then PyDict.keys d else (PyDict.keys d ++ [k])%list.
Proof.
  unfold PyDict.mem. induction d as [|[k' v'] d IH]; simpl; [reflexivity|].
  destruct (String.eqb k' k) eqn:E; simpl; [reflexivity|].
  unfold PyDict.keys in *. rewrite IH.
  destruct (PyDict.get d k); reflexivity.
Qed.

Lemma in_set (V : Type) (d : PyDict.t V) (k k' : string) (v v' : V) :
  In (k', v') (PyDict.set d k v) -> (k' = k /\ v' = v) \/ In (k', v') d.
Proof.
  induction d as [|[k0 v0] d IH]; simpl.
  - intros [H|[]]. injection H as <- <-. left. split; reflexivity.
  - destruct (String.eqb k0 k) eqn:E; simpl.
    + apply String.eqb_eq in E. subst k0. intros [H|H].
      * injection H as <- <-. left. split; reflexivity.
      * right. right. exact H.
    + intros [H|H]; [right; left; exact H|].
      destruct (IH H) as [H'|H']; [left; exact H'|right; right; exact H'].
Qed.

Lemma sources_wf_set (d : PyDict.t Source) (s : Source) :
  sources_wf d -> sources_wf (PyDict.set d (name s) s).
Proof.
  intros [Hnd Hname]. split.
  - rewrite keys_set. destruct (PyDict.mem d (name s)) eqn:E; [exact Hnd|].
    apply NoDup_app; [exact Hnd|repeat constructor; intros []|].
    intros x Hx [Hs|[]]. subst x.
    apply mem_true_iff in Hx. rewrite Hx in E. discriminate.
  - intros k s' Hin. apply in_set in Hin.
    destruct Hin as [[-> ->]|Hin]; [reflexivity|exact (Hname _ _ Hin)].
Qed.

(** X8. [add_sources] keeps the registry of sources well formed, in both
    of its shapes and with or without [force]: each name is registered
    once, and the source stored under a name bears that name. *)
Theorem add_sources_keeps_wf (self : StoreManager) (args : sources_arg)
    (force : bool) :
  sources_wf (_sources self) ->
  sources_wf (_sources (after (add_sources self args force))).
Proof.
  intros Hwf. unfold add_sources, after. destruct args as [l|s].
  - simpl. revert Hwf. generalize (_sources self).
    induction l as [|s l IH]; intros d Hwf; simpl; [exact Hwf|].
    apply IH. apply sources_wf_set. exact Hwf.
  - destruct (PyDict.mem (_sources self) (name s) && negb force); simpl;
      [exact Hwf|apply sources_wf_set; exact Hwf].
Qed.

Lemma sources_wf_empty : sources_wf (@PyDict.empty Source).
Proof.
  split; [constructor|intros k s []].
Qed.

Lemma add_sources_keeps_wf_witness :
  sources_wf (_sources Scenario.with_three_sources).
Proof.
  apply (@add_sources_keeps_wf StoreManager_init
           (ArgList Scenario.sources) false).
  split; [constructor|intros k s []].
Defined.

Lemma values_names (d : PyDict.t Source) :
  (forall k s, In (k, s) d -> name s = k) ->
  map name (PyDict.values d) = PyDict.keys d.
Proof.
  induction d as [|[k s] d IH]; simpl; intros H; [reflexivity|].
  rewrite (H k s) by (left; reflexivity).
  rewrite IH by (intros k' s' Hin; apply H; right; exact Hin).
  reflexivity.
Qed.

(** X9. On a well-formed registry, [get_source_names] with no scope
    lists the registered names, each once. *)
Theorem get_source_names_registered (self : StoreManager) :
  sources_wf (_sources self) ->
  exists names,
    get_source_names self None = Ok names
    /\ Permutation names (PyDict.keys (_sources self))
    /\ NoDup names.
Proof.
  intros [Hnd Hname].
  exists (map name (sorted (PyDict.values (_sources self)))).
  destruct (@sorted_fold (PyDict.values (_sources self)) [])
    as (_ & Hp & _); [constructor|].
  simpl in Hp.
  assert (Hperm : Permutation
                    (map name (sorted (PyDict.values (_sources self))))
                    (PyDict.keys (_sources self))).
  { rewrite <- (values_names _ Hname). apply Permutation_map. exact Hp. }
  split; [reflexivity|]. split; [exact Hperm|].
  apply (Permutation_NoDup (Permutation_sym Hperm)). exact Hnd.
Qed.

Lemma get_source_names_registered_witness :
  exists names,
    get_source_names Scenario.with_three_sources None = Ok names
    /\ Permutation names ["app_cli"; "project_env"; "stack_env"]
    /\ NoDup names.
Proof.
  apply (@get_source_names_registered Scenario.with_three_sources).
  split.
  - simpl. repeat constructor; simpl; intuition discriminate.
  - simpl. intros k s H.
    repeat (destruct H as [H|H]; [injection H as <- <-; reflexivity|]).
    destruct H.
Defined.

Lemma find_app_first (A : Type) (f : A -> bool) (l1 l2 : list A) :
  find f (l1 ++ l2)%list
  = match find f l1 with
    | Some x => Some x
    | None => find f l2
    end.
Proof.
  induction l1 as [|x l1 IH]; simpl; [reflexivity|].
  destruct (f x); [reflexivity|exact IH].
Qed.

Lemma fold_set_get (l : list Source) (d : PyDict.t Source) (n : string) :
  PyDict.get (fold_left (fun d s => PyDict.set d (name s) s) l d) n
  = match find (fun s => String.eqb (name s) n) (rev l) with
    | Some s => Some s
    | None => PyDict.get d n
    end.
Proof.
  revert d. induction l as [|s l IH]; intros d; simpl; [reflexivity|].
  rewrite IH. rewrite find_app_first.
  destruct (find (fun s0 => String.eqb (name s0) n) (rev l)); [reflexivity|].
  simpl. destruct (String.eqb (name s) n) eqn:E.
  - apply String.eqb_eq in E. subst n. apply get_set_same.
  - apply String.eqb_neq in E. apply get_set_other. exact E.
Qed.

(** [add_sources] of a list registers every source of the list under
    its name; of two sources of the list with one name the later one
    stays, and a name the list does not mention keeps the source it had. *)
Theorem add_sources_list_last_wins (self : StoreManager) (l : list Source)
    (force : bool) (n : string) :
  outcome (add_sources self (ArgList l) force) = Ok tt
  /\ PyDict.get (_sources (after (add_sources self (ArgList l) force))) n
     = match find (fun s => String.eqb (name s) n) (rev l) with
       | Some s => Some s
       | None => PyDict.get (_sources self) n
       end.
Proof.
  split; [reflexivity|]. unfold add_sources, after. simpl.
  apply fold_set_get.
Qed.

(** ** Defining scopes *)



Lemma names_as_items_keys (d : PyDict.t (list string)) :
  PyDict.keys (names_as_items d) = PyDict.keys d.
Proof.
  unfold names_as_items, PyDict.keys. rewrite map_map. reflexivity.
Qed.



Lemma register_scopes_errors (items : list (string * list item))
    (scopes : option (PyDict.t (list string))) (sources : PyDict.t Source)
    (_out : PyDict.t (list Source)) (e : exn) :
  register_scopes items scopes sources _out = Raise e ->
  is_set_scopes_error e = true.
Proof.
  assert (Hloop : forall solve sc sp its out seen e',
            (forall a b c e'', fst (solve a b c) = Raise e'' ->
                               is_set_scopes_error e'' = true) ->
            fst (scope_solver_loop solve sc sp sources its out seen)
            = Raise e' ->
            is_set_scopes_error e' = true).
  { intros solve sc sp its. induction its as [|it its IH];
      intros out seen e' Hsolve; simpl; [discriminate|].
    destruct it as [r|s]; [|simpl; intros H; injection H as <-; reflexivity].
    destruct (PyDict.get sources r); [apply IH; exact Hsolve|].
    destruct (PyDict.get sp r) as [sub|];
      [|simpl; intros H; injection H as <-; reflexivity].
    destruct (in_seen r seen);
      [simpl; intros H; injection H as <-; reflexivity|].
    pose proof (Hsolve r (map Ref sub) (seen ++ [r])%list) as Hs.
    destruct (solve r (map Ref sub) (seen ++ [r])%list) as [[sub'|e''|] seen'];
      simpl in *.
    - apply IH. exact Hsolve.
    - intros H. injection H as <-. apply Hs. reflexivity.
    - discriminate. }
  assert (Hsolver : forall fuel sp sc its seen e',
            fst (scope_solver fuel sc its sp sources seen) = Raise e' ->
            is_set_scopes_error e' = true).
  { induction fuel as [|fuel IH]; intros sp sc its seen e'; simpl;
      [discriminate|].
    apply Hloop. intros a b c e''. apply IH. }
  revert _out. induction items as [|[sc its] items IH]; intros _out;
    cbn [register_scopes]; [discriminate|].
  destruct scopes as [sp|]; [|intros H; injection H as <-; reflexivity].
  pose proof (Hsolver (S (length sp)) sp sc its [] ) as Hs.
  destruct (scope_solver (S (length sp)) sc its sp sources [])
    as [[solved|e'|] seen]; simpl in Hs.
  - apply IH.
  - intros H. injection H as <-. apply Hs. reflexivity.
  - discriminate.
Qed.

(** X10. [set_scopes] always comes to an end, whatever the definitions,
    cyclic ones included: it returns, or raises one of the two
    [VarMgrAppError]s (recursive scope, item not found), [ValueError] (wrong
    number of arguments) or [UnboundLocalError]; the recursion of
    [scope_solver] is never deeper than the number of scopes plus one. *)
Theorem set_scopes_outcomes (self : StoreManager) (args : scopes_args) :
  match outcome (set_scopes self args) with
  | Ok _ => True
  | Raise e => is_set_scopes_error e = true
  | OutOfFuel => False
  end.
Proof.
  pose proof (set_scopes_has_fuel self args) as Hfuel.
  destruct (outcome (set_scopes self args)) as [u|e|] eqn:Hout;
    [exact I| |apply Hfuel; reflexivity].
  unfold set_scopes, outcome in Hout.
  destruct args as [scopes|name scope|n].
  - destruct (register_scopes _ (Some scopes) _ _) as [o|e'|] eqn:Hreg;
      simpl in Hout; try discriminate.
    injection Hout as <-. exact (register_scopes_errors _ _ _ _ Hreg).
  - destruct (register_scopes _ None _ _) as [o|e'|] eqn:Hreg;
      simpl in Hout; try discriminate.
    injection Hout as <-. exact (register_scopes_errors _ _ _ _ Hreg).
  - simpl in Hout. injection Hout as <-. reflexivity.
Qed.



Lemma set_fresh (V : Type) (d : PyDict.t V) (k : string) (v : V) :
  ~ In k (PyDict.keys d) -> PyDict.set d k v = (d ++ [(k, v)])%list.
Proof.
  induction d as [|[k' v'] d IH]; simpl; intros Hk; [reflexivity|].
  destruct (String.eqb k' k) eqn:E.
  - apply String.eqb_eq in E. exfalso. apply Hk. left. exact E.
  - rewrite IH by (intros H; apply Hk; right; exact H). reflexivity.
Qed.

Lemma update_fresh (V : Type) (d' d : PyDict.t V) :
  NoDup (PyDict.keys (d ++ d')%list) -> PyDict.update d d' = (d ++ d')%list.
Proof.
  unfold PyDict.update. revert d.
  induction d' as [|[k v] d' IH]; intros d Hnd; simpl.
  - rewrite app_nil_r. reflexivity.
  - assert (Hk : ~ In k (PyDict.keys d)).
    { unfold PyDict.keys in *. rewrite map_app in Hnd. simpl in Hnd.
      apply NoDup_remove_2 in Hnd. intros H. apply Hnd.
      apply in_or_app. left. exact H. }
    rewrite set_fresh by exact Hk.
    rewrite IH; rewrite <- app_assoc; [reflexivity|exact Hnd].
Qed.

Lemma scope_solver_loop_sources
    (solve : string -> list item -> list string
             -> result (list nested) * list string)
    (sc : string) (scopes : PyDict.t (list string))
    (sources : PyDict.t Source) (refs : list string) (out : list nested)
    (seen : list string) :
  (forall r, In r refs -> PyDict.mem sources r = true) ->
  scope_solver_loop solve sc scopes sources (map Ref refs) out seen
  = (Ok (out ++ map NSource (resolved sources refs))%list, seen).
Proof.
  revert out. induction refs as [|r refs IH]; intros out Hall; simpl.
  - rewrite app_nil_r. reflexivity.
  - destruct (mem_get _ _ (Hall r (or_introl eq_refl))) as [s Hs].
    rewrite Hs. rewrite IH by (intros r' H; apply Hall; right; exact H).
    simpl. rewrite <- app_assoc. reflexivity.
Qed.

Lemma flatten_sources (l : list Source) :
  flatten (NList (map NSource l)) = l.
Proof.
  simpl. induction l as [|s l IH]; simpl; [reflexivity|].
  rewrite IH. reflexivity.
Qed.

Lemma resolved_Forall2 (sources : PyDict.t Source) (refs : list string) :
  (forall r, In r refs -> PyDict.mem sources r = true) ->
  Forall2 (fun r s => PyDict.get sources r = Some s) refs
    (resolved sources refs).
Proof.
  induction refs as [|r refs IH]; intros Hall; simpl; [constructor|].
  destruct (mem_get _ _ (Hall r (or_introl eq_refl))) as [s Hs].
  rewrite Hs. simpl. constructor; [exact Hs|].
  apply IH. intros r' H. apply Hall. right. exact H.
Qed.

Lemma register_scopes_flat (scopes : PyDict.t (list string))
    (sources : PyDict.t Source) (scs : PyDict.t (list string))
    (_out : PyDict.t (list Source)) :
  (forall sc refs r, In (sc, refs) scs -> In r refs ->
                     PyDict.mem sources r = true) ->
  register_scopes (names_as_items scs) (Some scopes) sources _out
  = Ok (fold_left (fun o kv => PyDict.set o (fst kv) (resolved sources (snd kv)))
          scs _out).
Proof.
  revert _out. induction scs as [|[sc refs] scs IH]; intros _out Hall;
    [reflexivity|].
  cbn [names_as_items map fst snd register_scopes fold_left].
  cbn [scope_solver].
  rewrite scope_solver_loop_sources
    by (intros r Hr; apply (Hall sc refs r); [left; reflexivity|exact Hr]).
  cbn [app]. rewrite flatten_sources.
  apply IH. intros sc' refs' r Hin Hr. apply (Hall sc' refs' r);
    [right; exact Hin|exact Hr].
Qed.

Lemma fold_set_other (A B : Type) (f : A -> B) (scs : PyDict.t A)
    (o : PyDict.t B) (k : string) :
  ~ In k (PyDict.keys scs) ->
  PyDict.get (fold_left (fun o kv => PyDict.set o (fst kv) (f (snd kv))) scs o) k
  = PyDict.get o k.
Proof.
  revert o. induction scs as [|[k' a] scs IH]; intros o Hk; simpl;
    [reflexivity|].
  rewrite IH by (intros H; apply Hk; right; exact H).
  apply get_set_other. intros E. apply Hk. left. exact E.
Qed.

Lemma fold_set_in (A B : Type) (f : A -> B) (scs : PyDict.t A)
    (o : PyDict.t B) (k : string) (a : A) :
  NoDup (PyDict.keys scs) ->
  In (k, a) scs ->
  PyDict.get (fold_left (fun o kv => PyDict.set o (fst kv) (f (snd kv))) scs o) k
  = Some (f a).
Proof.
  revert o. induction scs as [|[k' a'] scs IH]; intros o Hnd Hin;
    [destruct Hin|].
  simpl in Hnd. inversion Hnd as [|x xs Hnot Hnd']; subst.
  destruct Hin as [H|H].
  - injection H as -> ->. simpl. rewrite fold_set_other by exact Hnot.
    apply get_set_same.
  - simpl. apply IH; assumption.
Qed.

(** X12. On a store with no scope yet, [set_scopes] with a dict whose
    scopes list registered sources only succeeds, and each scope then
    resolves to the sources registered under the names it lists, in the
    order it lists them. *)
Theorem set_scopes_flat (self : StoreManager)
    (scopes : PyDict.t (list string)) :
  _scopes self = PyDict.empty ->
  NoDup (PyDict.keys scopes) ->
  (forall sc refs r, In (sc, refs) scopes -> In r refs ->
                     PyDict.mem (_sources self) r = true) ->
  outcome (set_scopes self (Args1 scopes)) = Ok tt
  /\ forall sc refs,
       In (sc, refs) scopes ->
       exists l,
         get_ordered_sources (after (set_scopes self (Args1 scopes))) (Some sc)
         = Ok l
         /\ Forall2 (fun r s => PyDict.get (_sources self) r = Some s) refs l.
Proof.
  intros Hempty Hnd Hall.
  unfold set_scopes, outcome, after. rewrite Hempty.
  change (obj_scopes_of PyDict.empty) with (@nil (string * list item)).
  rewrite update_fresh by (simpl; rewrite names_as_items_keys; exact Hnd).
  cbn [app PyDict.items].
  rewrite (@register_scopes_flat scopes (_sources self) scopes PyDict.empty Hall).
  split; [reflexivity|].
  intros sc refs Hin. exists (resolved (_sources self) refs).
  split.
  - unfold get_ordered_sources. cbn [snd _scopes with_scopes].
    rewrite (@fold_set_in _ _ (resolved (_sources self)) scopes PyDict.empty
               sc refs Hnd Hin).
    reflexivity.
  - apply resolved_Forall2. intros r Hr. exact (Hall sc refs r Hin Hr).
Qed.

Lemma set_scopes_flat_witness :
  outcome (set_scopes Scenario.with_three_sources
             (Args1 [("front", ["stack_env"; "app_cli"]); ("none", [])]))
  = Ok tt
  /\ forall sc refs,
       In (sc, refs) [("front", ["stack_env"; "app_cli"]); ("none", [])] ->
       exists l,
         get_ordered_sources
           (after (set_scopes Scenario.with_three_sources
                     (Args1 [("front", ["stack_env"; "app_cli"]); ("none", [])])))
           (Some sc)
         = Ok l
         /\ Forall2
              (fun r s =>
                 PyDict.get (_sources Scenario.with_three_sources) r = Some s)
              refs l.
Proof.
  apply (@set_scopes_flat Scenario.with_three_sources
           [("front", ["stack_env"; "app_cli"]); ("none", [])]).
  - reflexivity.
  - simpl. repeat constructor; simpl; intuition discriminate.
  - intros sc refs r Hin Hr. simpl in Hin.
    destruct Hin as [H|[H|[]]]; injection H as <- <-; simpl in Hr.
    + destruct Hr as [<-|[<-|[]]]; reflexivity.
    + destruct Hr.
Defined.


(** ** The expander on text, references and escapes *)

Section ExpanderText.
Variable St : Type.
Variable RECOVER_NULL : option string.
Variable os_getpid : Z.
Variable p : ExpandParser.t St.
Variable self_expand self_escape : string -> M St string.
Hypothesis Hsym : ExpandParser.var_symbol p = "$".

Lemma plain_inv (c : ascii) (s : string) :
  plain (String c s) = true ->
  Ascii.eqb c "$" = false /\ Ascii.eqb c ESCAPE_CHAR = false
  /\ plain s = true.
Proof.
  simpl. intros H. apply andb_true_iff in H. destruct H as [H Hs].
  apply andb_true_iff in H. destruct H as [Hd He].
  apply negb_true_iff in Hd. apply negb_true_iff in He. auto.
Qed.

Lemma expand_loop_step (c : ascii) (rest buff : string) :
  Ascii.eqb c "$" = false ->
  Ascii.eqb c ESCAPE_CHAR = false ->
  ExpandParser.expand_loop RECOVER_NULL os_getpid p self_expand self_escape
    (String c rest) buff
  = ExpandParser.expand_loop RECOVER_NULL os_getpid p self_expand self_escape
      rest (buff ++ String c "").
Proof.
  intros Hd He. simpl ExpandParser.expand_loop at 1. unfold char_is.
  rewrite Hsym.
  change (String.eqb (String c "") "$") with (Ascii.eqb c "$" && true).
  rewrite Hd, He. reflexivity.
Qed.

(** The loop of [expand] copies text that has no marker. *)
Lemma expand_loop_copy (s buff : string) :
  plain s = true ->
  ExpandParser.expand_loop RECOVER_NULL os_getpid p self_expand self_escape
    s buff
  = ret (buff ++ s).
Proof.
  revert buff. induction s as [|c s IH]; intros buff Hs.
  - rewrite str_app_nil_r. reflexivity.
  - destruct (plain_inv c s Hs) as (Hd & He & Hs').
    rewrite expand_loop_step by assumption.
    rewrite IH by exact Hs'. rewrite str_app_assoc. reflexivity.
Qed.

(** The loop of [expand] copies plain text up to the first backslash. *)
Lemma expand_loop_escape (pre rest buff : string) :
  plain pre = true ->
  ExpandParser.expand_loop RECOVER_NULL os_getpid p self_expand self_escape
    (pre ++ String ESCAPE_CHAR rest) buff
  = (r <- self_escape rest ;; ret ((buff ++ pre) ++ r)).
Proof.
  revert buff. induction pre as [|c pre IH]; intros buff Hpre.
  - rewrite str_app_nil_r. simpl. unfold char_is. rewrite Hsym. reflexivity.
  - destruct (plain_inv c pre Hpre) as (Hd & He & Hpre').
    change (String c pre ++ String ESCAPE_CHAR rest)
      with (String c (pre ++ String ESCAPE_CHAR rest)).
    rewrite expand_loop_step by assumption.
    rewrite IH by exact Hpre'. rewrite str_app_assoc. reflexivity.
Qed.

(** The last loop of [expand_var] reads a name that runs to the end. *)
Lemma expand_var_loop_end (vars_ k buff : string) :
  all_valid k = true ->
  ExpandParser.expand_var_loop RECOVER_NULL p self_expand vars_ k buff
  = ExpandParser.getenv RECOVER_NULL p (buff ++ k) false None.
Proof.
  revert buff. induction k as [|c k IH]; intros buff Hk.
  - rewrite str_app_nil_r. reflexivity.
  - simpl in Hk. apply andb_true_iff in Hk. destruct Hk as [Hc Hk].
    simpl. rewrite Hc. rewrite IH by exact Hk.
    rewrite str_app_assoc. reflexivity.
Qed.

Lemma valid_char_not (c : ascii) :
  _valid_char c = true ->
  Ascii.eqb c ESCAPE_CHAR = false /\ Ascii.eqb c "$" = false
  /\ Ascii.eqb c "{" = false /\ Ascii.eqb c "}" = false
  /\ Ascii.eqb c ":" = false /\ Ascii.eqb c "!" = false.
Proof.
  intros Hc.
  repeat split;
    match goal with
    | |- Ascii.eqb c ?x = false =>
        destruct (Ascii.eqb c x) eqn:E; [|reflexivity];
        apply Ascii.eqb_eq in E; subst c; discriminate Hc
    end.
Qed.

(** [expand_var] on what does not begin with a backslash, a dollar or a
    brace goes to its last loop. *)
Lemma expand_var_other (c : ascii) (r : string) :
  Ascii.eqb c ESCAPE_CHAR = false ->
  Ascii.eqb c "$" = false ->
  Ascii.eqb c "{" = false ->
  ExpandParser.expand_var RECOVER_NULL os_getpid p self_expand self_escape
    (String c r)
  = ExpandParser.expand_var_loop RECOVER_NULL p self_expand (String c r)
      (String c r) "".
Proof.
  intros He Hd Hb. unfold ExpandParser.expand_var. rewrite He.
  unfold char_is. rewrite Hsym.
  change (String.eqb (String c "") "$") with (Ascii.eqb c "$" && true).
  rewrite Hd, Hb. reflexivity.
Qed.


Lemma _expand_modifier_var_not_indirect (c : ascii) (r : string) :
  Ascii.eqb c "!" = false ->
  Nat.leb (String.length (String c r)) 1 = false ->
  ExpandParser._expand_modifier_var RECOVER_NULL p self_expand (String c r)
  = ExpandParser._expand_modifier_var_loop RECOVER_NULL p self_expand false
      (String c r) "".
Proof.
  intros Hbang Hlen. unfold ExpandParser._expand_modifier_var.
  rewrite Hlen.
  destruct c as [b0 b1 b2 b3 b4 b5 b6 b7].
  destruct b0, b1, b2, b3, b4, b5, b6, b7;
    try reflexivity; discriminate Hbang.
Qed.
End ExpanderText.

Section ExpanderGeneral.
Variable St : Type.
Variable RECOVER_NULL : option string.
Variable os_getpid : Z.
Variable p : ExpandParser.t St.
Hypothesis Hsym : ExpandParser.var_symbol p = "$".

Lemma escape_S (fuel : nat) (vars_ : string) :
  ExpandParser.escape RECOVER_NULL os_getpid p (S fuel) vars_
  = ExpandParser.escape_ p
      (ExpandParser.expand RECOVER_NULL os_getpid p fuel)
      (ExpandParser.escape RECOVER_NULL os_getpid p fuel) vars_.
Proof. reflexivity. Qed.

(** Text without a marker expands to itself and reads nothing. *)
Lemma expand_plain (fuel : nat) (s : string) (st : St) :
  plain s = true ->
  ExpandParser.expand RECOVER_NULL os_getpid p (S fuel) s st = (Ok s, st).
Proof.
  intros Hs. rewrite expand_S. unfold ExpandParser.expand_.
  destruct s as [|c s]; [reflexivity|].
  change (String.eqb (String c s) "") with false. cbv iota.
  unfold try_except. rewrite expand_loop_copy by assumption.
  reflexivity.
Qed.

(** The three parse errors leave [expand] with the string it was given. *)
Lemma expand_raises_whole (fuel : nat) (vars_ : string) (st st' : St)
    (e : exn) :
  ExpandParser.expand RECOVER_NULL os_getpid p fuel vars_ st = (Raise e, st') ->
  match e with
  | MissingClosingBrace s | MissingExcapedChar s | BadSubstitution s =>
      s = vars_
  | _ => True
  end.
Proof.
  destruct fuel as [|fuel]; [discriminate|].
  rewrite expand_S. unfold ExpandParser.expand_.
  destruct (String.eqb vars_ ""); [discriminate|].
  unfold try_except.
  destruct (ExpandParser.expand_loop RECOVER_NULL os_getpid p
              (ExpandParser.expand RECOVER_NULL os_getpid p fuel)
              (ExpandParser.escape RECOVER_NULL os_getpid p fuel) vars_ "" st)
    as [[r|e0|] st0]; try discriminate.
  destruct e0; simpl; intros H; injection H as <- _; try exact I;
    reflexivity.
Qed.
End ExpanderGeneral.

Lemma app_not_empty (pre : string) (c : ascii) (rest : string) :
  String.eqb (pre ++ String c rest) "" = false.
Proof. destruct pre; reflexivity. Qed.

Lemma valid_name_cons (k : string) :
  valid_name k = true ->
  exists c t, k = String c t /\ _valid_char c = true /\ all_valid t = true.
Proof.
  unfold valid_name. destruct k as [|c t]; simpl; [discriminate|].
  intros H. apply andb_true_iff in H. destruct H as [Hc Ht].
  exists c, t. split; [reflexivity|]. split; assumption.
Qed.

Section ExpanderDict.
Variable RECOVER_NULL : option string.
Variable os_getpid : Z.
Variable nounset : bool.
Variable feat_pid : feat_pid_t.

Lemma expand_dict (fuel : nat) (vars_ : string) (env : PyDict.t value) :
  expand RECOVER_NULL os_getpid fuel vars_ nounset env "$" feat_pid
  = ExpandParser.expand RECOVER_NULL os_getpid (dict_parser nounset feat_pid)
      fuel vars_ env.
Proof. reflexivity. Qed.

Lemma getenv_dict_set (k : string) (default : option string)
    (env : PyDict.t value) (v : value) :
  PyDict.get env k = Some v ->
  truthy v = true ->
  ExpandParser.getenv RECOVER_NULL (dict_parser nounset feat_pid) k false
    default env
  = (Ok v, env).
Proof.
  intros Hk Hv. unfold ExpandParser.getenv, bind. simpl. rewrite Hk.
  destruct v; simpl in *; try discriminate; rewrite Hv; reflexivity.
Qed.

Lemma getenv_dict_unset (k : string) (default : option string)
    (env : PyDict.t value) :
  unset env k = true ->
  ExpandParser.getenv RECOVER_NULL (dict_parser nounset feat_pid) k false
    default env
  = match default with
    | Some d => (Ok (VStr d), env)
    | None =>
        if nounset
        then match RECOVER_NULL with
             | Some r => (Ok (VStr r), env)
             | None => (Raise (UnboundVariable k), env)
             end
        else (Ok (VStr ""), env)
    end.
Proof.
  unfold unset. intros Hk. unfold ExpandParser.getenv, bind. simpl.
  destruct (PyDict.get env k) as [v|].
  - apply negb_true_iff in Hk.
    destruct v; simpl in *; try rewrite Hk;
      destruct default; try reflexivity;
      destruct nounset; try reflexivity;
      destruct RECOVER_NULL; reflexivity.
  - simpl. destruct default; try reflexivity.
    destruct nounset; try reflexivity.
    destruct RECOVER_NULL; reflexivity.
Qed.


(** X15. A reference [${k}] to a variable that is set expands to its
    value as [str] gives it, copied as it is (a dollar in the value is not
    expanded again), between the text before the reference and the
    expansion of what follows it. *)
Theorem expand_reference_set (fuel : nat) (pre k suf : string)
    (env env' : PyDict.t value) (v : value) (r : string) :
  plain pre = true ->
  valid_name k = true ->
  PyDict.get env k = Some v ->
  truthy v = true ->
  expand RECOVER_NULL os_getpid fuel suf nounset env "$" feat_pid
  = (Ok r, env') ->
  expand RECOVER_NULL os_getpid (S fuel) (reference_to k pre suf) nounset env
    "$" feat_pid
  = (Ok (pre ++ py_str v ++ r), env').
Proof.
  intros Hpre Hk Hget Hv Hsuf. rewrite expand_dict in *.
  rewrite expand_reference by (reflexivity || assumption).
  unfold try_except, bind.
  rewrite (getenv_dict_set k None env Hget Hv). rewrite Hsuf. reflexivity.
Qed.

(** X16. A reference [${k}] to a variable that is not set (absent, or
    empty, zero, false or None) expands to the empty string; under
    [nounset] it raises [UnboundVariable] carrying the name, before
    anything after the reference is looked at, unless [RECOVER_NULL] is
    set, whose value then stands for the variable. *)
Theorem expand_reference_unset (fuel : nat) (pre k suf : string)
    (env env' : PyDict.t value) (r : string) :
  plain pre = true ->
  valid_name k = true ->
  unset env k = true ->
  expand RECOVER_NULL os_getpid fuel suf nounset env "$" feat_pid
  = (Ok r, env') ->
  expand RECOVER_NULL os_getpid (S fuel) (reference_to k pre suf) nounset env
    "$" feat_pid
  = if nounset
    then match RECOVER_NULL with
         | Some null => (Ok (pre ++ null ++ r), env')
         | None => (Raise (UnboundVariable k), env)
         end
    else (Ok (pre ++ r), env').
Proof.
  intros Hpre Hk Hunset Hsuf. rewrite expand_dict in *.
  rewrite expand_reference by (reflexivity || assumption).
  unfold try_except, bind.
  rewrite (getenv_dict_unset k None env Hunset).
  destruct nounset; [destruct RECOVER_NULL|]; try rewrite Hsuf;
    reflexivity.
Qed.

(** X17. A reference without braces that ends the template, [$k], hands
    back the value itself and not its [str]: a value that is a string is
    appended, any other value that is set (a non-zero integer, [True])
    raises [TypeError], where [${k}] would give its [str]. *)
Theorem expand_name_at_end (fuel : nat) (pre k : string)
    (env : PyDict.t value) (v : value) :
  plain pre = true ->
  valid_name k = true ->
  PyDict.get env k = Some v ->
  truthy v = true ->
  expand RECOVER_NULL os_getpid (S fuel) (pre ++ "$" ++ k) nounset env "$"
    feat_pid
  = (match v with
     | VStr s => Ok (pre ++ s)
     | _ => Raise TypeError
     end, env).
Proof.
  intros Hpre Hk Hget Hv. rewrite expand_dict.
  destruct (valid_name_cons k Hk) as (c & t & -> & Hc & Ht).
  destruct (valid_char_not c Hc) as (He & Hd & Hb & _).
  rewrite expand_S. unfold ExpandParser.expand_.
  change (pre ++ "$" ++ String c t) with (pre ++ String "$" (String c t)).
  rewrite app_not_empty. unfold try_except.
  rewrite expand_loop_plain by (reflexivity || assumption).
  rewrite expand_var_other by (reflexivity || assumption).
  rewrite expand_var_loop_end by (simpl; rewrite Hc, Ht; reflexivity).
  unfold bind.
  change ("" ++ String c t) with (String c t).
  rewrite (getenv_dict_set (String c t) None env Hget Hv).
  destruct v; reflexivity.
Qed.

(** X18. Of the parse errors [MissingClosingBrace], [MissingExcapedChar]
    and [BadSubstitution], the one that leaves [expand] carries the whole
    string [expand] was given, not the part in which it was found. *)
Theorem parse_errors_carry_whole_template (fuel : nat) (vars_ sym : string)
    (env : PyDict.t value) (e : exn) :
  outcome (expand RECOVER_NULL os_getpid fuel vars_ nounset env sym feat_pid)
  = Raise e ->
  match e with
  | MissingClosingBrace s | MissingExcapedChar s | BadSubstitution s =>
      s = vars_
  | _ => True
  end.
Proof.
  unfold outcome, expand. intros H.
  destruct (ExpandParser.expand RECOVER_NULL os_getpid
              (ExpandParser.mk nounset dict_environ sym feat_pid)
              fuel vars_ env) as [res env'] eqn:Hx.
  simpl in H. subst res.
  exact (expand_raises_whole _ _ _ _ _ _ Hx).
Qed.


(** A backslash that ends the template raises [MissingExcapedChar]
    carrying the whole template. *)
Theorem expand_trailing_backslash (fuel : nat) (pre : string)
    (env : PyDict.t value) :
  plain pre = true ->
  expand RECOVER_NULL os_getpid (S (S fuel)) (pre ++ String ESCAPE_CHAR "")
    nounset env "$" feat_pid
  = (Raise (MissingExcapedChar (pre ++ String ESCAPE_CHAR "")), env).
Proof.
  intros Hpre. rewrite expand_dict.
  rewrite expand_S. unfold ExpandParser.expand_.
  rewrite app_not_empty. unfold try_except.
  rewrite expand_loop_escape by (reflexivity || assumption).
  rewrite escape_S. reflexivity.
Qed.

(** X20. A backslash before a dollar gives a dollar: the backslash is
    dropped, the dollar starts no reference, and what follows it is
    expanded. *)
Theorem expand_escaped_dollar (fuel : nat) (pre rest : string)
    (env env' : PyDict.t value) (r : string) :
  plain pre = true ->
  expand RECOVER_NULL os_getpid fuel rest nounset env "$" feat_pid
  = (Ok r, env') ->
  expand RECOVER_NULL os_getpid (S (S fuel))
    (pre ++ String ESCAPE_CHAR (String "$" rest)) nounset env "$" feat_pid
  = (Ok (pre ++ String "$" r), env').
Proof.
  intros Hpre Hrest. rewrite expand_dict in *.
  rewrite expand_S. unfold ExpandParser.expand_.
  rewrite app_not_empty. unfold try_except.
  rewrite expand_loop_escape by (reflexivity || assumption).
  rewrite escape_S. unfold bind.
  destruct rest as [|c rest].
  - destruct fuel as [|fuel]; [discriminate Hrest|].
    cbn in Hrest. injection Hrest as <- <-. reflexivity.
  - unfold ExpandParser.escape_, bind.
    change (char_is "$" (ExpandParser.var_symbol (dict_parser nounset feat_pid)))
      with true. cbv iota beta.
    rewrite Hrest. reflexivity.
Qed.

(** X21. A backslash before any other character stays in the output
    with that character, and what follows is expanded; but before the last
    character of the template the backslash is dropped. *)
Theorem expand_backslash_kept (fuel : nat) (pre : string) (c d : ascii)
    (rest : string) (env env' : PyDict.t value) (r : string) :
  plain pre = true ->
  Ascii.eqb c "$" = false ->
  Ascii.eqb c ESCAPE_CHAR = false ->
  expand RECOVER_NULL os_getpid fuel (String d rest) nounset env "$" feat_pid
  = (Ok r, env') ->
  expand RECOVER_NULL os_getpid (S (S fuel))
    (pre ++ String ESCAPE_CHAR (String c (String d rest))) nounset env "$"
    feat_pid
  = (Ok (pre ++ String ESCAPE_CHAR (String c r)), env')
  /\ expand RECOVER_NULL os_getpid (S (S fuel))
       (pre ++ String ESCAPE_CHAR (String c "")) nounset env "$" feat_pid
     = (Ok (pre ++ String c ""), env).
Proof.
  intros Hpre Hd He Hrest. rewrite !expand_dict in *.
  rewrite !expand_S. unfold ExpandParser.expand_.
  rewrite !app_not_empty. unfold try_except.
  rewrite !expand_loop_escape by (reflexivity || assumption).
  rewrite !escape_S. unfold bind, ExpandParser.escape_, bind.
  split; [|reflexivity].
  unfold char_is.
  change (ExpandParser.var_symbol (dict_parser nounset feat_pid)) with "$".
  change (String.eqb (String c "") "$") with (Ascii.eqb c "$" && true).
  rewrite Hd, He. cbn [andb]. cbv iota beta.
  rewrite Hrest. reflexivity.
Qed.

End ExpanderDict.


Lemma expand_reference_set_witness :
  expand None 7%Z 3 "cd ${HOME}/${n}" false
    [("HOME", VStr "/h$x"); ("n", VInt 3)] "$" PidTrue
  = (Ok "cd /h$x/3", [("HOME", VStr "/h$x"); ("n", VInt 3)]).
Proof.
  exact (@expand_reference_set None 7%Z false PidTrue 2 "cd " "HOME" "/${n}"
           [("HOME", VStr "/h$x"); ("n", VInt 3)]
           [("HOME", VStr "/h$x"); ("n", VInt 3)]
           (VStr "/h$x") "/3" eq_refl eq_refl eq_refl eq_refl eq_refl).
Defined.

Lemma expand_reference_unset_witness :
  expand None 7%Z 2 "id=${user}." true [("user", VStr "")] "$" PidTrue
  = (Raise (UnboundVariable "user"), [("user", VStr "")])
  /\ expand None 7%Z 2 "id=${user}." false [("user", VStr "")] "$" PidTrue
     = (Ok "id=.", [("user", VStr "")]).
Proof.
  split.
  - exact (@expand_reference_unset None 7%Z true PidTrue 1 "id=" "user" "."
             [("user", VStr "")] [("user", VStr "")] "."
             eq_refl eq_refl eq_refl eq_refl).
  - exact (@expand_reference_unset None 7%Z false PidTrue 1 "id=" "user" "."
             [("user", VStr "")] [("user", VStr "")] "."
             eq_refl eq_refl eq_refl eq_refl).
Defined.

Lemma expand_name_at_end_witness :
  expand None 7%Z 1 "host:$port" false [("port", VInt 8080)] "$" PidTrue
  = (Raise TypeError, [("port", VInt 8080)]).
Proof.
  exact (@expand_name_at_end None 7%Z false PidTrue 0 "host:" "port"
           [("port", VInt 8080)] (VInt 8080) eq_refl eq_refl eq_refl eq_refl).
Defined.

Lemma parse_errors_carry_whole_template_witness :
  outcome (expand None 7%Z 3 "a${b}${c" false [] "$" PidTrue)
  = Raise (BadSubstitution "a${b}${c")
  /\ "a${b}${c" = "a${b}${c".
Proof.
  split; [reflexivity|].
  exact (@parse_errors_carry_whole_template None 7%Z false PidTrue 3
           "a${b}${c" "$" [] (BadSubstitution "a${b}${c") eq_refl).
Defined.


Lemma expand_trailing_backslash_witness :
  expand None 7%Z 2 "abc\" false [] "$" PidTrue
  = (Raise (MissingExcapedChar "abc\"), []).
Proof.
  exact (@expand_trailing_backslash None 7%Z false PidTrue 0 "abc" []
           eq_refl).
Defined.

Lemma expand_escaped_dollar_witness :
  expand None 7%Z 4 "cost: \$5 ${u}" false [("u", VStr "usd")] "$" PidTrue
  = (Ok "cost: $5 usd", [("u", VStr "usd")]).
Proof.
  exact (@expand_escaped_dollar None 7%Z false PidTrue 2 "cost: " "5 ${u}"
           [("u", VStr "usd")] [("u", VStr "usd")] "5 usd" eq_refl eq_refl).
Defined.

Lemma expand_backslash_kept_witness :
  expand None 7%Z 3 "a\nb" false [] "$" PidTrue = (Ok "a\nb", [])
  /\ expand None 7%Z 3 "a\n" false [] "$" PidTrue = (Ok "an", []).
Proof.
  exact (@expand_backslash_kept None 7%Z false PidTrue 1 "a" "n" "b" ""
           [] [] "b" eq_refl eq_refl eq_refl eq_refl).
Defined.

(** ** The expander on references with a modifier *)

Lemma scan_modifier_simple (m suf acc : string) :
  braceless m = true ->
  ExpandParser.scan_modifier (m ++ String "}" suf) acc 1 = (acc ++ m, 0).
Proof.
  revert acc. induction m as [|c m IH]; intros acc Hm.
  - rewrite str_app_nil_r. reflexivity.
  - simpl in Hm. apply andb_true_iff in Hm. destruct Hm as [Hc Hm].
    apply andb_true_iff in Hc. destruct Hc as [Ho Hcl].
    apply negb_true_iff in Ho, Hcl.
    simpl. rewrite Ho, Hcl. rewrite IH by exact Hm.
    rewrite str_app_assoc. reflexivity.
Qed.

Lemma str_drop_modifier (m suf : string) :
  str_drop (String.length m + 1) (m ++ String "}" suf) = suf.
Proof.
  induction m as [|c m IH]; [reflexivity|exact IH].
Qed.

Lemma operator_not (op : ascii) :
  is_operator op = true ->
  _valid_char op = false /\ Ascii.eqb op "}" = false
  /\ Ascii.eqb op ":" = false /\ Ascii.eqb op "{" = false
  /\ Ascii.eqb op "$" = false /\ Ascii.eqb op ESCAPE_CHAR = false.
Proof.
  unfold is_operator. intros H.
  repeat (apply orb_true_iff in H; destruct H as [H|H]);
    apply Ascii.eqb_eq in H; subst op; repeat split; reflexivity.
Qed.

Lemma simple_operator (op : ascii) (arg : string) :
  is_operator op = true ->
  simple arg = true ->
  plain (String op arg) = true /\ braceless (String op arg) = true.
Proof.
  intros Hop Harg. destruct (operator_not op Hop) as (_ & Hc & _ & Ho & Hd & He).
  unfold simple in Harg. apply andb_true_iff in Harg.
  destruct Harg as [Hp Hb]. simpl. rewrite Hc, Ho, Hd, He, Hp, Hb.
  split; reflexivity.
Qed.

Section ExpanderModifier.
Variable St : Type.
Variable RECOVER_NULL : option string.
Variable os_getpid : Z.
Variable p : ExpandParser.t St.
Hypothesis Hsym : ExpandParser.var_symbol p = "$".

Lemma _expand_advanced_simple (fuel : nat) (k : string) (op : ascii)
    (arg suf : string) (indirect : bool) (st : St) :
  plain (String op arg) = true ->
  braceless (String op arg) = true ->
  ExpandParser._expand_advanced RECOVER_NULL p
    (ExpandParser.expand RECOVER_NULL os_getpid p (S fuel)) k
    (String op arg ++ String "}" suf) indirect st
  = dispatch RECOVER_NULL p (ExpandParser.expand RECOVER_NULL os_getpid p (S fuel)) k op arg
      suf indirect st.
Proof.
  intros Hp Hb. unfold ExpandParser._expand_advanced.
  change (String.eqb (String op arg ++ String "}" suf) "") with false.
  cbv iota.
  rewrite (scan_modifier_simple (String op arg) suf "" Hb).
  change ("" ++ String op arg) with (String op arg).
  cbv iota beta. change (negb (Nat.eqb 0 0)) with false. cbv iota.
  rewrite str_drop_modifier.
  unfold bind at 1. rewrite expand_plain by assumption.
  reflexivity.
Qed.

Lemma _expand_modifier_var_loop_advanced (E : string -> M St string)
    (k buff : string) (c : ascii) (rest' : string) (indirect : bool) :
  all_valid k = true ->
  _valid_char c = false ->
  Ascii.eqb c "}" = false ->
  ExpandParser._expand_modifier_var_loop RECOVER_NULL p E indirect
    (k ++ String c rest') buff
  = ExpandParser._expand_advanced RECOVER_NULL p E (buff ++ k)
      (if Ascii.eqb c ":" then rest' else String c rest') indirect.
Proof.
  revert buff. induction k as [|x k IH]; intros buff Hk Hc Hcl.
  - rewrite str_app_nil_r. simpl. rewrite Hc, Hcl. reflexivity.
  - simpl in Hk. apply andb_true_iff in Hk. destruct Hk as [Hx Hk].
    change (String x k ++ String c rest') with (String x (k ++ String c rest')).
    simpl ExpandParser._expand_modifier_var_loop. rewrite Hx.
    rewrite IH by assumption. rewrite str_app_assoc. reflexivity.
Qed.

Lemma _expand_modifier_var_operator (E : string -> M St string) (k : string)
    (colon : bool) (op : ascii) (tail : string) :
  valid_name k = true ->
  is_operator op = true ->
  ExpandParser._expand_modifier_var RECOVER_NULL p E
    (k ++ (if colon then ":" else "") ++ String op tail)
  = ExpandParser._expand_advanced RECOVER_NULL p E k (String op tail) false.
Proof.
  intros Hk Hop.
  destruct (valid_name_cons k Hk) as (c & t & -> & Hc & Ht).
  destruct (valid_char_not c Hc) as (_ & _ & _ & _ & _ & Hbang).
  destruct (operator_not op Hop) as (Hv & Hcl & Hcolon & _).
  change (String c t ++ (if colon then ":" else "") ++ String op tail)
    with (String c (t ++ (if colon then ":" else "") ++ String op tail)).
  rewrite _expand_modifier_var_not_indirect;
    [|exact Hbang|destruct t, colon; reflexivity].
  change (String c (t ++ (if colon then ":" else "") ++ String op tail))
    with (String c t ++ (if colon then ":" else "") ++ String op tail).
  assert (Hall : all_valid (String c t) = true)
    by (simpl; rewrite Hc, Ht; reflexivity).
  destruct colon.
  - change (":" ++ String op tail) with (String ":" (String op tail)).
    rewrite _expand_modifier_var_loop_advanced by (assumption || reflexivity).
    reflexivity.
  - change ("" ++ String op tail) with (String op tail).
    rewrite _expand_modifier_var_loop_advanced by assumption.
    rewrite Hcolon. reflexivity.
Qed.

(** The expansion of a template whose first marker is a reference with an
    operator and a modifier of plain text. *)
Lemma expand_modified (fuel : nat) (colon : bool) (op : ascii)
    (k arg pre suf : string) (st : St) :
  plain pre = true ->
  valid_name k = true ->
  is_operator op = true ->
  simple arg = true ->
  ExpandParser.expand RECOVER_NULL os_getpid p (S (S fuel))
    (modified_reference colon op k arg pre suf) st
  = try_except
      (r <- dispatch RECOVER_NULL p (ExpandParser.expand RECOVER_NULL os_getpid p (S fuel))
              k op arg suf false ;;
       ret (pre ++ r))
      (ExpandParser.reraise_with St (modified_reference colon op k arg pre suf))
      st.
Proof.
  intros Hpre Hk Hop Harg.
  destruct (simple_operator op arg Hop Harg) as [Hp Hb].
  rewrite expand_S. unfold ExpandParser.expand_.
  unfold modified_reference at 1 2.
  change (pre ++ "${" ++ k ++ (if colon then ":" else "")
              ++ String op arg ++ "}" ++ suf)
    with (pre ++ String "$" (String "{"
            (k ++ (if colon then ":" else "")
               ++ String op (arg ++ String "}" suf)))).
  rewrite app_not_empty. unfold try_except.
  rewrite expand_loop_plain by assumption.
  rewrite expand_var_brace by assumption.
  rewrite _expand_modifier_var_operator by assumption.
  unfold bind at 1 2.
  change (String op (arg ++ String "}" suf))
    with (String op arg ++ String "}" suf).
  rewrite _expand_advanced_simple by assumption.
  unfold bind at 1.
  destruct (dispatch RECOVER_NULL p (ExpandParser.expand RECOVER_NULL os_getpid p (S fuel))
              k op arg suf false st) as [[r|e|] st1]; reflexivity.
Qed.
End ExpanderModifier.

Section ModifierDict.
Variable RECOVER_NULL : option string.
Variable os_getpid : Z.
Variable nounset : bool.
Variable feat_pid : feat_pid_t.

Lemma getenv_dict_default (k d : string) (env : PyDict.t value) :
  ExpandParser.getenv RECOVER_NULL (dict_parser nounset feat_pid) k false
    (Some d) env
  = (Ok (value_or env k d), env).
Proof.
  unfold value_or.
  destruct (PyDict.get env k) as [v|] eqn:Hget.
  - destruct (truthy v) eqn:Hv.
    + apply getenv_dict_set; assumption.
    + rewrite getenv_dict_unset; [reflexivity|].
      unfold unset. rewrite Hget, Hv. reflexivity.
  - rewrite getenv_dict_unset; [reflexivity|].
    unfold unset. rewrite Hget. reflexivity.
Qed.

Lemma unset_get (env : PyDict.t value) (k : string) :
  unset env k = true ->
  truthy (match PyDict.get env k with Some v => v | None => VNone end) = false
  /\ truthy (match PyDict.get env k with Some v => v | None => VStr "" end)
     = false.
Proof.
  unfold unset. destruct (PyDict.get env k) as [v|].
  - intros H. apply negb_true_iff in H. split; exact H.
  - split; reflexivity.
Qed.

(** X22. [${k:-d}] and [${k-d}] alike give the value of [k] when it is
    set and the text [d] when it is not, under [nounset] too, and leave
    the dict as it is; a value that is set and is not a string raises
    [TypeError]. *)
Theorem expand_default_value (fuel : nat) (colon : bool)
    (k d pre suf : string) (env env' : PyDict.t value) (r : string) :
  plain pre = true ->
  valid_name k = true ->
  simple d = true ->
  expand RECOVER_NULL os_getpid (S fuel) suf nounset env "$" feat_pid
  = (Ok r, env') ->
  expand RECOVER_NULL os_getpid (S (S fuel))
    (modified_reference colon "-" k d pre suf) nounset env "$" feat_pid
  = (match value_or env k d with
     | VStr s => Ok (pre ++ s ++ r)
     | _ => Raise TypeError
     end, env').
Proof.
  intros Hpre Hk Hd Hsuf. rewrite expand_dict in *.
  rewrite expand_modified by (reflexivity || assumption).
  unfold try_except, bind, dispatch. cbn [Ascii.eqb Bool.eqb andb].
  unfold ExpandParser._expand_default, bind, ret.
  rewrite getenv_dict_default. rewrite Hsuf.
  destruct (value_or env k d); reflexivity.
Qed.

(** X23. [${k:=d}] on a variable that is not set writes [d] under [k]
    into the dict and gives [d]; what follows the reference is expanded
    with the dict so changed. *)
Theorem expand_assign_default (fuel : nat) (colon : bool)
    (k d pre suf : string) (env env' : PyDict.t value) (r : string) :
  plain pre = true ->
  valid_name k = true ->
  simple d = true ->
  unset env k = true ->
  expand RECOVER_NULL os_getpid (S fuel) suf nounset
    (PyDict.set env k (VStr d)) "$" feat_pid
  = (Ok r, env') ->
  expand RECOVER_NULL os_getpid (S (S fuel))
    (modified_reference colon "=" k d pre suf) nounset env "$" feat_pid
  = (Ok (pre ++ d ++ r), env').
Proof.
  intros Hpre Hk Hd Hunset Hsuf. rewrite expand_dict in *.
  rewrite expand_modified by (reflexivity || assumption).
  unfold try_except, bind, dispatch. cbn [Ascii.eqb Bool.eqb andb].
  unfold ExpandParser._expand_default, bind, ret.
  cbn [ExpandParser.get ExpandParser.update ExpandParser.environ dict_parser
       dict_environ].
  destruct (unset_get env k Hunset) as [Hfalse _]. rewrite Hfalse.
  cbn [negb]. rewrite getenv_dict_default.
  unfold value_or. rewrite get_set_same. rewrite Hsuf.
  destruct (truthy (VStr d)); reflexivity.
Qed.

(** X24. [${k:+d}] gives the text [d] when [k] is set and nothing when
    it is not; the value of [k] itself never shows. *)
Theorem expand_substitute (fuel : nat) (colon : bool)
    (k d pre suf : string) (env env' : PyDict.t value) (r : string) :
  plain pre = true ->
  valid_name k = true ->
  simple d = true ->
  expand RECOVER_NULL os_getpid (S fuel) suf nounset env "$" feat_pid
  = (Ok r, env') ->
  expand RECOVER_NULL os_getpid (S (S fuel))
    (modified_reference colon "+" k d pre suf) nounset env "$" feat_pid
  = (Ok (pre ++ (if unset env k then "" else d) ++ r), env').
Proof.
  intros Hpre Hk Hd Hsuf. rewrite expand_dict in *.
  rewrite expand_modified by (reflexivity || assumption).
  unfold try_except, bind, dispatch. cbn [Ascii.eqb Bool.eqb andb].
  unfold ExpandParser._expand_substitute, bind, ret.
  cbn [ExpandParser.get ExpandParser.environ dict_parser dict_environ].
  rewrite Hsuf. unfold unset.
  destruct (PyDict.get env k) as [v|]; [destruct (truthy v)|]; reflexivity.
Qed.

(** X25. [${k:?msg}] on a variable that is not set raises
    [ParameterNullOrNotSet] carrying the name and the message (no message
    when [msg] is empty), whether [nounset] is on or not and before
    anything after the reference is expanded; with [RECOVER_NULL] set, its
    value stands for the variable. *)
Theorem expand_strict (fuel : nat) (colon : bool)
    (k msg pre suf : string) (env env' : PyDict.t value) (r : string) :
  plain pre = true ->
  valid_name k = true ->
  simple msg = true ->
  unset env k = true ->
  expand RECOVER_NULL os_getpid (S fuel) suf nounset env "$" feat_pid
  = (Ok r, env') ->
  expand RECOVER_NULL os_getpid (S (S fuel))
    (modified_reference colon "?" k msg pre suf) nounset env "$" feat_pid
  = match RECOVER_NULL with
    | Some null => (Ok (pre ++ null ++ r), env')
    | None =>
        (Raise (ParameterNullOrNotSet k
                  (if String.eqb msg "" then None else Some msg)), env)
    end.
Proof.
  intros Hpre Hk Hd Hunset Hsuf. rewrite expand_dict in *.
  rewrite expand_modified by (reflexivity || assumption).
  unfold try_except, bind, dispatch. cbn [Ascii.eqb Bool.eqb andb].
  unfold ExpandParser._expand_strict, bind, ret.
  cbn [ExpandParser.get_default ExpandParser.environ dict_parser dict_environ].
  destruct (unset_get env k Hunset) as [_ Hfalse]. rewrite Hfalse.
  destruct RECOVER_NULL as [null|]; [rewrite Hsuf|]; reflexivity.
Qed.
End ModifierDict.

Lemma expand_default_value_witness :
  expand None 7%Z 3 "${EDITOR:-vi} ${PAGER-less}" true
    [("EDITOR", VStr "emacs")] "$" PidTrue
  = (Ok "emacs less", [("EDITOR", VStr "emacs")]).
Proof.
  exact (@expand_default_value None 7%Z true PidTrue 1 true "EDITOR" "vi" ""
           " ${PAGER-less}" [("EDITOR", VStr "emacs")]
           [("EDITOR", VStr "emacs")] " less"
           eq_refl eq_refl eq_refl eq_refl).
Defined.

Lemma expand_assign_default_witness :
  expand None 7%Z 3 "${n:=1}+$n" false [] "$" PidTrue
  = (Ok "1+1", [("n", VStr "1")]).
Proof.
  exact (@expand_assign_default None 7%Z false PidTrue 1 true "n" "1" ""
           "+$n" [] [("n", VStr "1")] "+1"
           eq_refl eq_refl eq_refl eq_refl eq_refl).
Defined.

Lemma expand_substitute_witness :
  expand None 7%Z 3 "ls${ALL:+ -a}" false [("ALL", VStr "no")] "$" PidTrue
  = (Ok "ls -a", [("ALL", VStr "no")]).
Proof.
  exact (@expand_substitute None 7%Z false PidTrue 1 true "ALL" " -a" "ls" ""
           [("ALL", VStr "no")] [("ALL", VStr "no")] ""
           eq_refl eq_refl eq_refl eq_refl).
Defined.

Lemma expand_strict_witness :
  expand None 7%Z 3 "${TOKEN:?is required}" false [] "$" PidTrue
  = (Raise (ParameterNullOrNotSet "TOKEN" (Some "is required")), []).
Proof.
  exact (@expand_strict None 7%Z false PidTrue 1 true "TOKEN" "is required"
           "" "" [] [] "" eq_refl eq_refl eq_refl eq_refl eq_refl).
Defined.

(** ** The renderer: cache, plain values, modifiers, circular frames *)

Lemma QueryCtl_init_top (key : string) (dbg cch : bool)
    (sd : option settings_dict) (tpl : bool) (kw : settings_kwargs) :
  QueryCtl_init key None (prepare_settings dbg cch sd tpl None kw)
  = Ok (mkQueryCtl key None (call_settings dbg cch sd tpl kw) 0).
Proof. reflexivity. Qed.

Section RendererTop.
Variable RECOVER_NULL : option string.
Variable os_getpid : Z.

(** [render_var] on a name found in the cache. *)
Lemma render_var_hit (fuel : nat) (self : Renderer) (key : string)
    (dbg cch : bool) (sd : option settings_dict) (tpl : bool)
    (kw : settings_kwargs) (c : Cache) (v : value) :
  key <> "" ->
  cache (call_settings dbg cch sd tpl kw) = true ->
  PyDict.get c key = Some v ->
  exists r,
    render_var RECOVER_NULL os_getpid (S fuel) self key dbg cch sd tpl None kw c
    = (Ok (v, r), c).
Proof.
  intros Hname Hcache Hget.
  apply String.eqb_neq in Hname.
  cbn [render_var]. rewrite Hname. unfold bind at 1, lift_result.
  rewrite QueryCtl_init_top.
  unfold settings_cache, settings. rewrite Hcache, Hget.
  eexists. reflexivity.
Qed.

(** X26. What [render_var] returns with the cache on is in the cache
    afterwards, and every later [render_var] of the name with the cache on
    returns that value and leaves the cache alone, whatever the store has
    become in between and whatever the other arguments are. *)
Theorem render_var_cached_value_sticks (fuel : nat) (self : Renderer)
    (key : string) (dbg cch : bool) (sd : option settings_dict) (tpl : bool)
    (kw : settings_kwargs) (c c' : Cache) (v : value) (r : option report) :
  cache (call_settings dbg cch sd tpl kw) = true ->
  render_var RECOVER_NULL os_getpid fuel self key dbg cch sd tpl None kw c
  = (Ok (v, r), c') ->
  PyDict.get c' key = Some v
  /\ forall (fuel' : nat) (self' : Renderer) (dbg' cch' : bool)
            (sd' : option settings_dict) (tpl' : bool) (kw' : settings_kwargs),
       cache (call_settings dbg' cch' sd' tpl' kw') = true ->
       rendered_value
         (render_var RECOVER_NULL os_getpid (S fuel') self' key dbg' cch' sd'
            tpl' None kw' c')
       = Ok v
       /\ after (render_var RECOVER_NULL os_getpid (S fuel') self' key dbg'
                   cch' sd' tpl' None kw' c')
          = c'.
Proof.
  intros Hcache Hrender.
  destruct fuel as [|fuel]; [discriminate|].
  assert (Hname : key <> "").
  { intros ->. discriminate. }
  assert (Hin : PyDict.get c' key = Some v).
  { revert Hrender. pose proof Hname as Hneq.
    apply String.eqb_neq in Hneq.
    cbn [render_var]. rewrite Hneq. unfold bind at 1, lift_result.
    rewrite QueryCtl_init_top.
    unfold settings_cache, settings. rewrite Hcache.
    destruct (PyDict.get c key) as [out|] eqn:Hget.
    - intros H. injection H as <- _ <-. exact Hget.
    - unfold bind at 1.
      destruct (render_var_process _ _ _ _ _ _ _ _ c) as [[[value rep]|e|] c1];
        try discriminate.
      intros H. injection H as <- _ <-. apply get_set_same. }
  split; [exact Hin|].
  intros fuel' self' dbg' cch' sd' tpl' kw' Hcache'.
  destruct (@render_var_hit fuel' self' key dbg' cch' sd' tpl' kw' c' v
              Hname Hcache' Hin) as [r' Hr'].
  unfold rendered_value, after. rewrite Hr'. split; reflexivity.
Qed.

(** X27. A value that is no template, or any value when templating is
    off, is rendered as it is: [render_var] returns the value of the
    store, a template left unexpanded, and stores it in the cache when the
    cache is on. *)
Theorem render_var_passthrough (fuel : nat) (self : Renderer) (key : string)
    (dbg cch : bool) (sd : option settings_dict) (tpl : bool)
    (kw : settings_kwargs) (c : Cache) (v : value) :
  key <> "" ->
  (cache (call_settings dbg cch sd tpl kw) = true -> PyDict.get c key = None) ->
  get_value (store self) key (scope self) = Ok v ->
  template (call_settings dbg cch sd tpl kw) = false
  \/ is_template (engine self) v = false ->
  rendered_value
    (render_var RECOVER_NULL os_getpid (S fuel) self key dbg cch sd tpl None
       kw c)
  = Ok v
  /\ after (render_var RECOVER_NULL os_getpid (S fuel) self key dbg cch sd tpl
              None kw c)
     = if cache (call_settings dbg cch sd tpl kw)
       then PyDict.set c key v
       else c.
Proof.
  intros Hname Hmiss Hval Hplain.
  set (q := mkQueryCtl key None (call_settings dbg cch sd tpl kw) 0).
  rewrite (@render_var_miss RECOVER_NULL os_getpid fuel self key dbg cch sd
             tpl None kw q c Hname (QueryCtl_init_top key dbg cch sd tpl kw)
             Hmiss).
  destruct (@render_var_process_plain RECOVER_NULL os_getpid
              (child_render RECOVER_NULL os_getpid fuel self) fuel self key
              (initial_report key q) q c c v
              (fetch_value_defined self key _ q c Hval) Hplain)
    as [rep' Hp].
  rewrite Hp. unfold rendered_value, after.
  change (settings_cache q) with (cache (call_settings dbg cch sd tpl kw)).
  destruct (cache (call_settings dbg cch sd tpl kw)); split; reflexivity.
Qed.

Lemma modified_reference_is_template (colon : bool) (op : ascii)
    (k arg pre suf : string) :
  is_template ExpandVarsEngine_init
    (VStr (modified_reference colon op k arg pre suf)) = true.
Proof.
  unfold modified_reference. simpl. apply str_contains_app.
  simpl. reflexivity.
Qed.

(** X28. In a value of the store, a reference with the operator [?],
    [${k:?msg}] or [${k?msg}], makes [render_var] raise [TypeError],
    whether [k] is defined or not and whatever the error settings are:
    the expander asks the lazy dict for [k] with a default, which its
    [get] does not take.  The cache is left as it was. *)
Theorem render_var_strict_modifier_raises (fuel : nat) (self : Renderer)
    (key : string) (dbg cch : bool) (sd : option settings_dict) (tpl : bool)
    (kw : settings_kwargs) (c : Cache) (colon : bool)
    (k msg pre suf : string) :
  engine self = ExpandVarsEngine_init ->
  key <> "" ->
  (cache (call_settings dbg cch sd tpl kw) = true -> PyDict.get c key = None) ->
  template (call_settings dbg cch sd tpl kw) = true ->
  get_value (store self) key (scope self)
  = Ok (VStr (modified_reference colon "?" k msg pre suf)) ->
  plain pre = true ->
  valid_name k = true ->
  simple msg = true ->
  render_var RECOVER_NULL os_getpid (S (S (S fuel))) self key dbg cch sd tpl
    None kw c
  = (Raise TypeError, c).
Proof.
  intros Hengine Hname Hmiss Htpl Hval Hpre Hk Hmsg.
  set (q := mkQueryCtl key None (call_settings dbg cch sd tpl kw) 0).
  rewrite (@render_var_miss RECOVER_NULL os_getpid (S (S fuel)) self key dbg
             cch sd tpl None kw q c Hname
             (QueryCtl_init_top key dbg cch sd tpl kw) Hmiss).
  assert (Hist : is_template (engine self)
                   (VStr (modified_reference colon "?" k msg pre suf)) = true).
  { rewrite Hengine. apply modified_reference_is_template. }
  destruct (@render_var_process_template RECOVER_NULL os_getpid
              (child_render RECOVER_NULL os_getpid (S (S fuel)) self)
              (S (S fuel)) self key (initial_report key q) q c c
              (modified_reference colon "?" k msg pre suf)
              (fetch_value_defined self key _ q c Hval) Htpl Hist)
    as [rep' Hp].
  rewrite Hp. unfold render_template, try_except, bind.
  simpl _value. simpl strict. simpl symbol.
  rewrite expand_modified by (reflexivity || assumption).
  reflexivity.
Qed.
End RendererTop.

Lemma first_occurrence (x : string) (l : list string) :
  In x l -> exists l1 l2, l = (l1 ++ x :: l2)%list /\ ~ In x l1.
Proof.
  induction l as [|y l IH]; intros Hin; [destruct Hin|].
  destruct (string_dec y x) as [->|Hneq].
  - exists [], l. split; [reflexivity|intros []].
  - destruct Hin as [H|H]; [contradiction|].
    destruct (IH H) as (l1 & l2 & -> & Hnot).
    exists (y :: l1), l2. split; [reflexivity|].
    intros [E|E]; [contradiction|exact (Hnot E)].
Qed.

(** X30. [is_not_circular] of a frame returns [True] exactly when no
    ancestor of the frame renders the key of the frame; otherwise it raises
    [TemplateRenderingCircularValueError] carrying the key and, as stack,
    the key, the keys of the ancestors up to the nearest one that renders
    the same key, and that key again. *)
Theorem is_not_circular_spec (q : QueryCtl) :
  match is_not_circular q with
  | Ok b => b = true /\ ~ In (key_ctl q) (ancestor_keys (parent q))
  | Raise e =>
      exists l1 l2,
        ancestor_keys (parent q) = (l1 ++ key_ctl q :: l2)%list
        /\ ~ In (key_ctl q) l1
        /\ e = TemplateRenderingCircularValueError (key_ctl q)
                 (key_ctl q :: l1 ++ [key_ctl q])%list
  | OutOfFuel => False
  end.
Proof.
  unfold is_not_circular. destruct (parent q) as [p|] eqn:Hp; simpl.
  - destruct (in_dec string_dec (key_ctl q) (frame_keys p)) as [Hin|Hnot].
    + destruct (first_occurrence _ _ Hin) as (l1 & l2 & Hl & Hnot1).
      rewrite (@walk_parents_found l1 p (key_ctl q) l2 [key_ctl q] Hl Hnot1).
      exists l1, l2. split; [exact Hl|]. split; [exact Hnot1|reflexivity].
    + rewrite (@walk_parents_absent (frame_keys p) p (key_ctl q) [key_ctl q]
                 eq_refl Hnot).
      split; [reflexivity|exact Hnot].
  - split; [reflexivity|intros []].
Qed.

Lemma render_var_cached_value_sticks_witness :
  PyDict.get
    (after (render_var None 7%Z 4 (Scenario.renderer Scenario.template_chain)
              "stack_fname" false true None true None no_kwargs []))
    "stack_fname"
  = Some (VStr "project1+dataset3_dataset3")
  /\ rendered_value
       (render_var None 7%Z 1 (Scenario.renderer Scenario.cycle)
          "stack_fname" false true None true None no_kwargs
          (after (render_var None 7%Z 4
                    (Scenario.renderer Scenario.template_chain)
                    "stack_fname" false true None true None no_kwargs [])))
     = Ok (VStr "project1+dataset3_dataset3").
Proof.
  destruct (@render_var_cached_value_sticks None 7%Z 4
              (Scenario.renderer Scenario.template_chain) "stack_fname"
              false true None true no_kwargs []
              (after (render_var None 7%Z 4
                        (Scenario.renderer Scenario.template_chain)
                        "stack_fname" false true None true None no_kwargs []))
              (VStr "project1+dataset3_dataset3") None eq_refl eq_refl)
    as [Hin Hlater].
  split; [exact Hin|].
  exact (proj1 (Hlater 0 (Scenario.renderer Scenario.cycle) false true None
                  true no_kwargs eq_refl)).
Defined.

Lemma render_var_passthrough_witness :
  rendered_value
    (render_var None 7%Z 1 (Scenario.renderer Scenario.cycle) "stack_fname"
       false true None false None no_kwargs [])
  = Ok (VStr "b+${project_name}")
  /\ after (render_var None 7%Z 1 (Scenario.renderer Scenario.cycle)
              "stack_fname" false true None false None no_kwargs [])
     = [("stack_fname", VStr "b+${project_name}")].
Proof.
  apply (@render_var_passthrough None 7%Z 0
           (Scenario.renderer Scenario.cycle) "stack_fname" false true None
           false no_kwargs [] (VStr "b+${project_name}")).
  - discriminate.
  - reflexivity.
  - reflexivity.
  - left. reflexivity.
Defined.

Lemma render_var_strict_modifier_raises_witness :
  render_var None 7%Z 3
    (mkRenderer
       (after (set_layer Scenario.base "stack_env"
                 [("token", VStr "abc"); ("auth", VStr "t=${token:?missing}")]
                 []))
       (Some "scope_stack") ExpandVarsEngine_init)
    "auth" false true None true None no_kwargs []
  = (Raise TypeError, []).
Proof.
  apply (@render_var_strict_modifier_raises None 7%Z 0
           (mkRenderer
              (after (set_layer Scenario.base "stack_env"
                        [("token", VStr "abc");
                         ("auth", VStr "t=${token:?missing}")] []))
              (Some "scope_stack") ExpandVarsEngine_init)
           "auth" false true None true no_kwargs [] true "token" "missing"
           "t=" "").
  - reflexivity.
  - discriminate.
  - reflexivity.
  - reflexivity.
  - reflexivity.
  - reflexivity.
  - reflexivity.
  - reflexivity.
Defined.

Section RendererModifier.
Variable RECOVER_NULL : option string.
Variable os_getpid : Z.

(** The lookup of a name that no layer holds, by a frame whose
    [on_undefined_error] is [Exception]. *)
Lemma lookup_undefined (fuel : nat) (self : Renderer) (q : QueryCtl)
    (k : string) (c : Cache) :
  k <> "" ->
  is_not_circular q = Ok true ->
  (cache (settings q) = true -> PyDict.get c k = None) ->
  on_undefined_error (settings q) = PolicyException ->
  get_value (store self) k (scope self) = Raise (UndefinedVarError k) ->
  ExpandParser.get
    (LazyQueryDict (child_render RECOVER_NULL os_getpid (S fuel) self) q)
    (VStr k) c
  = (Raise (UndefinedVarError k), c).
Proof.
  intros Hk Hcirc Hmiss Hpol Hundef.
  rewrite (@lookup_child _ q k c true Hk Hcirc).
  unfold bind, child_render.
  assert (Hmiss' : settings_cache (child_frame k q) = true ->
                   PyDict.get c k = None) by exact Hmiss.
  rewrite (@render_var_miss RECOVER_NULL os_getpid fuel self k false true
             None true (Some (bump q)) no_kwargs (child_frame k q) c
             Hk (QueryCtl_init_child k q false true true None no_kwargs)
             Hmiss').
  pose proof (@fetch_value_undefined self k (initial_report k (child_frame k q))
                (child_frame k q) c k Hundef) as Hfetch.
  change (settings (child_frame k q)) with (settings q) in Hfetch.
  rewrite Hpol in Hfetch.
  rewrite (@render_var_process_fetch_raises RECOVER_NULL os_getpid _ fuel
             self k (initial_report k (child_frame k q)) (child_frame k q)
             c c (UndefinedVarError k) Hfetch).
  reflexivity.
Qed.

(** X29. In a value of the store, the default of [${k:-d}] does not
    stand for a variable that no layer holds: with [on_undefined_error]
    left to [Exception], [render_var] raises [UndefinedVarError] for [k],
    and the cache is left as it was. *)
Theorem render_var_default_not_for_undefined (fuel : nat) (self : Renderer)
    (key : string) (dbg cch : bool) (sd : option settings_dict) (tpl : bool)
    (kw : settings_kwargs) (c : Cache) (colon : bool)
    (k d pre suf : string) :
  engine self = ExpandVarsEngine_init ->
  key <> "" ->
  (cache (call_settings dbg cch sd tpl kw) = true ->
   PyDict.get c key = None /\ PyDict.get c k = None) ->
  template (call_settings dbg cch sd tpl kw) = true ->
  on_undefined_error (call_settings dbg cch sd tpl kw) = PolicyException ->
  get_value (store self) key (scope self)
  = Ok (VStr (modified_reference colon "-" k d pre suf)) ->
  get_value (store self) k (scope self) = Raise (UndefinedVarError k) ->
  plain pre = true ->
  valid_name k = true ->
  simple d = true ->
  render_var RECOVER_NULL os_getpid (S (S (S fuel))) self key dbg cch sd tpl
    None kw c
  = (Raise (UndefinedVarError k), c).
Proof.
  intros Hengine Hname Hmiss Htpl Hpol Hval Hundef Hpre Hk Hd.
  set (q := mkQueryCtl key None (call_settings dbg cch sd tpl kw) 0).
  assert (Hmiss1 : settings_cache q = true -> PyDict.get c key = None).
  { intros H. exact (proj1 (Hmiss H)). }
  rewrite (@render_var_miss RECOVER_NULL os_getpid (S (S fuel)) self key dbg
             cch sd tpl None kw q c Hname
             (QueryCtl_init_top key dbg cch sd tpl kw) Hmiss1).
  assert (Hist : is_template (engine self)
                   (VStr (modified_reference colon "-" k d pre suf)) = true).
  { rewrite Hengine. apply modified_reference_is_template. }
  destruct (@render_var_process_template RECOVER_NULL os_getpid
              (child_render RECOVER_NULL os_getpid (S (S fuel)) self)
              (S (S fuel)) self key (initial_report key q) q c c
              (modified_reference colon "-" k d pre suf)
              (fetch_value_defined self key _ q c Hval) Htpl Hist)
    as [rep' Hp].
  rewrite Hp. unfold render_template, try_except, bind.
  simpl _value. simpl strict. simpl symbol.
  rewrite expand_modified by (reflexivity || assumption).
  unfold try_except, bind, dispatch. cbn [Ascii.eqb Bool.eqb andb].
  unfold ExpandParser._expand_default, bind, ret.
  unfold ExpandParser.getenv, bind.
  cbn [ExpandParser.environ].
  rewrite (@lookup_undefined (S fuel) self q k c
             (@valid_name_nonempty k Hk) eq_refl
             (fun H => proj2 (Hmiss H)) Hpol Hundef).
  reflexivity.
Qed.
End RendererModifier.

Lemma render_var_default_not_for_undefined_witness :
  render_var None 7%Z 3
    (mkRenderer
       (after (set_layer Scenario.base "stack_env"
                 [("greeting", VStr "hello ${user:-nobody}")] []))
       (Some "scope_stack") ExpandVarsEngine_init)
    "greeting" false true None true None no_kwargs []
  = (Raise (UndefinedVarError "user"), []).
Proof.
  apply (@render_var_default_not_for_undefined None 7%Z 0
           (mkRenderer
              (after (set_layer Scenario.base "stack_env"
                        [("greeting", VStr "hello ${user:-nobody}")] []))
              (Some "scope_stack") ExpandVarsEngine_init)
           "greeting" false true None true no_kwargs [] true "user" "nobody"
           "hello " "").
  - reflexivity.
  - discriminate.
  - intros _. split; reflexivity.
  - reflexivity.
  - reflexivity.
  - reflexivity.
  - reflexivity.
  - reflexivity.
  - reflexivity.
  - reflexivity.
Defined.
